(** * gcp-storage-emulator: the storage engine, its checksum validator and
      the object handlers, embedded in Rocq

    The development follows three source files:

    - [gcp_storage_emulator/checksums.py]: [_crc32c], [_md5], [checksums];
    - [gcp_storage_emulator/storage.py]: the class [Storage] (catalog of
      buckets, objects, resumable and multipart sessions, and the content
      store behind it);
    - [gcp_storage_emulator/handlers/objects.py]: [_patch_object],
      [_make_object_resource] and the upload handlers.

    Python values are embedded as follows.  A [str] is a [string], a [bytes]
    is a [list byte], an [int] is a [Z].  A [dict] is an association list in
    insertion order, because [get_file_list] returns its results in the order
    in which the dictionary yields them.  JSON-like values (what a resource
    holds in a field) are the inductive type [value]; floating point numbers
    are left out.  A method that mutates [self] is a function from the
    storage to the storage after the call and an [outcome], so that what an
    exception leaves behind stays visible.

    The byte store (pyfilesystem2) is a finite map from the names of the
    directories of the storage directory, one for each bucket and the two
    of the storage itself, to trees: a tree is a finite map from paths
    (lists of names) to files with their bytes and directories.  The key of
    an object is a path below the directory of its bucket, normalised as
    [fs.path.normpath] does it; what [makedirs], [open] and [remove] raise
    for a path is raised here.  The name of a bucket is the name of its
    directory: it is one name, not a path. *)

From Stdlib Require Import ZArith String Ascii Strings.Byte.
From Stdlib Require Import DecimalString DecimalZ DecimalPos Decimal.
From stdpp Require Import gmap strings list.

Set Warnings "-register-all".

Local Open Scope string_scope.
Local Open Scope list_scope.
Local Open Scope Z_scope.

Abbreviation bytes := (list byte) (only parsing).

(** ** Python dictionaries: association lists in insertion order *)

Module PyDict.

Definition dict (V : Type) := list (string * V).

Section Ops.
Context {V : Type}.

(** [d.get(k)] *)
Fixpoint get (k : string) (d : dict V) : option V :=
  match d with
  | [] => None
  | (k', v) :: d' => if String.eqb k k' then Some v else get k d'
  end.

(** [d[k] = v]: an existing key keeps its position, a new key goes last. *)
Fixpoint set (k : string) (v : V) (d : dict V) : dict V :=
  match d with
  | [] => [(k, v)]
  | (k', v') :: d' =>
      if String.eqb k k' then (k', v) :: d' else (k', v') :: set k v d'
  end.

(** [del d[k]] (the caller checks that the key is there). *)
Fixpoint del (k : string) (d : dict V) : dict V :=
  match d with
  | [] => []
  | (k', v') :: d' =>
      if String.eqb k k' then del k d' else (k', v') :: del k d'
  end.

(** [k in d] *)
Definition mem (k : string) (d : dict V) : bool :=
  match get k d with Some _ => true | None => false end.

(** [list(d)], [list(d.values())], [d.items()] *)
Definition keys (d : dict V) : list string := map fst d.
Definition values (d : dict V) : list V := map snd d.
Definition items (d : dict V) : list (string * V) := d.

(** [d1 | d2] *)
Definition union (d1 d2 : dict V) : dict V :=
  fold_left (fun acc kv => set (fst kv) (snd kv) acc) d2 d1.
End Ops.

End PyDict.

Abbreviation dict := PyDict.dict.

(** ** JSON-like values *)

Inductive value :=
| VNone
| VBool (b : bool)
| VInt (n : Z)
| VStr (s : string)
| VList (l : list value)
| VDict (d : list (string * value)).

(** An object, bucket or session resource is a [dict] of values. *)
Abbreviation resource := (dict value) (only parsing).

(** ** Exceptions and outcomes *)

(** The two [Conflict] messages of [checksums.py] and the two of
    [delete_bucket] are kept as a tag with the arguments that the source
    formats into the message. *)
Inductive conflict :=
| Crc32cMismatch (provided : value) (computed : string)
| Md5Mismatch (provided : value) (computed : string)
| BucketNotEmpty (bucket_name : string)
| PendingUploads (bucket_name : string).

(** The last four are raised by pyfilesystem2 ([fs.errors]); the storage
    catches [ResourceNotFound] and [FileExpected] where it says so and lets
    them pass everywhere else. *)
Inductive exn :=
| NotFound
| Conflict (why : conflict)
| KeyError (key : string)
| TypeError
| ValueError
| AttributeError
| FileExpected
| DirectoryExpected
| ResourceNotFound
| IllegalBackReference.

Inductive outcome (A : Type) :=
| Ok (a : A)
| Raise (e : exn).

Arguments Ok {A} a.
Arguments Raise {A} e.

Definition is_ok {A} (r : outcome A) : bool :=
  match r with Ok _ => true | Raise _ => false end.

(** [r.get(k)]: the value, or [None] when the key is missing. *)
Definition field (r : resource) (k : string) : value :=
  match PyDict.get k r with Some v => v | None => VNone end.

(** [bool(v)] *)
Definition truthy (v : value) : bool :=
  match v with
  | VNone => false
  | VBool b => b
  | VInt n => negb (n =? 0)
  | VStr s => negb (String.eqb s "")
  | VList l => match l with [] => false | _ => true end
  | VDict d => match d with [] => false | _ => true end
  end.

(** [v is None] *)
Definition is_none (v : value) : bool :=
  match v with VNone => true | _ => false end.

(** Integers and booleans compare with each other as numbers. *)
Definition int_like (v : value) : option Z :=
  match v with
  | VBool b => Some (if b then 1 else 0)
  | VInt n => Some n
  | _ => None
  end.

(** [a == b] *)
Fixpoint py_eq (a b : value) : bool :=
  match a, b with
  | VNone, VNone => true
  | VStr s, VStr t => String.eqb s t
  | VList l, VList m =>
      (fix go (l m : list value) : bool :=
         match l, m with
         | [], [] => true
         | x :: l', y :: m' => py_eq x y && go l' m'
         | _, _ => false
         end) l m
  | VDict d, VDict e =>
      (length d =? length e)%nat
      && (fix go (d : list (string * value)) : bool :=
            match d with
            | [] => true
            | (k, x) :: d' =>
                match PyDict.get k e with
                | Some y => py_eq x y
                | None => false
                end && go d'
            end) d
  | _, _ =>
      match int_like a, int_like b with
      | Some m, Some n => m =? n
      | _, _ => false
      end
  end.

(** [a > b]: strings by code point, numbers by value, lists
    lexicographically; anything else is a [TypeError]. *)
Fixpoint py_gt (a b : value) : outcome bool :=
  match a, b with
  | VStr s, VStr t => Ok (String.ltb t s)
  | VList l, VList m =>
      (fix go (l m : list value) : outcome bool :=
         match l, m with
         | [], _ => Ok false
         | _ :: _, [] => Ok true
         | x :: l', y :: m' => if py_eq x y then go l' m' else py_gt x y
         end) l m
  | _, _ =>
      match int_like a, int_like b with
      | Some m, Some n => Ok (n <? m)
      | _, _ => Raise TypeError
      end
  end.

(** ** Strings *)

(** [str(n)] for an [int]. *)
Definition py_str (n : Z) : string := NilZero.string_of_int (Z.to_int n).

(** [s[n:]] *)
Fixpoint str_drop (n : nat) (s : string) : string :=
  match n, s with
  | O, _ => s
  | S n', String _ s' => str_drop n' s'
  | S _, EmptyString => EmptyString
  end.

(** [s[:n]] *)
Fixpoint str_take (n : nat) (s : string) : string :=
  match n, s with
  | O, _ => EmptyString
  | S n', String c s' => String c (str_take n' s')
  | S _, EmptyString => EmptyString
  end.

(** [d in s] *)
Fixpoint contains (d s : string) : bool :=
  String.prefix d s
  || match s with
     | EmptyString => false
     | String _ s' => contains d s'
     end.

(** [s.split(d, 1)[0]] for a non-empty [d]: what comes before the first
    occurrence of [d], or all of [s] when there is none. *)
Fixpoint split_head (d s : string) : string :=
  if String.prefix d s then EmptyString
  else match s with
       | EmptyString => EmptyString
       | String c s' => String c (split_head d s')
       end.

(** [f"{n:05}"]: at least five characters, padded with zeros after the
    sign. *)
Fixpoint zeros (k : nat) : string :=
  match k with
  | O => EmptyString
  | S k' => String "0" (zeros k')
  end.

Definition zero_pad (width : nat) (digits : string) : string :=
  zeros (width - String.length digits) +:+ digits.

Definition fmt05 (n : Z) : string :=
  if n <? 0 then "-" +:+ zero_pad 4 (py_str (Z.abs n))
  else zero_pad 5 (py_str n).

(** [b[:n]] on bytes, with Python's reading of a negative bound. *)
Definition bytes_upto (n : Z) (b : bytes) : bytes :=
  if 0 <=? n then take (Z.to_nat n) b
  else take (Z.to_nat (Z.of_nat (length b) + n)) b.

(** ** Paths of pyfilesystem2 ([fs.path])

    A key is a path of the file system below its bucket. *)

(** [path.split("/")] *)
Fixpoint components (s : string) : list string :=
  match s with
  | EmptyString => [EmptyString]
  | String c s' =>
      if Ascii.eqb c "/" then EmptyString :: components s'
      else match components s' with
           | head :: tail => String c head :: tail
           | [] => [String c EmptyString]
           end
  end.

(** The loop of [normpath] over the components: an empty component and
    ["."] are dropped, [".."] takes the last component back and raises
    [IllegalBackReference] when there is none.  [stack] holds the
    components kept so far, the last one first. *)
Fixpoint normalise (stack : list string) (cs : list string)
  : outcome (list string) :=
  match cs with
  | [] => Ok (rev stack)
  | c :: cs' =>
      if String.eqb c ".." then
        match stack with
        | [] => Raise IllegalBackReference
        | _ :: stack' => normalise stack' cs'
        end
      else if String.eqb c "" || String.eqb c "." then normalise stack cs'
      else normalise (c :: stack) cs'
  end.

(** [relpath(normpath(p))], as the list of its components: the place
    that [p] names below the directory it is given to. *)
Definition normpath (p : string) : outcome (list string) :=
  normalise [] (components p).

(** [fs.path.split] cuts a path at its last ["/"]: [basename] is what
    comes after it (all of the path when there is no ["/"]), [dirname]
    what comes before it.  [dirname] is given by its components, those of
    the path but the last one. *)
Definition basename (p : string) : string := List.last (components p) "".

Definition dirname (p : string) : list string := removelast (components p).

(** ** Mutation and exceptions

    [M S A] is a computation that mutates an [S] (a resource passed by
    reference, or the storage object [self]) and either returns an [A] or
    raises.  The state after an exception is the state at the [raise]. *)

Definition M (S A : Type) : Type := S -> S * outcome A.

Definition ret {S A} (a : A) : M S A := fun s => (s, Ok a).

Definition raise {S A} (e : exn) : M S A := fun s => (s, Raise e).

Definition bind {S A B} (m : M S A) (k : A -> M S B) : M S B :=
  fun s =>
    match m s with
    | (s', Ok a) => k a s'
    | (s', Raise e) => (s', Raise e)
    end.

Definition gets {S A} (f : S -> A) : M S A := fun s => (s, Ok (f s)).

Definition modify {S} (f : S -> S) : M S unit := fun s => (f s, Ok tt).

(** A call that cannot mutate the state (a pure function or a read-only
    method). *)
Definition reads {S A} (f : S -> outcome A) : M S A := fun s => (s, f s).

Definition lift {S A} (r : outcome A) : M S A := fun s => (s, r).

(** [try: m  except NotFound: h] *)
Definition except_NotFound {S A} (m : M S A) (h : M S A) : M S A :=
  fun s =>
    match m s with
    | (s', Raise NotFound) => h s'
    | r => r
    end.

(** [for x in l: body x] *)
Fixpoint for_each {S A} (l : list A) (body : A -> M S unit) : M S unit :=
  match l with
  | [] => ret tt
  | x :: l' => bind (body x) (fun _ => for_each l' body)
  end.

Declare Scope py_scope.
Delimit Scope py_scope with py.
Notation "x <- m ;; k" := (bind m (fun x => k))
  (at level 20, m at level 99, k at level 200, only parsing) : py_scope.
Notation "m ;; k" := (bind m (fun _ => k))
  (at level 100, k at level 200, right associativity, only parsing)
  : py_scope.
Local Open Scope py_scope.

(** [v.get(k)] on a value: only a dictionary has the method. *)
Definition py_get (v : value) (k : string) : outcome value :=
  match v with
  | VDict d => Ok (field d k)
  | _ => Raise AttributeError
  end.

(** [o[k]] *)
Definition subscript (k : string) (o : resource) : outcome value :=
  match PyDict.get k o with
  | Some v => Ok v
  | None => Raise (KeyError k)
  end.

(** A value used where the libraries want a [str] (a path, a name). *)
Definition as_str (v : value) : outcome string :=
  match v with
  | VStr s => Ok s
  | _ => Raise TypeError
  end.

(** ** What the code imports

    The digests, the base64 encoder and [int()] on a string are library
    functions.  The development is parametric in them: every definition and
    theorem below holds for whatever they compute. *)

Class Imports := {
  (** [google_crc32c.Checksum(content).digest()] *)
  google_crc32c : bytes -> bytes;
  (** [hashlib.md5(content).digest()] *)
  hashlib_md5 : bytes -> bytes;
  (** [b64encode(digest).decode("ascii")] *)
  b64encode : bytes -> string;
  (** [sha256(s.encode("utf-8")).hexdigest()] *)
  sha256_hexdigest : string -> string;
  (** [int(s)] on a [str]; [None] stands for [ValueError]. *)
  int_of_str : string -> option Z }.

Section Emulator.

Context `{Imports}.

(** [int(v)] *)
Definition py_int (v : value) : outcome Z :=
  match v with
  | VInt n => Ok n
  | VBool b => Ok (if b then 1 else 0)
  | VStr s =>
      match int_of_str s with
      | Some n => Ok n
      | None => Raise ValueError
      end
  | _ => Raise TypeError
  end.

(** *** checksums.py *)

Definition _crc32c (content : bytes) : string :=
  b64encode (google_crc32c content).

Definition _md5 (content : bytes) : string :=
  b64encode (hashlib_md5 content).

(** [checksums(content, file_obj)]: [file_obj] is mutated in place and
    returned; the first component is [file_obj] after the call. *)
Definition checksums (content : bytes) (file_obj : resource)
  : resource * outcome unit :=
  (let crc32c_hash := _crc32c content in
   obj_crc32c <- gets (fun o => field o "crc32c") ;;
   let md5_hash := _md5 content in
   obj_md5 <- gets (fun o => field o "md5Hash") ;;
   (if negb (truthy obj_crc32c) then
      modify (PyDict.set "crc32c" (VStr crc32c_hash))
    else if negb (py_eq obj_crc32c (VStr crc32c_hash)) then
      raise (Conflict (Crc32cMismatch obj_crc32c crc32c_hash))
    else ret tt) ;;
   (if negb (truthy obj_md5) then
      modify (PyDict.set "md5Hash" (VStr md5_hash))
    else if negb (py_eq obj_md5 (VStr md5_hash)) then
      raise (Conflict (Md5Mismatch obj_md5 md5_hash))
    else ret tt) ;;
   etag <- gets (fun o => field o "etag") ;;
   if negb (truthy etag) then modify (PyDict.set "etag" (VStr md5_hash))
   else ret tt) file_obj.

(** *** handlers/objects.py: resources *)

Definition _WRITABLE_FIELDS : list string :=
  [ "cacheControl"; "contentDisposition"; "contentEncoding";
    "contentLanguage"; "contentType"; "crc32c"; "customTime"; "md5Hash";
    "metadata"; "storageClass" ].

(** The body of the loop of [_patch_object], for one writable field. *)
Definition patch_field (metadata : value) (key : string)
  : M resource unit :=
  val <- lift (py_get metadata key) ;;
  if negb (is_none val) then
    cur <- gets (fun o => field o key) ;;
    skip <- (if String.eqb key "customTime" && truthy cur
             then lift (py_gt cur val) else ret false) ;;
    if (skip : bool) then ret tt else modify (PyDict.set key val)
  else ret tt.

(** [_patch_object(obj, metadata)]: [obj] is mutated in place and
    returned. *)
Definition _patch_object (obj : resource) (metadata : value)
  : resource * outcome unit :=
  (if truthy metadata then
     mg <- reads (subscript "metageneration") ;;
     n <- lift (py_int mg) ;;
     modify (PyDict.set "metageneration" (VStr (py_str (n + 1)))) ;;
     for_each _WRITABLE_FIELDS (patch_field metadata)
   else ret tt) obj.

(** [_make_object_resource]; [time_id] is [math.floor(time.time())] and
    [now] the formatted [datetime.now(timezone.utc)] of the call. *)
Definition _make_object_resource (time_id : Z) (now : string)
    (base_url bucket_name object_name : string)
    (content_type content_length metadata : value) : outcome resource :=
  let obj : resource :=
    [ ("kind", VStr "storage#object");
      ("id", VStr (bucket_name +:+ "/" +:+ object_name +:+ "/"
                   +:+ py_str time_id));
      ("selfLink", VStr ("/storage/v1/b/" +:+ bucket_name +:+ "/o/"
                         +:+ object_name));
      ("name", VStr object_name);
      ("bucket", VStr bucket_name);
      ("generation", VStr (py_str time_id));
      ("metageneration", VStr "1");
      ("contentType", content_type);
      ("timeCreated", VStr now);
      ("updated", VStr now);
      ("storageClass", VStr "STANDARD");
      ("timeStorageClassUpdated", VStr now);
      ("size", content_length);
      ("md5Hash", VNone);
      ("mediaLink", VStr (base_url +:+ "/download/storage/v1/b/"
                          +:+ bucket_name +:+ "/o/" +:+ object_name
                          +:+ "?generation=" +:+ py_str time_id
                          +:+ "&alt=media"));
      ("crc32c", VNone);
      ("etag", VNone) ] in
  match _patch_object obj metadata with
  | (obj', Ok _) => Ok obj'
  | (_, Raise e) => Raise e
  end.

(** *** storage.py *)

(** Real buckets can't start with an underscore. *)
Definition RESUMABLE_DIR : string := "_resumable".
Definition MULTIPART_DIR : string := "_multipart".

(** What [_write_config_to_file] dumps into [.meta]. *)
Record Config := mkConfig {
  cfg_buckets : dict resource;
  cfg_objects : dict (dict resource);
  cfg_resumable : dict resource;
  cfg_multipart : dict resource }.

(** What a path of the file system holds: a file with its bytes, or a
    directory. *)
Inductive entry :=
| FileE (content : bytes)
| DirE.

Abbreviation path := (list string) (only parsing).

(** The tree below a directory of the storage directory: what each path
    below it holds.  The empty path is the directory itself. *)
Abbreviation tree := (gmap (list string) entry) (only parsing).

(** The attributes of a [Storage] object.  [_fs] is the file system below
    the storage directory: the directory of each bucket and the two
    transient directories, each with its tree (the name of a bucket is the
    name of its directory).  [meta] is the [.meta] file, [None] while it
    has not been written. *)
Record Storage := mkStorage {
  buckets : dict resource;
  objects : dict (dict resource);
  resumable : dict resource;
  multipart : dict resource;
  _fs : gmap string tree;
  meta : option Config }.

Definition set_buckets (f : dict resource -> dict resource)
    (self : Storage) : Storage :=
  mkStorage (f (buckets self)) (objects self) (resumable self)
            (multipart self) (_fs self) (meta self).

Definition set_objects (f : dict (dict resource) -> dict (dict resource))
    (self : Storage) : Storage :=
  mkStorage (buckets self) (f (objects self)) (resumable self)
            (multipart self) (_fs self) (meta self).

Definition set_resumable (f : dict resource -> dict resource)
    (self : Storage) : Storage :=
  mkStorage (buckets self) (objects self) (f (resumable self))
            (multipart self) (_fs self) (meta self).

Definition set_multipart (f : dict resource -> dict resource)
    (self : Storage) : Storage :=
  mkStorage (buckets self) (objects self) (resumable self)
            (f (multipart self)) (_fs self) (meta self).

Definition set_fs (f : gmap string tree -> gmap string tree)
    (self : Storage) : Storage :=
  mkStorage (buckets self) (objects self) (resumable self)
            (multipart self) (f (_fs self)) (meta self).

Definition _write_config_to_file (self : Storage) : Storage :=
  mkStorage (buckets self) (objects self) (resumable self)
            (multipart self) (_fs self)
            (Some (mkConfig (buckets self) (objects self) (resumable self)
                            (multipart self))).

(** Real buckets can't start with an underscore: [_resumable] and
    [_multipart] are directories of the storage itself.  It names the
    files there by a digest in hexadecimal ([safe_id], with a part number
    in [_multipart]): such a name is one component of a path and names a
    file, so below these two directories a name is taken as it is. *)
Definition transient (dir : string) : bool :=
  String.eqb dir RESUMABLE_DIR || String.eqb dir MULTIPART_DIR.

(** The place of [file_name] below the directory [dir]. *)
Definition locate (dir file_name : string) : outcome (list string) :=
  if transient dir then Ok [file_name] else normpath file_name.

(** [try: self._fs.makedir(bucket_name)
     except DirectoryExists: self._fs.opendir(bucket_name)] *)
Definition make_container (self : Storage) (bucket_name : string)
  : Storage :=
  match _fs self !! bucket_name with
  | Some _ => self
  | None => set_fs (insert bucket_name ∅) self
  end.

Definition set_container (bucket_name : string) (t : tree) (self : Storage)
  : Storage :=
  set_fs (insert bucket_name t) self.

(** The tree of a directory of the storage directory, empty while the
    directory is missing; the storage with the file [content] at [p] in
    that tree; the storage without what is at [p]. *)
Definition container (self : Storage) (dir : string) : tree :=
  default ∅ (_fs self !! dir).

Definition put_file (self : Storage) (dir : string) (p : path)
    (content : bytes) : Storage :=
  set_container dir (<[p := FileE content]> (container self dir)) self.

Definition drop_file (self : Storage) (dir : string) (p : path) : Storage :=
  match _fs self !! dir with
  | Some t => set_container dir (delete p t) self
  | None => self
  end.

(** [p] is a directory of the tree [t]. *)
Definition is_dir (t : tree) (p : path) : bool :=
  match p, t !! p with
  | [], _ => true
  | _, Some DirE => true
  | _, _ => false
  end.

(** [makedirs(d, recreate=True)] below the directory at [here]: every
    directory on the way to [d] is made unless it is there, and a file
    on the way raises [DirectoryExpected] before anything is made. *)
Fixpoint makedirs (here : path) (d : list string) (t : tree)
  : outcome tree :=
  match d with
  | [] => Ok t
  | c :: d' =>
      let here' := here ++ [c] in
      match t !! here' with
      | Some (FileE _) => Raise DirectoryExpected
      | _ => makedirs here' d' (<[here' := DirE]> t)
      end
  end.

(** [_get_or_create_dir]: the directory of the bucket is made when it is
    missing, then the directories of [dirname(file_name)] below it.  The
    result is the directory that [makedirs] returns, as its path below
    the directory of the bucket. *)
Definition _get_or_create_dir (self : Storage) (bucket_name file_name : string)
  : Storage * outcome (list string) :=
  let self := make_container self bucket_name in
  if transient bucket_name then (self, Ok [])
  else
    match normalise [] (dirname file_name) with
    | Raise e => (self, Raise e)
    | Ok dir_name =>
        match _fs self !! bucket_name with
        | None => (self, Raise ResourceNotFound)
        | Some t =>
            match makedirs [] dir_name t with
            | Raise e => (self, Raise e)
            | Ok t' => (set_container bucket_name t' self, Ok dir_name)
            end
        end
    end.

(** [with file_dir.open(name, mode="wb") as file: file.write(content)]
    for the directory [file_dir] of the bucket: the path must not be a
    directory ([FileExpected]; so it is for a name without a last
    component) and must lie in a directory ([ResourceNotFound]). *)
Definition write_file (self : Storage) (bucket_name : string)
    (file_dir : list string) (name : string) (content : bytes)
  : Storage * outcome unit :=
  match _fs self !! bucket_name with
  | None => (self, Raise ResourceNotFound)
  | Some t =>
      if transient bucket_name then
        (set_container bucket_name (<[[name] := FileE content]> t) self,
         Ok tt)
      else
        match normpath name with
        | Raise e => (self, Raise e)
        | Ok below =>
            let target := file_dir ++ below in
            match target with
            | [] => (self, Raise FileExpected)
            | _ :: _ =>
                if negb (is_dir t (removelast target)) then
                  (self, Raise ResourceNotFound)
                else
                  match t !! target with
                  | Some DirE => (self, Raise FileExpected)
                  | _ =>
                      (set_container bucket_name
                         (<[target := FileE content]> t) self, Ok tt)
                  end
            end
        end
  end.

(** [sha256(file_id.encode("utf-8")).hexdigest()] *)
Definition safe_id (file_id : string) : string := sha256_hexdigest file_id.

Definition get_bucket (self : Storage) (bucket_name : string)
  : option resource :=
  PyDict.get bucket_name (buckets self).

(** [bool(s)] and [s or ""] for an optional string argument. *)
Definition given (s : option string) : bool :=
  match s with
  | Some s => negb (String.eqb s "")
  | None => false
  end.

Definition or_empty (s : option string) : string :=
  match s with
  | Some s => s
  | None => ""
  end.

Definition get_file_list (self : Storage) (bucket_name : string)
    (prefix delimiter : option string)
  : outcome (list resource * list string) :=
  if negb (PyDict.mem bucket_name (buckets self)) then Raise NotFound
  else
    let bucket_objects : dict resource :=
      match PyDict.get bucket_name (objects self) with
      | Some d => d
      | None => []
      end in
    let prefix_len : nat :=
      if given prefix then String.length (or_empty prefix) else 0%nat in
    let objs : list resource :=
      if given prefix then
        map snd
          (List.filter
             (fun item : string * resource =>
                let file_name := fst item in
                String.prefix (or_empty prefix) file_name
                && (negb (given delimiter)
                    || negb (contains (or_empty delimiter)
                               (str_drop prefix_len file_name))))
             (PyDict.items bucket_objects))
      else PyDict.values bucket_objects in
    let prefixes : list string :=
      if given delimiter then
        map (fun file_name =>
               str_take prefix_len file_name
               +:+ split_head (or_empty delimiter)
                     (str_drop prefix_len file_name)
               +:+ or_empty delimiter)
          (List.filter
             (fun file_name =>
                String.prefix (or_empty prefix) file_name
                && contains (or_empty delimiter)
                     (str_drop prefix_len file_name))
             (PyDict.keys bucket_objects))
      else [] in
    Ok (objs, prefixes).

Definition create_bucket (self : Storage) (bucket_name : string)
    (bucket_obj : resource) : Storage * outcome resource :=
  (modify (set_buckets (PyDict.set bucket_name bucket_obj)) ;;
   modify _write_config_to_file ;;
   ret bucket_obj) self.

Definition get_file_obj (self : Storage) (bucket_name file_name : string)
  : outcome resource :=
  match PyDict.get bucket_name (objects self) with
  | Some bucket_objects =>
      match PyDict.get file_name bucket_objects with
      | Some file_obj => Ok file_obj
      | None => Raise NotFound
      end
  | None => Raise NotFound
  end.

Definition get_resumable_file_obj (self : Storage) (file_id : string)
  : outcome resource :=
  match PyDict.get file_id (resumable self) with
  | Some file_obj => Ok file_obj
  | None => Raise NotFound
  end.

(** [get_file]; [show_error] only chooses whether the miss is logged.
    [opendir] raises [ResourceNotFound] for a missing directory and
    [open] for a missing file, [FileExpected] for a directory: the two
    are caught.  What [normpath] raises is not. *)
Definition get_file (self : Storage) (bucket_name file_name : string)
  : outcome bytes :=
  match _fs self !! bucket_name with
  | Some bucket_dir =>
      match locate bucket_name file_name with
      | Ok p =>
          match bucket_dir !! p with
          | Some (FileE content) => Ok content
          | _ => Raise NotFound
          end
      | Raise e => Raise e
      end
  | None => Raise NotFound
  end.

Definition delete_resumable_file_obj (self : Storage) (file_id : string)
  : Storage * outcome unit :=
  match PyDict.get file_id (resumable self) with
  | Some _ => (set_resumable (PyDict.del file_id) self, Ok tt)
  | None => (self, Raise NotFound)
  end.

(** [_delete_file]: a missing directory or file is logged, not raised
    ([ResourceNotFound] is caught); [remove] raises [FileExpected] for a
    directory. *)
Definition _delete_file (self : Storage) (bucket_name file_name : string)
  : Storage * outcome unit :=
  match _fs self !! bucket_name with
  | None => (self, Ok tt)
  | Some t =>
      if transient bucket_name then
        (set_container bucket_name (delete [file_name] t) self, Ok tt)
      else
        match normpath file_name with
        | Raise e => (self, Raise e)
        | Ok [] => (self, Raise FileExpected)
        | Ok p =>
            match t !! p with
            | Some (FileE _) =>
                (set_container bucket_name (delete p t) self, Ok tt)
            | Some DirE => (self, Raise FileExpected)
            | None => (self, Ok tt)
            end
        end
  end.

(** [_delete_dir(path)] with [force=True]: [removetree]. *)
Definition _delete_dir (self : Storage) (path : string) : Storage :=
  set_fs (delete path) self.

(** [checksums] as the callers use it: the mutated resource is the
    result. *)
Definition checked (content : bytes) (file_obj : resource)
  : outcome resource :=
  match checksums content file_obj with
  | (file_obj', Ok _) => Ok file_obj'
  | (_, Raise e) => Raise e
  end.

(** [bucket_objects = self.objects.get(bucket_name, {});
    bucket_objects[file_name] = file_obj;
    self.objects[bucket_name] = bucket_objects] *)
Definition install_object (bucket_name file_name : string)
    (file_obj : resource) (objs : dict (dict resource))
  : dict (dict resource) :=
  let bucket_objects : dict resource :=
    match PyDict.get bucket_name objs with
    | Some d => d
    | None => []
    end in
  PyDict.set bucket_name (PyDict.set file_name file_obj bucket_objects) objs.

Definition create_file (self : Storage) (bucket_name file_name : string)
    (content : bytes) (file_obj : resource) (file_id : option string)
  : Storage * outcome unit :=
  (known <- gets (fun s => PyDict.mem bucket_name (buckets s)) ;;
   if negb known then raise NotFound
   else
     file_dir <- (fun s => _get_or_create_dir s bucket_name file_name) ;;
     let base_name := basename file_name in
     (fun s => write_file s bucket_name file_dir base_name content) ;;
     modify (set_objects (install_object bucket_name file_name file_obj)) ;;
     (if given file_id then
        (fun s => delete_resumable_file_obj s (or_empty file_id)) ;;
        (fun s => _delete_file s RESUMABLE_DIR (safe_id (or_empty file_id)))
      else ret tt) ;;
     modify _write_config_to_file) self.

(** [create_resumable_upload]; [now] is [datetime.datetime.now()] as the
    format prints it. *)
Definition create_resumable_upload (self : Storage) (now : string)
    (bucket_name file_name : string) (file_obj : resource)
  : Storage * outcome string :=
  (known <- gets (fun s => PyDict.mem bucket_name (buckets s)) ;;
   if negb known then raise NotFound
   else
     let file_id := bucket_name +:+ ":" +:+ file_name +:+ ":" +:+ now in
     modify (set_resumable (PyDict.set file_id file_obj)) ;;
     modify _write_config_to_file ;;
     ret file_id) self.

Definition create_xml_multipart_upload (self : Storage) (now : string)
    (bucket_name file_name : string) (content_type metadata : value)
  : Storage * outcome string :=
  (known <- gets (fun s => PyDict.mem bucket_name (buckets s)) ;;
   if negb known then raise NotFound
   else
     let upload_id := bucket_name +:+ ":" +:+ file_name +:+ ":" +:+ now in
     modify (set_multipart
               (PyDict.set upload_id
                  [ ("kind", VStr "storage#object");
                    ("bucket_name", VStr bucket_name);
                    ("id", VStr file_name);
                    ("metadata", metadata);
                    ("contentType", content_type) ])) ;;
     modify _write_config_to_file ;;
     ret upload_id) self.

(** [f"{safe_id}.{part_number:05}"] *)
Definition part_file_id (safe : string) (part_number : Z) : string :=
  safe +:+ "." +:+ fmt05 part_number.

Definition add_to_multipart_upload (self : Storage) (upload_id : string)
    (part_number : Z) (content : bytes) : Storage * outcome unit :=
  (upload <- gets (fun s => PyDict.get upload_id (multipart s)) ;;
   match upload with
   | None => raise NotFound
   | Some _ =>
       let part := part_file_id (safe_id upload_id) part_number in
       file_dir <- (fun s => _get_or_create_dir s MULTIPART_DIR part) ;;
       fun s => write_file s MULTIPART_DIR file_dir part content
   end) self.

(** The loop of [complete_multipart_upload]: [n] part numbers from
    [part_number] on are tried in turn; a part that is found is appended
    and deleted, the first one that is not found ends the loop. *)
Fixpoint read_parts (n : nat) (part_number : Z) (safe : string)
    (content : bytes) (self : Storage) : Storage * outcome bytes :=
  match n with
  | O => (self, Ok content)
  | S n' =>
      let part := part_file_id safe part_number in
      match get_file self MULTIPART_DIR part with
      | Ok part_content =>
          match _delete_file self MULTIPART_DIR part with
          | (self, Ok _) =>
              read_parts n' (part_number + 1) safe (content ++ part_content)
                self
          | (self, Raise NotFound) => (self, Ok (content ++ part_content))
          | (self, Raise e) => (self, Raise e)
          end
      | Raise NotFound => (self, Ok content)
      | Raise e => (self, Raise e)
      end
  end.

(** [complete_multipart_upload]; [now] is
    [datetime.datetime.now().isoformat()]. *)
Definition complete_multipart_upload (self : Storage) (now : string)
    (upload_id : string) : Storage * outcome unit :=
  (upload <- gets (fun s => PyDict.get upload_id (multipart s)) ;;
   match upload with
   | None => raise NotFound
   | Some upload =>
       let safe := safe_id upload_id in
       let file_name := field upload "id" in
       let bucket_name := field upload "bucket_name" in
       bucket_name <- lift (as_str bucket_name) ;;
       file_name <- lift (as_str file_name) ;;
       file_dir <- (fun s => _get_or_create_dir s bucket_name file_name) ;;
       content <- read_parts (Z.to_nat 10000) 1 safe [] ;;
       let base_name := basename file_name in
       (fun s => write_file s bucket_name file_dir base_name content) ;;
       file_obj <- lift (checked content
                           (PyDict.union upload
                              [ ("size", VInt (Z.of_nat (length content)));
                                ("updated", VStr now) ])) ;;
       modify (set_objects (install_object bucket_name file_name file_obj)) ;;
       modify _write_config_to_file
   end) self.

Definition add_to_resumable_upload (self : Storage) (file_id : string)
    (content : bytes) (total_size : Z) : Storage * outcome (option bytes) :=
  (let safe := safe_id file_id in
   file_content <- except_NotFound
                     (reads (fun s => get_file s RESUMABLE_DIR safe))
                     (ret []) ;;
   let file_content := file_content ++ content in
   file_dir <- (fun s => _get_or_create_dir s RESUMABLE_DIR safe) ;;
   (fun s => write_file s RESUMABLE_DIR file_dir safe file_content) ;;
   let size := Z.of_nat (length file_content) in
   if size >=? total_size
   then ret (Some (bytes_upto total_size file_content))
   else ret None) self.

Definition delete_bucket (self : Storage) (bucket_name : string)
  : Storage * outcome unit :=
  (bucket_meta <- gets (fun s => PyDict.get bucket_name (buckets s)) ;;
   match bucket_meta with
   | None => raise NotFound
   | Some _ =>
       bucket_objects <- gets (fun s =>
                                 match PyDict.get bucket_name (objects s) with
                                 | Some d => d
                                 | None => []
                                 end) ;;
       if negb (length (PyDict.keys bucket_objects) =? 0)%nat then
         raise (Conflict (BucketNotEmpty bucket_name))
       else
         resumable_ids <- gets (fun s =>
                                  map fst
                                    (List.filter
                                       (fun item : string * resource =>
                                          py_eq (field (snd item) "bucket")
                                                (VStr bucket_name))
                                       (PyDict.items (resumable s)))) ;;
         if negb (length resumable_ids =? 0)%nat then
           raise (Conflict (PendingUploads bucket_name))
         else
           modify (set_buckets (PyDict.del bucket_name)) ;;
           modify (fun s => _delete_dir s bucket_name) ;;
           modify _write_config_to_file
   end) self.

Definition delete_file (self : Storage) (bucket_name file_name : string)
  : Storage * outcome unit :=
  match get_file_obj self bucket_name file_name with
  | Raise e => (self, Raise e)
  | Ok _ =>
      (modify (set_objects (fun objs =>
                 match PyDict.get bucket_name objs with
                 | Some d => PyDict.set bucket_name (PyDict.del file_name d) objs
                 | None => objs
                 end)) ;;
       (fun s => _delete_file s bucket_name file_name) ;;
       modify _write_config_to_file) self
  end.

(** [patch_object]: nothing happens unless the bucket has objects and the
    key holds a non-empty resource. *)
Definition patch_object (self : Storage) (bucket_name file_name : string)
    (file_obj : resource) : Storage :=
  match PyDict.get bucket_name (objects self) with
  | Some bucket_objects =>
      match PyDict.get file_name bucket_objects with
      | Some (_ :: _) =>
          _write_config_to_file
            (set_objects
               (PyDict.set bucket_name
                  (PyDict.set file_name file_obj bucket_objects)) self)
      | _ => self
      end
  | None => self
  end.

(** *** handlers/objects.py: uploads

    A handler receives what it reads from the request: the bucket from
    the route, the object name the request resolves to, the content
    type it resolves to, the body.  [time_id] and [now] are the clock
    readings of [_make_object_resource].  The resource passed to
    [response.json] is the result. *)

Definition _media_upload (storage : Storage) (time_id : Z) (now : string)
    (base_url bucket_name object_id : string) (content_type : value)
    (data : bytes) : Storage * outcome resource :=
  (obj <- lift (_make_object_resource time_id now base_url bucket_name
                  object_id content_type
                  (VStr (py_str (Z.of_nat (length data)))) VNone) ;;
   obj <- lift (checked data obj) ;;
   (fun s => create_file s bucket_name object_id data obj None) ;;
   ret obj) storage.

Definition _multipart_upload (storage : Storage) (time_id : Z) (now : string)
    (base_url bucket_name object_id : string) (content_type : value)
    (meta : value) (content : bytes) : Storage * outcome resource :=
  (obj <- lift (_make_object_resource time_id now base_url bucket_name
                  object_id content_type
                  (VStr (py_str (Z.of_nat (length content)))) meta) ;;
   obj <- lift (checked content obj) ;;
   (fun s => create_file s bucket_name object_id content obj None) ;;
   ret obj) storage.

(** The groups of a [Content-Range] header that matches
    [bytes start-end/total_size]. *)
Record range_match := mkRange {
  m_start : string;
  m_end : string;
  m_total_size : string }.

(** What a handler leaves in the response. *)
Inductive response :=
| Json (obj : resource)
| ResumeIncomplete (range : string)
| StatusNotFound
| BadRequest (why : conflict).

(** [upload_partial]; [content_range] is the match of the header against
    the handler's pattern.  The session's resource is the dictionary that
    [self.resumable] holds, so what [checksums] and the assignment of
    ["size"] write is written there.  [create_file] is given the bucket
    and the name of the session as strings; a session that holds anything
    else there is outside the model ([TypeError]). *)
Definition upload_partial (storage : Storage) (upload_id : string)
    (content_range : option range_match) (data : bytes)
  : Storage * outcome response :=
  let body : M Storage response :=
    obj <- reads (fun s => get_resumable_file_obj s upload_id) ;;
    step <- match content_range with
            | Some m =>
                total_size <- lift (py_int (VStr (m_total_size m))) ;;
                data' <- (fun s =>
                            add_to_resumable_upload s upload_id data
                              total_size) ;;
                match data' with
                | None => ret (inl (ResumeIncomplete ("bytes=0-" +:+ m_end m)))
                | Some data' => ret (inr data')
                end
            | None => ret (inr data)
            end ;;
    match step with
    | inl incomplete => ret incomplete
    | inr data =>
        let (obj, verdict) := checksums data obj in
        modify (set_resumable (PyDict.set upload_id obj)) ;;
        lift verdict ;;
        let obj :=
          PyDict.set "size" (VStr (py_str (Z.of_nat (length data)))) obj in
        modify (set_resumable (PyDict.set upload_id obj)) ;;
        bucket <- lift (subscript "bucket" obj) ;;
        name <- lift (subscript "name" obj) ;;
        bucket <- lift (as_str bucket) ;;
        name <- lift (as_str name) ;;
        (fun s => create_file s bucket name data obj (Some upload_id)) ;;
        ret (Json obj)
    end in
  match body storage with
  | (s, Raise NotFound) => (s, Ok StatusNotFound)
  | (s, Raise (Conflict why)) => (s, Ok (BadRequest why))
  | r => r
  end.

End Emulator.

(** ** The vocabulary of the specification *)

(** The parts of a session as the specification describes the assembly:
    part numbers are looked up in ascending order in the store as it is
    when completion starts, and the first missing number ends the list.
    [n] part numbers are tried, from [part_number] on. *)
Fixpoint spec_parts `{Imports} (n : nat) (part_number : Z) (safe : string)
    (self : Storage) : list bytes :=
  match n with
  | O => []
  | S n' =>
      match get_file self MULTIPART_DIR (part_file_id safe part_number) with
      | Ok part_content =>
          part_content :: spec_parts n' (part_number + 1) safe self
      | Raise _ => []
      end
  end.

(** The catalog of [self'] is the catalog of [self]. *)
Definition same_catalog (self self' : Storage) : Prop :=
  buckets self' = buckets self
  /\ objects self' = objects self
  /\ resumable self' = resumable self
  /\ multipart self' = multipart self
  /\ meta self' = meta self.

(** The byte store of [self'] is the byte store of [self] with some files
    of the container [dir] removed. *)
Definition shrinks_in (dir : string) (self self' : Storage) : Prop :=
  (forall b, is_Some (_fs self' !! b) <-> is_Some (_fs self !! b))
  /\ (forall b f, b <> dir -> get_file self' b f = get_file self b f)
  /\ (forall b f,
        get_file self' b f = get_file self b f
        \/ get_file self' b f = Raise NotFound).

(** The file system takes a file under the key of a bucket: the
    directories of the key can be made and its base name can be opened for
    writing there. *)
Definition accepts (self : Storage) (bucket_name file_name : string) : bool :=
  is_ok ((file_dir <- (fun s => _get_or_create_dir s bucket_name file_name) ;;
          fun s => write_file s bucket_name file_dir (basename file_name) [])
           self).2.

(** A resource states the size [n]: the upload handlers store the decimal
    string, multipart completion stores the integer. *)
Definition has_size (r : resource) (n : nat) : Prop :=
  field r "size" = VStr (py_str (Z.of_nat n))
  \/ field r "size" = VInt (Z.of_nat n).

(** The transient buffer of a resumable session, empty while it has not
    been written. *)
Definition resumable_buffer `{Imports} (self : Storage) (file_id : string)
  : bytes :=
  match get_file self RESUMABLE_DIR (safe_id file_id) with
  | Ok b => b
  | Raise _ => []
  end.

(** The snapshot that [.meta] should hold for a storage. *)
Definition snapshot (self : Storage) : Config :=
  mkConfig (buckets self) (objects self) (resumable self) (multipart self).

(** [b"..."] *)
Definition B (s : string) : bytes := list_byte_of_string s.

(** ** Stand-ins for the imported functions, and stores to run the code on

    The stand-ins are not the real digests; they make the definitions run
    on concrete inputs. *)

Definition stand_in : Imports := {|
  google_crc32c := fun content => content;
  hashlib_md5 := fun content => rev content;
  b64encode := string_of_list_byte;
  sha256_hexdigest := fun s => "sha-" +:+ s;
  int_of_str := fun s => option_map Z.of_int (NilZero.int_of_string s) |}.

Definition empty_storage : Storage := mkStorage [] [] [] [] ∅ None.

(** A storage with the bucket [b] and nothing else. *)
Definition one_bucket : Storage :=
  fst (create_bucket empty_storage "b" [("name", VStr "b")]).

(** A resource that holds only its name. *)
Definition named (name : string) : resource := [("name", VStr name)].

(** The bucket [b] with the objects of the listing example. *)
Definition listing_example : Storage :=
  mkStorage [("b", [("name", VStr "b")])]
    [("b", [("a/1.txt", named "a/1.txt"); ("a/b/2.txt", named "a/b/2.txt");
            ("a/c/3.txt", named "a/c/3.txt"); ("z.txt", named "z.txt")])]
    [] [] ∅ None.

(** The bucket [b] with two objects below [a/b/]. *)
Definition shared_prefix_example : Storage :=
  mkStorage [("b", [("name", VStr "b")])]
    [("b", [("a/b/2.txt", named "a/b/2.txt");
            ("a/b/3.txt", named "a/b/3.txt")])]
    [] [] ∅ None.

(** The bucket [b] with a multipart session [b:k:t0] for the key [k]. *)
Definition one_session : Storage :=
  fst (create_xml_multipart_upload one_bucket "t0" "b" "k"
         (VStr "text/plain") (VDict [])).

(** The resource of that session. *)
Definition one_session_resource : resource :=
  [ ("kind", VStr "storage#object"); ("bucket_name", VStr "b");
    ("id", VStr "k"); ("metadata", VDict []);
    ("contentType", VStr "text/plain") ].

(** The bucket [b] holding the object [k] with the bytes [abc]. *)
Definition one_object : Storage :=
  fst (create_file (H := stand_in) one_bucket "b" "k" (B "abc")
         [("name", VStr "k"); ("size", VStr "3")] None).

(** The bucket [b], empty, with a resumable session for the key [k]. *)
Definition one_resumable : Storage :=
  fst (create_resumable_upload one_bucket "t0" "b" "k"
         [("name", VStr "k"); ("bucket", VStr "b")]).

(** A stored object with a custom time; a patch that moves the custom time
    back and sets the storage class; a patch that moves the custom time back
    and gives [null] for the content type. *)
Definition stored_object : resource :=
  [ ("name", VStr "k"); ("metageneration", VStr "1");
    ("contentType", VStr "text/plain");
    ("customTime", VStr "2021-01-01T00:00:00Z");
    ("storageClass", VStr "STANDARD") ].

Definition older_patch : resource :=
  [ ("customTime", VStr "2020-01-01T00:00:00Z");
    ("storageClass", VStr "COLDLINE"); ("name", VStr "other") ].

Definition null_patch : resource :=
  [ ("customTime", VStr "2020-01-01T00:00:00Z"); ("contentType", VNone) ].


(** ** The rest of the storage and more handlers *)

(** [b[start:stop]] on bytes, for any two integers: a negative index counts
    from the end, and both are clipped to the length. *)
Definition slice_index (len i : Z) : Z :=
  if i <? 0 then Z.max (i + len) 0 else Z.min i len.

Definition bytes_slice (start stop : Z) (b : bytes) : bytes :=
  let len := Z.of_nat (length b) in
  let lo := slice_index len start in
  let hi := slice_index len stop in
  take (Z.to_nat (hi - lo)) (drop (Z.to_nat lo) b).

(** [_read_config_from_file]: the catalog is what [.meta] holds, and empty
    when there is no [.meta].  What [json.load] reads is what [json.dump]
    wrote: the values of [value] are JSON values. *)
Definition _read_config_from_file (self : Storage) : Storage :=
  match meta self with
  | Some data =>
      mkStorage (cfg_buckets data) (cfg_objects data) (cfg_resumable data)
                (cfg_multipart data) (_fs self) (meta self)
  | None => mkStorage [] [] [] [] (_fs self) (meta self)
  end.

(** [wipe]: buckets, objects and resumable sessions are reset, [.meta] and
    every directory are removed; with [keep_buckets] the buckets are created
    again, one after the other. *)
Definition wipe (self : Storage) (keep_buckets : bool) : Storage :=
  let existing_buckets := buckets self in
  let wiped := mkStorage [] [] [] (multipart self) ∅ None in
  if keep_buckets then
    fold_left
      (fun (s : Storage) (item : string * resource) =>
         (create_bucket s item.1 item.2).1)
      (PyDict.items existing_buckets) wiped
  else wiped.

(** [except NotFound] and [except Conflict as err] at the end of a
    handler. *)
Definition or_status (r : Storage * outcome response)
  : Storage * outcome response :=
  match r with
  | (s, Raise NotFound) => (s, Ok StatusNotFound)
  | (s, Raise (Conflict why)) => (s, Ok (BadRequest why))
  | r => r
  end.

(** What [download] leaves in the response: the status, the
    [Content-Range] header or the two values of the hash header, the
    content type and the body. *)
Inductive download_reply :=
| Whole (hash : option (value * value)) (content_type : value) (body : bytes)
| PartialContent (content_range : string) (content_type : value)
    (body : bytes)
| DownloadNotFound.

Section Handlers.

Context `{Imports}.

(** [_delete] *)
Definition _delete (storage : Storage) (bucket_name object_id : string)
  : Storage * outcome bool :=
  match delete_file storage bucket_name object_id with
  | (s, Ok _) => (s, Ok true)
  | (s, Raise NotFound) => (s, Ok false)
  | (s, Raise e) => (s, Raise e)
  end.

(** [_patch]: the resource is the dictionary that the catalog holds, so
    what [_patch_object] writes is written there, also when it raises. *)
Definition _patch (storage : Storage) (bucket_name object_id : string)
    (metadata : value) : Storage * outcome (option resource) :=
  match get_file_obj storage bucket_name object_id with
  | Raise NotFound => (storage, Ok None)
  | Raise e => (storage, Raise e)
  | Ok obj =>
      let (obj, verdict) := _patch_object obj metadata in
      let storage :=
        set_objects (install_object bucket_name object_id obj) storage in
      match verdict with
      | Ok _ => (patch_object storage bucket_name object_id obj, Ok (Some obj))
      | Raise NotFound => (storage, Ok None)
      | Raise e => (storage, Raise e)
      end
  end.

(** [patch] *)
Definition patch (storage : Storage) (bucket_name object_id : string)
    (data : value) : Storage * outcome response :=
  match _patch storage bucket_name object_id data with
  | (s, Ok (Some obj)) =>
      (s, Ok (if truthy (VDict obj) then Json obj else StatusNotFound))
  | (s, Ok None) => (s, Ok StatusNotFound)
  | (s, Raise e) => (s, Raise e)
  end.

(** [copy] *)
Definition copy (storage : Storage) (time_id : Z) (now : string)
    (base_url bucket_name object_id dest_bucket_name dest_object_id : string)
  : Storage * outcome response :=
  match get_file_obj storage bucket_name object_id with
  | Raise NotFound => (storage, Ok StatusNotFound)
  | Raise e => (storage, Raise e)
  | Ok obj =>
      (content_type <- lift (subscript "contentType" obj) ;;
       size <- lift (subscript "size" obj) ;;
       dest_obj <- lift (_make_object_resource time_id now base_url
                           dest_bucket_name dest_object_id content_type size
                           (VDict obj)) ;;
       file <- reads (fun s => get_file s bucket_name object_id) ;;
       fun s =>
         or_status
           ((dest_obj <- lift (checked file dest_obj) ;;
             (fun s => create_file s dest_bucket_name dest_object_id file
                         dest_obj None) ;;
             ret (Json dest_obj)) s)) storage
  end.

(** [rewrite] *)
Definition rewrite (storage : Storage) (time_id : Z) (now : string)
    (base_url bucket_name object_id dest_bucket_name dest_object_id : string)
  : Storage * outcome response :=
  match get_file_obj storage bucket_name object_id with
  | Raise NotFound => (storage, Ok StatusNotFound)
  | Raise e => (storage, Raise e)
  | Ok obj =>
      (content_type <- lift (subscript "contentType" obj) ;;
       size <- lift (subscript "size" obj) ;;
       dest_obj <- lift (_make_object_resource time_id now base_url
                           dest_bucket_name dest_object_id content_type size
                           (VDict obj)) ;;
       file <- reads (fun s => get_file s bucket_name object_id) ;;
       fun s =>
         or_status
           ((dest_obj <- lift (checked file dest_obj) ;;
             (fun s => create_file s dest_bucket_name dest_object_id file
                         dest_obj None) ;;
             written <- lift (subscript "size" dest_obj) ;;
             ret (Json [ ("resource", VDict dest_obj); ("written", written);
                         ("size", written); ("done", VBool true) ])) s))
        storage
  end.

(** The loop of [compose] over the names of the source objects. *)
Fixpoint compose_sources (storage : Storage) (bucket_name : string)
    (names : list string) (content_type : value) (dest_file : bytes)
  : outcome (value * bytes) :=
  match names with
  | [] => Ok (content_type, dest_file)
  | name :: names' =>
      let found :=
        if is_none content_type then
          match get_file_obj storage bucket_name name with
          | Ok temp => subscript "contentType" temp
          | Raise e => Raise e
          end
        else Ok content_type in
      match found with
      | Raise e => Raise e
      | Ok content_type =>
          match get_file storage bucket_name name with
          | Ok part =>
              compose_sources storage bucket_name names' content_type
                (dest_file ++ part)
          | Raise e => Raise e
          end
      end
  end.

(** [compose]; [destination] is [request.data["destination"]] and
    [source_names] the names of [request.data["sourceObjects"]]. *)
Definition compose (storage : Storage) (time_id : Z) (now : string)
    (base_url bucket_name object_id : string) (destination : value)
    (source_names : list string) : Storage * outcome response :=
  match compose_sources storage bucket_name source_names VNone [] with
  | Raise NotFound => (storage, Ok StatusNotFound)
  | Raise e => (storage, Raise e)
  | Ok (content_type, dest_file) =>
      (dest_obj <- lift (_make_object_resource time_id now base_url
                           bucket_name object_id content_type
                           (VInt (Z.of_nat (length dest_file)))
                           destination) ;;
       fun s =>
         or_status
           ((dest_obj <- lift (checked dest_file dest_obj) ;;
             (fun s => create_file s bucket_name object_id dest_file
                         dest_obj None) ;;
             ret (Json dest_obj)) s)) storage
  end.

(** [download]; [range] is [None] without a [Range] header (or with an
    empty one), [Some None] for a header that does not match
    [bytes=start-end], and the two groups of the match otherwise. *)
Definition download (storage : Storage) (bucket_name object_id : string)
    (range : option (option (string * string))) : outcome download_reply :=
  match get_file storage bucket_name object_id with
  | Raise NotFound => Ok DownloadNotFound
  | Raise e => Raise e
  | Ok file =>
      match get_file_obj storage bucket_name object_id with
      | Raise NotFound => Ok DownloadNotFound
      | Raise e => Raise e
      | Ok obj =>
          match range with
          | Some (Some (m_start, m_end)) =>
              let orig_len := Z.of_nat (length file) in
              match py_int (VStr m_start) with
              | Raise e => Raise e
              | Ok start =>
                  let stop :=
                    if negb (String.eqb m_end "") then
                      match py_int (VStr m_end) with
                      | Ok e => Ok (Z.min orig_len (e + 1))
                      | Raise e => Raise e
                      end
                    else Ok orig_len in
                  match stop with
                  | Raise e => Raise e
                  | Ok stop =>
                      Ok (PartialContent
                            ("bytes " +:+ py_str start +:+ "-"
                             +:+ py_str (stop - 1) +:+ "/"
                             +:+ py_str orig_len)
                            (field obj "contentType")
                            (bytes_slice start stop file))
                  end
              end
          | Some None => Ok (Whole None (field obj "contentType") file)
          | None =>
              match subscript "crc32c" obj with
              | Raise e => Raise e
              | Ok crc =>
                  match subscript "md5Hash" obj with
                  | Raise e => Raise e
                  | Ok md =>
                      Ok (Whole (Some (crc, md)) (field obj "contentType")
                            file)
                  end
              end
          end
      end
  end.

End Handlers.

(** [.meta] holds the catalog as it is. *)
Definition persisted (self : Storage) : Prop :=
  meta self = Some (snapshot self).

(** ** More stores to run the code on *)

(** The bucket [b] after a media upload of the bytes [abc] as the object
    [k]. *)
Definition uploaded_object : Storage :=
  fst (_media_upload (H := stand_in) one_bucket 0 "t1" "" "b" "k"
         (VStr "text/plain") (B "abc")).

(** The resource of that object. *)
Definition uploaded_resource : resource :=
  match get_file_obj uploaded_object "b" "k" with
  | Ok file_obj => file_obj
  | Raise _ => []
  end.

(** The same bucket after a second media upload, of [def] as [k2]. *)
Definition two_objects : Storage :=
  fst (_media_upload (H := stand_in) uploaded_object 0 "t1" "" "b" "k2"
         (VStr "text/plain") (B "def")).

(** The session of [one_session] with the parts 1 and 3. *)
Definition parts_1_and_3 : Storage :=
  let add := fun s n c =>
    (add_to_multipart_upload (H := stand_in) s "b:k:t0" n c).1 in
  add (add one_session 1 (B "ab")) 3 (B "ef").

(** The bucket [b] with a multipart session for the key [a/], which names
    a directory, and the part 1 of that session. *)
Definition folder_session : Storage :=
  (add_to_multipart_upload (H := stand_in)
     (fst (create_xml_multipart_upload one_bucket "t0" "b" "a/"
             (VStr "text/plain") (VDict [])))
     "b:a/:t0" 1 (B "ab")).1.

(** The resource of that session. *)
Definition folder_session_resource : resource :=
  [ ("kind", VStr "storage#object"); ("bucket_name", VStr "b");
    ("id", VStr "a/"); ("metadata", VDict []);
    ("contentType", VStr "text/plain") ].

(** The bucket [b] holding the object [a] with the bytes [abc]. *)
Definition object_a : Storage :=
  fst (create_file (H := stand_in) one_bucket "b" "a" (B "abc")
         [("name", VStr "a"); ("size", VStr "3")] None).
(** * Properties *)

(** ** Dictionaries *)

Section DictFacts.

Context {V : Type}.
Implicit Types (d : dict V) (k : string) (v : V).

Lemma get_set_eq k v d : PyDict.get k (PyDict.set k v d) = Some v.
Proof.
  induction d as [|[k' v'] d IH]; simpl.
  - by rewrite String.eqb_refl.
  - destruct (String.eqb k k') eqn:E; simpl; rewrite E; [done | exact IH].
Qed.

Lemma get_set_ne k k' v d :
  k ≠ k' → PyDict.get k' (PyDict.set k v d) = PyDict.get k' d.
Proof.
  intros Hne. induction d as [|[k0 v0] d IH]; simpl.
  - apply String.eqb_neq in Hne. rewrite String.eqb_sym in Hne.
    by rewrite Hne.
  - destruct (String.eqb k k0) eqn:E; simpl.
    + apply String.eqb_eq in E as <-.
      assert (String.eqb k' k = false) as ->; [|done].
      apply String.eqb_neq. congruence.
    + by rewrite IH.
Qed.

Lemma get_del_eq k d : PyDict.get k (PyDict.del k d) = None.
Proof.
  induction d as [|[k' v'] d IH]; simpl; [done|].
  destruct (String.eqb k k') eqn:E; simpl; [done | by rewrite E].
Qed.

Lemma get_del_ne k k' d :
  k ≠ k' → PyDict.get k' (PyDict.del k d) = PyDict.get k' d.
Proof.
  intros Hne. induction d as [|[k0 v0] d IH]; simpl; [done|].
  destruct (String.eqb k k0) eqn:E; simpl.
  - apply String.eqb_eq in E as <-.
    assert (String.eqb k' k = false) as ->; [|done].
    apply String.eqb_neq. congruence.
  - by rewrite IH.
Qed.

Lemma get_items k v d : PyDict.get k d = Some v → (k, v) ∈ PyDict.items d.
Proof.
  unfold PyDict.items. induction d as [|[k' v'] d IH]; simpl; [done|].
  destruct (String.eqb k k') eqn:E.
  - apply String.eqb_eq in E as <-. intros [= <-]. apply list_elem_of_here.
  - intros Hget. apply list_elem_of_further, IH, Hget.
Qed.

Lemma get_nil_iff d : d = [] ↔ ∀ k, PyDict.get k d = None.
Proof.
  split; [by intros -> | ].
  destruct d as [|[k v] d]; [done|]. intros Hnone.
  specialize (Hnone k). simpl in Hnone. by rewrite String.eqb_refl in Hnone.
Qed.

End DictFacts.

Lemma field_set_eq k v (r : resource) : field (PyDict.set k v r) k = v.
Proof. unfold field. by rewrite get_set_eq. Qed.

Lemma field_set_ne k k' v (r : resource) :
  k ≠ k' → field (PyDict.set k v r) k' = field r k'.
Proof. intros Hne. unfold field. by rewrite get_set_ne. Qed.

Lemma py_eq_str (v : value) (s : string) : py_eq v (VStr s) = true ↔ v = VStr s.
Proof.
  destruct v as [| b | n | t | l | d]; simpl; try (split; [done | discriminate]).
  rewrite String.eqb_eq. split; congruence.
Qed.

Lemma ltb_empty (t : string) : String.ltb t "" = false.
Proof. by destruct t. Qed.

Ltac dict_simpl :=
  repeat first [rewrite get_set_eq | rewrite get_set_ne by done].

Ltac writable :=
  unfold _WRITABLE_FIELDS; rewrite ?elem_of_cons, ?elem_of_nil;
  first [ by intuition discriminate | by intuition ].

Section ChecksumValidator.

Context `{Imports}.

(** ** The checksum validator *)

Lemma checksums_unfold (content : bytes) (r : resource) :
  checksums content r =
    let r1 := if truthy (field r "crc32c") then r
              else PyDict.set "crc32c" (VStr (_crc32c content)) r in
    if truthy (field r "crc32c") && negb (py_eq (field r "crc32c") (VStr (_crc32c content)))
    then (r, Raise (Conflict (Crc32cMismatch (field r "crc32c") (_crc32c content))))
    else
      let r2 := if truthy (field r "md5Hash") then r1
                else PyDict.set "md5Hash" (VStr (_md5 content)) r1 in
      if truthy (field r "md5Hash") && negb (py_eq (field r "md5Hash") (VStr (_md5 content)))
      then (r1, Raise (Conflict (Md5Mismatch (field r "md5Hash") (_md5 content))))
      else
        (if truthy (field r2 "etag") then r2
         else PyDict.set "etag" (VStr (_md5 content)) r2, Ok tt).
Proof.
  unfold checksums, bind, gets, modify, raise, ret. simpl.
  destruct (truthy (field r "crc32c")); simpl.
  - destruct (py_eq (field r "crc32c") (VStr (_crc32c content))); simpl; [|done].
    destruct (truthy (field r "md5Hash")); simpl.
    + destruct (py_eq (field r "md5Hash") (VStr (_md5 content))); simpl; [|done].
      by destruct (truthy (field r "etag")).
    + by destruct (truthy (field (PyDict.set "md5Hash" _ r) "etag")).
  - destruct (truthy (field r "md5Hash")); simpl.
    + destruct (py_eq (field r "md5Hash") (VStr (_md5 content))); simpl; [|done].
      by destruct (truthy (field (PyDict.set "crc32c" _ r) "etag")).
    + by destruct (truthy (field (PyDict.set "md5Hash" _ _) "etag")).
Qed.

Lemma set_same {V} (k : string) (v : V) (d : dict V) :
  PyDict.get k d = Some v → PyDict.set k v d = d.
Proof.
  induction d as [|[k' v'] d IH]; simpl; [done|].
  destruct (String.eqb k k') eqn:E.
  - by intros [= ->].
  - intros Hget. by rewrite IH.
Qed.

Lemma field_get_str (r : resource) (k s : string) :
  field r k = VStr s → PyDict.get k r = Some (VStr s).
Proof.
  unfold field.
  destruct (PyDict.get k r) as [v|]; intros Heq; [by rewrite Heq | discriminate].
Qed.

Lemma py_eq_str_refl (s : string) : py_eq (VStr s) (VStr s) = true.
Proof. by apply py_eq_str. Qed.

(** What a resource holds after [checksums] has accepted it. *)
Lemma checksums_ok_fields (content : bytes) (r r' : resource) :
  checksums content r = (r', Ok tt) →
  PyDict.get "crc32c" r' = Some (VStr (_crc32c content))
  ∧ PyDict.get "md5Hash" r' = Some (VStr (_md5 content))
  ∧ (truthy (field r' "etag") = true
     ∨ PyDict.get "etag" r' = Some (VStr (_md5 content))).
Proof.
  rewrite checksums_unfold. cbv zeta.
  destruct (truthy (field r "crc32c")) eqn:Tc;
    [destruct (py_eq (field r "crc32c") (VStr (_crc32c content))) eqn:Ec;
       [apply py_eq_str, field_get_str in Ec|done]|];
    cbn [andb negb];
    (destruct (truthy (field r "md5Hash")) eqn:Tm;
     [destruct (py_eq (field r "md5Hash") (VStr (_md5 content))) eqn:Em;
        [apply py_eq_str, field_get_str in Em|done]|]);
    cbn [andb negb];
    match goal with
    | |- context [truthy (field ?x "etag")] =>
        destruct (truthy (field x "etag")) eqn:Te
    end;
    intros [= <-];
    (split_and!;
     [by dict_simpl | by dict_simpl
      | first [by left | right; by dict_simpl]]).
Qed.

(** X11.  A resource that [checksums] has accepted for some content is
    accepted again for the same content and comes back unchanged; for a
    content with another CRC-32C the call raises the crc32c [Conflict] and
    leaves the resource as it is. *)
Theorem checksums_binds_the_content (content : bytes) (r r' : resource) :
  checksums content r = (r', Ok tt) →
  checksums content r' = (r', Ok tt)
  ∧ ∀ other : bytes,
      _crc32c content ≠ "" →
      _crc32c other ≠ _crc32c content →
      checksums other r'
      = (r', Raise (Conflict (Crc32cMismatch (VStr (_crc32c content))
                                (_crc32c other)))).
Proof.
  intros Hok.
  destruct (checksums_ok_fields content r r' Hok) as (Hc & Hm & He).
  assert (Hfc : field r' "crc32c" = VStr (_crc32c content))
    by (unfold field; by rewrite Hc).
  assert (Hfm : field r' "md5Hash" = VStr (_md5 content))
    by (unfold field; by rewrite Hm).
  split.
  - rewrite checksums_unfold. cbv zeta. rewrite Hfc, Hfm, !py_eq_str_refl.
    rewrite !andb_false_r.
    assert (H1 : (if truthy (VStr (_crc32c content)) then r'
                  else PyDict.set "crc32c" (VStr (_crc32c content)) r') = r').
    { destruct (truthy (VStr (_crc32c content)));
        [reflexivity | by apply set_same]. }
    rewrite H1.
    assert (H2 : (if truthy (VStr (_md5 content)) then r'
                  else PyDict.set "md5Hash" (VStr (_md5 content)) r') = r').
    { destruct (truthy (VStr (_md5 content)));
        [reflexivity | by apply set_same]. }
    rewrite H2.
    destruct (truthy (field r' "etag")) eqn:Te; [done|].
    destruct He as [?|He]; [congruence|]. by rewrite set_same.
  - intros other Hne Hdiff. rewrite checksums_unfold. cbv zeta.
    rewrite Hfc.
    assert (truthy (VStr (_crc32c content)) = true) as ->.
    { simpl. apply String.eqb_neq in Hne. by rewrite Hne. }
    assert (py_eq (VStr (_crc32c content)) (VStr (_crc32c other)) = false)
      as ->.
    { simpl. apply String.eqb_neq. congruence. }
    done.
Qed.

(** A resource whose digests are missing or are those of the content
    passes [checksums], which fills in what is missing. *)
Lemma checked_accepts (content : bytes) (r : resource) :
  truthy (field r "crc32c") = false
  ∨ field r "crc32c" = VStr (_crc32c content) →
  truthy (field r "md5Hash") = false
  ∨ field r "md5Hash" = VStr (_md5 content) →
  ∃ r',
    checked content r = Ok r'
    ∧ PyDict.get "crc32c" r' = Some (VStr (_crc32c content))
    ∧ PyDict.get "md5Hash" r' = Some (VStr (_md5 content))
    ∧ PyDict.get "etag" r'
      = (if truthy (field r "etag") then PyDict.get "etag" r
         else Some (VStr (_md5 content)))
    ∧ ∀ k, k ≠ "crc32c" → k ≠ "md5Hash" → k ≠ "etag" →
           PyDict.get k r' = PyDict.get k r.
Proof.
  intros Hc Hm.
  assert (Hc' : truthy (field r "crc32c")
                && negb (py_eq (field r "crc32c") (VStr (_crc32c content)))
                = false).
  { destruct Hc as [-> | ->]; [done|].
    by rewrite py_eq_str_refl, andb_false_r. }
  assert (Hm' : truthy (field r "md5Hash")
                && negb (py_eq (field r "md5Hash") (VStr (_md5 content)))
                = false).
  { destruct Hm as [-> | ->]; [done|].
    by rewrite py_eq_str_refl, andb_false_r. }
  unfold checked. rewrite checksums_unfold. cbv zeta. rewrite Hc', Hm'.
  set (r1 := if truthy (field r "crc32c") then r
             else PyDict.set "crc32c" (VStr (_crc32c content)) r).
  set (r2 := if truthy (field r "md5Hash") then r1
             else PyDict.set "md5Hash" (VStr (_md5 content)) r1).
  assert (H1 : PyDict.get "crc32c" r1 = Some (VStr (_crc32c content))).
  { subst r1. destruct (truthy (field r "crc32c")) eqn:E.
    - destruct Hc as [?|Hc]; [congruence|]. by apply field_get_str.
    - by rewrite get_set_eq. }
  assert (H1' : ∀ k, k ≠ "crc32c" → PyDict.get k r1 = PyDict.get k r).
  { intros k Hk. subst r1. destruct (truthy (field r "crc32c")); [done|].
    by rewrite get_set_ne. }
  assert (H2 : PyDict.get "md5Hash" r2 = Some (VStr (_md5 content))).
  { subst r2. destruct (truthy (field r "md5Hash")) eqn:E.
    - destruct Hm as [?|Hm]; [congruence|].
      rewrite H1' by done. by apply field_get_str.
    - by rewrite get_set_eq. }
  assert (H2' : ∀ k, k ≠ "md5Hash" → PyDict.get k r2 = PyDict.get k r1).
  { intros k Hk. subst r2. destruct (truthy (field r "md5Hash")); [done|].
    by rewrite get_set_ne. }
  assert (He : field r2 "etag" = field r "etag").
  { unfold field. by rewrite H2', H1'. }
  rewrite He.
  destruct (truthy (field r "etag")) eqn:Et; eexists; (split; [done|]).
  - split_and!; [by rewrite H2' | done | by rewrite H2', H1' |].
    intros k ? ? ?. by rewrite H2', H1'.
  - split_and!.
    + by rewrite get_set_ne, H2'.
    + by rewrite get_set_ne.
    + by rewrite get_set_eq.
    + intros k ? ? ?. by rewrite get_set_ne, H2', H1'.
Qed.

(** A resource that carries another crc32c, or a good crc32c and another
    md5Hash, is refused. *)
Lemma checked_rejects (content : bytes) (r : resource) :
  (truthy (field r "crc32c") = true →
   field r "crc32c" ≠ VStr (_crc32c content) →
   checked content r
   = Raise (Conflict (Crc32cMismatch (field r "crc32c") (_crc32c content))))
  ∧ (truthy (field r "crc32c") = false
     ∨ field r "crc32c" = VStr (_crc32c content) →
     truthy (field r "md5Hash") = true →
     field r "md5Hash" ≠ VStr (_md5 content) →
     checked content r
     = Raise (Conflict (Md5Mismatch (field r "md5Hash") (_md5 content)))).
Proof.
  split.
  - intros Ht Hne. unfold checked. rewrite checksums_unfold. cbv zeta.
    rewrite Ht.
    destruct (py_eq (field r "crc32c") (VStr (_crc32c content))) eqn:E;
      [by apply py_eq_str in E|done].
  - intros Hc Ht Hne. unfold checked. rewrite checksums_unfold. cbv zeta.
    assert (truthy (field r "crc32c")
            && negb (py_eq (field r "crc32c") (VStr (_crc32c content)))
            = false) as ->.
    { destruct Hc as [-> | ->]; [done|].
      by rewrite py_eq_str_refl, andb_false_r. }
    rewrite Ht.
    destruct (py_eq (field r "md5Hash") (VStr (_md5 content))) eqn:E;
      [by apply py_eq_str in E|done].
Qed.

(** ** The handler of a resumable upload *)

Lemma checked_checksums (content : bytes) (r r' : resource) :
  checked content r = Ok r' → checksums content r = (r', Ok tt).
Proof.
  unfold checked. by destruct (checksums content r) as [r'' [[]|e]]; intros [= ->].
Qed.

Lemma checked_checksums_raise (content : bytes) (r : resource) (e : exn) :
  checked content r = Raise e →
  ∃ r', checksums content r = (r', Raise e)
        ∧ ∀ k, k ≠ "crc32c" → PyDict.get k r' = PyDict.get k r.
Proof.
  unfold checked. rewrite checksums_unfold. cbv zeta.
  destruct (truthy (field r "crc32c")
            && negb (py_eq (field r "crc32c") (VStr (_crc32c content)))).
  { intros [= <-]. by eexists. }
  destruct (truthy (field r "md5Hash")
            && negb (py_eq (field r "md5Hash") (VStr (_md5 content)))).
  { intros [= <-]. eexists. split; [done|]. intros k Hk.
    destruct (truthy (field r "crc32c")); [done|]. by rewrite get_set_ne. }
  done.
Qed.

(** What [checksums] makes of a resource that carries neither digest. *)
Lemma checked_fresh (content : bytes) (r : resource) :
  truthy (field r "crc32c") = false →
  truthy (field r "md5Hash") = false →
  ∃ r', checked content r = Ok r' ∧ field r' "size" = field r "size".
Proof.
  intros Hc Hm. unfold checked. rewrite checksums_unfold, Hc, Hm.
  cbv zeta. cbn [andb].
  destruct (truthy (field _ "etag")); eexists; (split; [done|]);
    by rewrite ?field_set_ne.
Qed.

Lemma checked_raises (content : bytes) (r : resource) (e : exn) :
  checked content r = Raise e → ∃ why, e = Conflict why.
Proof.
  unfold checked. rewrite checksums_unfold. cbv zeta.
  repeat match goal with
         | |- context [if ?b then _ else _] => destruct b
         end; intros [= <-]; eauto.
Qed.

End ChecksumValidator.

Section Patch.

Context `{Imports}.

(** ** Patching a resource *)

Lemma patch_field_other (patch obj : resource) (key : string) :
  key ≠ "customTime" →
  patch_field (VDict patch) key obj =
    (if is_none (field patch key) then obj
     else PyDict.set key (field patch key) obj, Ok tt).
Proof.
  intros Hne. apply String.eqb_neq in Hne.
  unfold patch_field, bind, lift, gets, modify, ret, py_get.
  cbn -[field truthy py_gt].
  destruct (is_none (field patch key)); cbn -[field truthy py_gt]; [done|].
  by rewrite Hne.
Qed.

Lemma patch_field_older (patch obj : resource) (s t : string) :
  field obj "customTime" = VStr s →
  field patch "customTime" = VStr t →
  String.ltb t s = true →
  patch_field (VDict patch) "customTime" obj = (obj, Ok tt).
Proof.
  intros Hs Ht Hlt.
  assert (Htruthy : truthy (VStr s) = true).
  { simpl. destruct (String.eqb s "") eqn:E; [|done].
    apply String.eqb_eq in E as ->. by rewrite ltb_empty in Hlt. }
  unfold patch_field, bind, lift, gets, modify, ret, py_get.
  cbn -[field truthy py_gt]. rewrite Ht. cbn -[field truthy py_gt].
  rewrite Hs, Htruthy. cbn. by rewrite Hlt.
Qed.

(** The loop over the writable fields when the patch carries an older
    [customTime]: a key of the list other than [customTime] for which the
    patch holds a value takes that value, every other key keeps its
    own. *)
Lemma for_each_patch_older (patch : resource) (s t : string)
    (keys : list string) :
  field patch "customTime" = VStr t →
  String.ltb t s = true →
  ∀ obj : resource,
    field obj "customTime" = VStr s →
    ∃ obj',
      for_each keys (patch_field (VDict patch)) obj = (obj', Ok tt)
      ∧ ∀ key,
          (key ∈ keys → key ≠ "customTime" → field patch key ≠ VNone →
           PyDict.get key obj' = Some (field patch key))
          ∧ (key ∉ keys ∨ key = "customTime" ∨ field patch key = VNone →
             PyDict.get key obj' = PyDict.get key obj).
Proof.
  intros Ht Hlt. induction keys as [|k keys IH]; intros obj Hs.
  - exists obj. split; [done|]. intros key. split; [|done].
    intros Hin. by apply elem_of_nil in Hin.
  - simpl. unfold bind at 1.
    destruct (decide (k = "customTime")) as [->|Hk].
    + rewrite (patch_field_older patch obj s t) by done.
      destruct (IH obj Hs) as (obj' & -> & Hspec).
      exists obj'. split; [done|]. intros key.
      destruct (Hspec key) as [Hset Hkeep]. split.
      * intros Hin Hne. apply Hset; [|done].
        apply elem_of_cons in Hin as [?|?]; [done|done].
      * intros [Hnin | Hother]; apply Hkeep; [|by right].
        left. intros Hin. apply Hnin. by apply list_elem_of_further.
    + rewrite patch_field_other by done.
      set (obj1 := if is_none (field patch k) then obj
                   else PyDict.set k (field patch k) obj).
      assert (Hs1 : field obj1 "customTime" = VStr s).
      { subst obj1. destruct (is_none (field patch k)); [done|].
        by rewrite field_set_ne. }
      destruct (IH obj1 Hs1) as (obj' & -> & Hspec).
      exists obj'. split; [done|]. intros key.
      destruct (Hspec key) as [Hset Hkeep]. split.
      * intros Hin Hne Hval.
        destruct (decide (key ∈ keys)) as [Hin'|Hnin]; [by apply Hset|].
        apply elem_of_cons in Hin as [->|?]; [|done].
        rewrite Hkeep by (by left). subst obj1.
        destruct (field patch k) eqn:E; try done; simpl;
          by rewrite get_set_eq.
      * intros Hcase.
        destruct (decide (key = k)) as [->|Hkey].
        -- destruct Hcase as [Hnin | [-> | Hnone]]; [| done |].
           ++ exfalso. apply Hnin, list_elem_of_here.
           ++ rewrite Hkeep by (right; by right).
              subst obj1. by rewrite Hnone.
        -- assert (PyDict.get key obj1 = PyDict.get key obj) as <-.
           { subst obj1. destruct (is_none (field patch k)); [done|].
             by rewrite get_set_ne. }
           apply Hkeep. destruct Hcase as [Hnin | Hother]; [|by right].
           left. intros Hin. apply Hnin. by apply list_elem_of_further.
Qed.

Lemma get_field (r : resource) (k : string) (v : value) :
  PyDict.get k r = Some v → field r k = v.
Proof. unfold field. by intros ->. Qed.

(** ** Patching, in general *)

Lemma patch_field_replace (patch obj : resource) :
  truthy (field obj "customTime") = false
  ∨ field patch "customTime" = VNone
  ∨ py_gt (field obj "customTime") (field patch "customTime") = Ok false →
  patch_field (VDict patch) "customTime" obj =
    (if is_none (field patch "customTime") then obj
     else PyDict.set "customTime" (field patch "customTime") obj, Ok tt).
Proof.
  intros Hcase.
  unfold patch_field, bind, lift, gets, modify, ret, py_get.
  cbn -[field truthy py_gt].
  destruct (is_none (field patch "customTime")) eqn:En;
    cbn -[field truthy py_gt]; [done|].
  destruct (truthy (field obj "customTime")) eqn:Et;
    cbn -[field truthy py_gt]; [|done].
  destruct Hcase as [? | [Hnone | ->]]; [done| |done].
  by rewrite Hnone in En.
Qed.

(** The loop over the writable fields when the [customTime] of the patch,
    if there is one, is not older than the stored one: every key of the
    list for which the patch holds a value takes it. *)
Lemma for_each_patch_replace (patch : resource) (keys : list string) :
  NoDup keys →
  ∀ obj : resource,
    ("customTime" ∈ keys →
     truthy (field obj "customTime") = false
     ∨ field patch "customTime" = VNone
     ∨ py_gt (field obj "customTime") (field patch "customTime") = Ok false) →
    ∃ obj',
      for_each keys (patch_field (VDict patch)) obj = (obj', Ok tt)
      ∧ ∀ key,
          (key ∈ keys → field patch key ≠ VNone →
           PyDict.get key obj' = Some (field patch key))
          ∧ (key ∉ keys ∨ field patch key = VNone →
             PyDict.get key obj' = PyDict.get key obj).
Proof.
  induction keys as [|k keys IH]; intros Hnd obj Hct.
  - exists obj. split; [done|]. intros key. split; [|done].
    intros Hin. by apply elem_of_nil in Hin.
  - apply NoDup_cons in Hnd as [Hk Hnd]. simpl. unfold bind at 1.
    assert (Hstep : patch_field (VDict patch) k obj =
                    (if is_none (field patch k) then obj
                     else PyDict.set k (field patch k) obj, Ok tt)).
    { destruct (decide (k = "customTime")) as [->|Hne].
      - apply patch_field_replace, Hct, list_elem_of_here.
      - by apply patch_field_other. }
    rewrite Hstep.
    set (obj1 := if is_none (field patch k) then obj
                 else PyDict.set k (field patch k) obj).
    assert (Hother : ∀ key, key ≠ k →
                            PyDict.get key obj1 = PyDict.get key obj).
    { intros key Hkey. subst obj1.
      destruct (is_none (field patch k)); [done|]. by rewrite get_set_ne. }
    destruct (IH Hnd obj1) as (obj' & -> & Hspec).
    { intros Hin. unfold field. rewrite Hother; [|by intros <-].
      apply Hct. by apply list_elem_of_further. }
    exists obj'. split; [done|]. intros key.
    destruct (Hspec key) as [Hset Hkeep]. split.
    + intros Hin Hval.
      destruct (decide (key ∈ keys)) as [Hin'|Hnin]; [by apply Hset|].
      apply elem_of_cons in Hin as [->|?]; [|done].
      rewrite Hkeep by (by left). subst obj1.
      destruct (field patch k) eqn:E; try done; simpl; by rewrite get_set_eq.
    + intros Hcase.
      destruct (decide (key = k)) as [->|Hkey].
      * destruct Hcase as [Hnin | Hnone].
        -- exfalso. apply Hnin, list_elem_of_here.
        -- rewrite Hkeep by (by right). subst obj1. by rewrite Hnone.
      * rewrite <- Hother by done.
        apply Hkeep. destruct Hcase as [Hnin | Hnone]; [|by right].
        left. intros Hin. apply Hnin. by apply list_elem_of_further.
Qed.

Lemma writable_fields_NoDup : NoDup _WRITABLE_FIELDS.
Proof.
  unfold _WRITABLE_FIELDS.
  repeat (apply NoDup_cons; split;
          [rewrite ?elem_of_cons, elem_of_nil; intuition discriminate|]).
  apply NoDup_nil_2.
Qed.

(** [_patch_object] with a patch that holds something, on an object with a
    metageneration, when the [customTime] of the patch is not older than
    the stored one. *)
Lemma _patch_object_run (obj patch : resource) (mg : value) (n : Z) :
  patch ≠ [] →
  PyDict.get "metageneration" obj = Some mg →
  py_int mg = Ok n →
  truthy (field obj "customTime") = false
  ∨ field patch "customTime" = VNone
  ∨ py_gt (field obj "customTime") (field patch "customTime") = Ok false →
  ∃ obj',
    _patch_object obj (VDict patch) = (obj', Ok tt)
    ∧ (∀ key, key ∈ _WRITABLE_FIELDS → field patch key ≠ VNone →
              PyDict.get key obj' = Some (field patch key))
    ∧ (∀ key, key ∉ _WRITABLE_FIELDS ∨ field patch key = VNone →
              key ≠ "metageneration" →
              PyDict.get key obj' = PyDict.get key obj)
    ∧ PyDict.get "metageneration" obj' = Some (VStr (py_str (n + 1))).
Proof.
  intros Hne Hmg Hn Hct. unfold _patch_object.
  assert (truthy (VDict patch) = true) as -> by (by destruct patch).
  unfold bind at 1, reads, subscript. rewrite Hmg.
  unfold bind at 1, lift. rewrite Hn.
  unfold bind at 1, modify.
  set (obj0 := PyDict.set "metageneration" (VStr (py_str (n + 1))) obj).
  destruct (for_each_patch_replace patch _WRITABLE_FIELDS
              writable_fields_NoDup obj0) as (obj' & -> & Hspec).
  { intros _. subst obj0. by rewrite field_set_ne. }
  exists obj'. split; [done|]. split_and!.
  - intros key Hin Hval. by apply (Hspec key).
  - intros key Hcase Hkey. destruct (Hspec key) as [_ Hkeep].
    rewrite Hkeep by done. subst obj0. by rewrite get_set_ne.
  - destruct (Hspec "metageneration") as [_ Hkeep]. rewrite Hkeep.
    + subst obj0. by rewrite get_set_eq.
    + left. unfold _WRITABLE_FIELDS. rewrite !elem_of_cons, elem_of_nil.
      intuition discriminate.
Qed.

(** C8 (amended).  For an object whose metageneration [int] reads, when
    the patch carries a [customTime] older than the stored one,
    [_patch_object] returns with the stored [customTime] unchanged; every
    other writable field for which the patch holds a value other than
    [None] holds that value afterwards; a writable field that the patch
    gives as [None], or does not give, keeps the value it had; a field
    outside the allow-list keeps its value, except for [metageneration],
    which is incremented whatever the patch says. *)
Theorem _patch_object_older_custom_time (obj patch : resource) (mg : value)
    (n : Z) (s t : string) :
  PyDict.get "metageneration" obj = Some mg →
  py_int mg = Ok n →
  PyDict.get "customTime" obj = Some (VStr s) →
  PyDict.get "customTime" patch = Some (VStr t) →
  String.ltb t s = true →
  ∃ obj',
    _patch_object obj (VDict patch) = (obj', Ok tt)
    ∧ PyDict.get "customTime" obj' = Some (VStr s)
    ∧ (∀ key v,
         key ∈ _WRITABLE_FIELDS → key ≠ "customTime" →
         PyDict.get key patch = Some v → v ≠ VNone →
         PyDict.get key obj' = Some v)
    ∧ (∀ key,
         key ∈ _WRITABLE_FIELDS →
         PyDict.get key patch = Some VNone ∨ PyDict.get key patch = None →
         PyDict.get key obj' = PyDict.get key obj)
    ∧ (∀ key,
         key ∉ _WRITABLE_FIELDS → key ≠ "metageneration" →
         PyDict.get key obj' = PyDict.get key obj)
    ∧ PyDict.get "metageneration" obj' = Some (VStr (py_str (n + 1))).
Proof.
  intros Hmg Hn Hs Ht Hlt.
  unfold _patch_object.
  assert (truthy (VDict patch) = true) as ->.
  { destruct patch; [done|done]. }
  unfold bind at 1, reads, subscript. rewrite Hmg.
  unfold bind at 1, lift. rewrite Hn.
  unfold bind at 1, modify.
  set (obj0 := PyDict.set "metageneration" (VStr (py_str (n + 1))) obj).
  assert (Hs0 : field obj0 "customTime" = VStr s).
  { subst obj0. rewrite field_set_ne by done. by apply get_field. }
  destruct (for_each_patch_older patch s t _WRITABLE_FIELDS
              (get_field _ _ _ Ht) Hlt obj0 Hs0) as (obj' & -> & Hspec).
  exists obj'. split; [done|]. repeat split.
  - destruct (Hspec "customTime") as [_ Hkeep].
    rewrite Hkeep by (right; by left).
    subst obj0. by rewrite get_set_ne.
  - intros key v Hin Hne Hv Hnone.
    destruct (Hspec key) as [Hset _].
    rewrite (get_field _ _ _ Hv) in Hset. by apply Hset.
  - intros key Hin Hnull.
    destruct (Hspec key) as [_ Hkeep]. rewrite Hkeep.
    + subst obj0. rewrite get_set_ne; [done|].
      intros <-. revert Hin. writable.
    + right; right. unfold field. by destruct Hnull as [-> | ->].
  - intros key Hnin Hne.
    destruct (Hspec key) as [_ Hkeep]. rewrite Hkeep by (by left).
    subst obj0. by rewrite get_set_ne.
  - destruct (Hspec "metageneration") as [_ Hkeep]. rewrite Hkeep.
    + subst obj0. by rewrite get_set_eq.
    + left. unfold _WRITABLE_FIELDS. rewrite !elem_of_cons, elem_of_nil.
      intuition discriminate.
Qed.

(** X12.  [_patch_object] does nothing for an empty patch (or none), not
    even to the metageneration, and raises [KeyError] before changing
    anything when the object has no metageneration.  Otherwise, when the
    patch has no [customTime] older than the stored one, every writable
    field for which the patch holds a value takes that value, every other
    field but [metageneration] keeps its own, and [metageneration] goes up
    by one. *)
Theorem _patch_object_replaces (obj : resource) :
  (∀ metadata, truthy metadata = false →
               _patch_object obj metadata = (obj, Ok tt))
  ∧ (∀ metadata, truthy metadata = true →
                 PyDict.get "metageneration" obj = None →
                 _patch_object obj metadata
                 = (obj, Raise (KeyError "metageneration")))
  ∧ (∀ (patch : resource) (mg : value) (n : Z),
       patch ≠ [] →
       PyDict.get "metageneration" obj = Some mg →
       py_int mg = Ok n →
       truthy (field obj "customTime") = false
       ∨ field patch "customTime" = VNone
       ∨ py_gt (field obj "customTime") (field patch "customTime")
         = Ok false →
       ∃ obj',
         _patch_object obj (VDict patch) = (obj', Ok tt)
         ∧ (∀ key, key ∈ _WRITABLE_FIELDS → field patch key ≠ VNone →
                   PyDict.get key obj' = Some (field patch key))
         ∧ (∀ key, key ∉ _WRITABLE_FIELDS ∨ field patch key = VNone →
                   key ≠ "metageneration" →
                   PyDict.get key obj' = PyDict.get key obj)
         ∧ PyDict.get "metageneration" obj'
           = Some (VStr (py_str (n + 1)))).
Proof.
  split_and!.
  - intros metadata Hm. unfold _patch_object. by rewrite Hm.
  - intros metadata Hm Hmg. unfold _patch_object. rewrite Hm.
    unfold bind at 1, reads, subscript. by rewrite Hmg.
  - intros patch mg n. apply _patch_object_run.
Qed.

End Patch.

Section Resources.

Context `{Imports}.

(** ** Resources made for an upload *)

(** The resource that [_make_object_resource] builds before it merges the
    metadata. *)
Lemma _make_object_resource_plain (time_id : Z)
    (now base_url bucket_name object_name : string)
    (content_type content_length metadata : value) :
  truthy metadata = false →
  ∃ base,
    _make_object_resource time_id now base_url bucket_name object_name
      content_type content_length metadata = Ok base
    ∧ PyDict.get "name" base = Some (VStr object_name)
    ∧ PyDict.get "bucket" base = Some (VStr bucket_name)
    ∧ PyDict.get "size" base = Some content_length
    ∧ PyDict.get "contentType" base = Some content_type
    ∧ PyDict.get "generation" base = Some (VStr (py_str time_id))
    ∧ PyDict.get "metageneration" base = Some (VStr "1")
    ∧ PyDict.get "crc32c" base = Some VNone
    ∧ PyDict.get "md5Hash" base = Some VNone
    ∧ PyDict.get "etag" base = Some VNone
    ∧ PyDict.get "customTime" base = None.
Proof.
  intros Hm. unfold _make_object_resource, _patch_object. rewrite Hm.
  eexists. split; [reflexivity|]. by split_and!.
Qed.

Lemma _make_object_resource_merged (time_id : Z)
    (now base_url bucket_name object_name : string)
    (content_type content_length : value) (patch : resource) (n : Z) :
  patch ≠ [] →
  int_of_str "1" = Some n →
  ∃ base obj,
    _make_object_resource time_id now base_url bucket_name object_name
      content_type content_length VNone = Ok base
    ∧ _make_object_resource time_id now base_url bucket_name object_name
        content_type content_length (VDict patch) = Ok obj
    ∧ (∀ key, key ∈ _WRITABLE_FIELDS → field patch key ≠ VNone →
              PyDict.get key obj = Some (field patch key))
    ∧ (∀ key, key ∉ _WRITABLE_FIELDS ∨ field patch key = VNone →
              key ≠ "metageneration" →
              PyDict.get key obj = PyDict.get key base)
    ∧ PyDict.get "metageneration" obj = Some (VStr (py_str (n + 1))).
Proof.
  intros Hne Hint.
  destruct (_make_object_resource_plain time_id now base_url bucket_name
              object_name content_type content_length VNone eq_refl)
    as (base & Hbase & _ & _ & _ & _ & _ & Hmg & _ & _ & _ & Hct).
  exists base.
  revert Hbase. unfold _make_object_resource.
  set (fresh := [("kind", VStr "storage#object"); _; _; _; _; _; _; _; _; _;
                 _; _; _; _; _; _; _]).
  intros Hbase.
  assert (base = fresh) as ->.
  { unfold _patch_object in Hbase. simpl in Hbase. congruence. }
  destruct (_patch_object_run fresh patch (VStr "1") n Hne Hmg)
    as (obj & -> & Hspec).
  { simpl. by rewrite Hint. }
  { left. unfold field. by rewrite Hct. }
  exists obj. split; [done|]. split; [done|]. exact Hspec.
Qed.

(** The resource of an upload, whatever the metadata holds: the writable
    fields that the metadata gives replace those of the fresh resource. *)
Lemma _make_object_resource_any (time_id : Z)
    (now base_url bucket_name object_name : string)
    (content_type content_length : value) (patch : resource) (n : Z) :
  int_of_str "1" = Some n →
  ∃ obj,
    _make_object_resource time_id now base_url bucket_name object_name
      content_type content_length (VDict patch) = Ok obj
    ∧ PyDict.get "name" obj = Some (VStr object_name)
    ∧ PyDict.get "bucket" obj = Some (VStr bucket_name)
    ∧ PyDict.get "size" obj = Some content_length
    ∧ PyDict.get "generation" obj = Some (VStr (py_str time_id))
    ∧ PyDict.get "etag" obj = Some VNone
    ∧ PyDict.get "metageneration" obj
      = Some (VStr (match patch with [] => "1" | _ => py_str (n + 1) end))
    ∧ field obj "contentType"
      = (if is_none (field patch "contentType") then content_type
         else field patch "contentType")
    ∧ field obj "crc32c" = field patch "crc32c"
    ∧ field obj "md5Hash" = field patch "md5Hash"
    ∧ field obj "customTime" = field patch "customTime".
Proof.
  intros Hint.
  destruct (decide (patch = [])) as [-> | Hne].
  - destruct (_make_object_resource_plain time_id now base_url bucket_name
                object_name content_type content_length (VDict []) eq_refl)
      as (base & -> & Hn & Hb & Hs & Hc & Hg & Hmg & Hcrc & Hmd & He & Hct).
    exists base. split; [done|]. unfold field.
    rewrite Hn, Hb, Hs, Hc, Hg, Hmg, Hcrc, Hmd, He, Hct. by split_and!.
  - destruct (_make_object_resource_merged time_id now base_url bucket_name
                object_name content_type content_length patch n Hne Hint)
      as (base & obj & Hbase & -> & Hset & Hkeep & Hmg').
    destruct (_make_object_resource_plain time_id now base_url bucket_name
                object_name content_type content_length VNone eq_refl)
      as (base' & Hbase' & Hn & Hb & Hs & Hc & Hg & Hmg & Hcrc & Hmd & He
          & Hct).
    assert (base' = base) as -> by congruence.
    assert (Hfield : ∀ key default,
               key ∈ _WRITABLE_FIELDS →
               PyDict.get key base = default →
               field obj key
               = if is_none (field patch key)
                 then match default with Some v => v | None => VNone end
                 else field patch key).
    { intros key default Hin Hdef. unfold field at 1.
      destruct (is_none (field patch key)) eqn:En.
      - rewrite Hkeep, Hdef; [done| |intros ->; revert Hin; writable].
        right. by destruct (field patch key).
      - rewrite (Hset key Hin); [done|]. intros Heq. by rewrite Heq in En. }
    exists obj. split; [done|].
    split_and!.
    + rewrite Hkeep; [done | left; writable | done].
    + rewrite Hkeep; [done | left; writable | done].
    + rewrite Hkeep; [done | left; writable | done].
    + rewrite Hkeep; [done | left; writable | done].
    + rewrite Hkeep; [done | left; writable | done].
    + rewrite Hmg'. by destruct patch.
    + rewrite (Hfield "contentType" (Some content_type));
        [done | writable | done].
    + rewrite (Hfield "crc32c" (Some VNone)); [|writable|done].
      by destruct (field patch "crc32c").
    + rewrite (Hfield "md5Hash" (Some VNone)); [|writable|done].
      by destruct (field patch "md5Hash").
    + rewrite (Hfield "customTime" None); [|writable|done].
      by destruct (field patch "customTime").
Qed.

End Resources.

Section Paths.

(** ** Paths *)

Lemma components_nonempty (s : string) : components s ≠ [].
Proof.
  induction s as [|c s IH]; simpl; [done|].
  destruct (Ascii.eqb c "/"); [done|]. by destruct (components s).
Qed.

(** A path is its directory name followed by its base name. *)
Lemma components_split (p : string) :
  components p = dirname p ++ [basename p].
Proof.
  unfold dirname, basename.
  apply app_removelast_last, components_nonempty.
Qed.

(** A component holds no ["/"]. *)
Lemma components_component (s c : string) :
  c ∈ components s → components c = [c].
Proof.
  revert c. induction s as [|a s IH]; simpl; intros c Hin.
  - by apply list_elem_of_singleton in Hin as ->.
  - destruct (Ascii.eqb a "/") eqn:Ea.
    + apply elem_of_cons in Hin as [-> | Hin]; [done | by apply IH].
    + pose proof (components_nonempty s) as Hne.
      destruct (components s) as [|head tail] eqn:Es; [done|].
      apply elem_of_cons in Hin as [-> | Hin].
      * simpl. rewrite Ea, (IH head); [done | apply list_elem_of_here].
      * apply IH. by apply list_elem_of_further.
Qed.

Lemma components_basename (p : string) :
  components (basename p) = [basename p].
Proof.
  apply (components_component p).
  pose proof (components_split p) as Hsplit. rewrite Hsplit.
  apply elem_of_app. right. apply list_elem_of_here.
Qed.

(** [normalise] goes on from the components it has kept. *)
Lemma normalise_app (cs cs' : list string) :
  ∀ (stack : list string) (r : list string),
    normalise stack cs = Ok r →
    ∃ stack', r = rev stack' ∧ normalise stack (cs ++ cs') = normalise stack' cs'.
Proof.
  induction cs as [|c cs IH]; intros stack r; simpl.
  - intros [= <-]. by exists stack.
  - destruct (String.eqb c "..").
    + destruct stack as [|top stack]; [done | apply IH].
    + destruct (String.eqb c "" || String.eqb c "."); apply IH.
Qed.

(** The place that a path names is the place of its directory name
    followed by that of its base name. *)
Lemma normpath_split (p : string) (d below : list string) :
  normalise [] (dirname p) = Ok d →
  normpath (basename p) = Ok below →
  normpath p = Ok (d ++ below).
Proof.
  intros Hd Hb. unfold normpath in *.
  rewrite components_basename in Hb. rewrite (components_split p).
  destruct (normalise_app (dirname p) [basename p] [] d Hd)
    as (stack & -> & ->).
  simpl in *.
  destruct (String.eqb (basename p) ".."); [done|].
  destruct (String.eqb (basename p) "" || String.eqb (basename p) ".");
    injection Hb as <-; [by rewrite app_nil_r | done].
Qed.

(** The name of a file that can be opened for writing has a last
    component of its own. *)
Lemma normpath_basename (p : string) (below : list string) :
  normpath (basename p) = Ok below →
  below = [] ∨ below = [basename p].
Proof.
  unfold normpath. rewrite components_basename. simpl.
  destruct (String.eqb (basename p) ".."); [done|].
  destruct (String.eqb (basename p) "" || String.eqb (basename p) ".");
    intros [= <-]; [by left | by right].
Qed.

End Paths.

Section ByteStore.

(** ** The file system *)

Lemma transient_resumable : transient RESUMABLE_DIR = true.
Proof. reflexivity. Qed.

Lemma transient_multipart : transient MULTIPART_DIR = true.
Proof. reflexivity. Qed.

Lemma locate_transient (dir name : string) :
  transient dir = true → locate dir name = Ok [name].
Proof. unfold locate. by intros ->. Qed.

Lemma locate_bucket (dir name : string) :
  transient dir = false → locate dir name = normpath name.
Proof. unfold locate. by intros ->. Qed.

Lemma normalise_raises (cs stack : list string) (e : exn) :
  normalise stack cs = Raise e → e = IllegalBackReference.
Proof.
  revert stack. induction cs as [|c cs IH]; intros stack; simpl; [done|].
  destruct (String.eqb c "..").
  - destruct stack; [by intros [= <-] | apply IH].
  - destruct (String.eqb c "" || String.eqb c "."); apply IH.
Qed.

Lemma locate_raises (dir name : string) (e : exn) :
  locate dir name = Raise e → e = IllegalBackReference.
Proof.
  unfold locate, normpath. destruct (transient dir); [done|].
  apply normalise_raises.
Qed.

Lemma get_file_raises (self : Storage) (bucket_name file_name : string)
    (e : exn) :
  get_file self bucket_name file_name = Raise e →
  e = NotFound ∨ e = IllegalBackReference.
Proof.
  unfold get_file.
  destruct (_fs self !! bucket_name) as [t|]; [|intros [= <-]; by left].
  destruct (locate bucket_name file_name) as [p|e'] eqn:El.
  - destruct (t !! p) as [[c|]|]; intros [= <-]; by left.
  - intros [= <-]. right. by apply locate_raises in El.
Qed.

(** In a transient directory [get_file] raises nothing but [NotFound]. *)
Lemma get_file_transient_raises (self : Storage) (dir name : string)
    (e : exn) :
  transient dir = true → get_file self dir name = Raise e → e = NotFound.
Proof.
  intros Ht. unfold get_file. rewrite (locate_transient dir name Ht).
  destruct (_fs self !! dir) as [t|]; [|by intros [= <-]].
  by destruct (t !! [name]) as [[c|]|]; intros [= <-].
Qed.

Lemma get_file_fs (self self' : Storage) (bucket_name file_name : string) :
  _fs self = _fs self' →
  get_file self bucket_name file_name = get_file self' bucket_name file_name.
Proof. unfold get_file. by intros ->. Qed.

(** [get_file] reads the tree of the directory. *)
Lemma get_file_container (self : Storage) (bucket_name file_name : string)
    (p : list string) :
  locate bucket_name file_name = Ok p →
  get_file self bucket_name file_name
  = match container self bucket_name !! p with
    | Some (FileE content) => Ok content
    | _ => Raise NotFound
    end.
Proof.
  intros Hp. unfold get_file, container. rewrite Hp.
  destruct (_fs self !! bucket_name) as [t|]; [done|].
  simpl. by rewrite lookup_empty.
Qed.

Lemma container_put (self : Storage) (dir : string) (p : list string)
    (content : bytes) :
  container (put_file self dir p content) dir
  = <[p := FileE content]> (container self dir).
Proof. unfold container at 1, put_file. simpl. by rewrite lookup_insert_eq. Qed.

Lemma container_put_ne (self : Storage) (dir dir' : string)
    (p : list string) (content : bytes) :
  dir ≠ dir' →
  _fs (put_file self dir p content) !! dir' = _fs self !! dir'.
Proof. intros Hne. unfold put_file. simpl. by rewrite lookup_insert_ne. Qed.

Lemma get_file_put_eq (self : Storage) (dir name : string)
    (p : list string) (content : bytes) :
  locate dir name = Ok p →
  get_file (put_file self dir p content) dir name = Ok content.
Proof.
  intros Hp. rewrite (get_file_container _ _ _ p Hp), container_put.
  by rewrite lookup_insert_eq.
Qed.

Lemma get_file_put_dir (self : Storage) (dir dir' name' : string)
    (p : list string) (content : bytes) :
  dir ≠ dir' →
  get_file (put_file self dir p content) dir' name' = get_file self dir' name'.
Proof.
  intros Hne. unfold get_file. by rewrite container_put_ne.
Qed.

Lemma get_file_put_path (self : Storage) (dir name' : string)
    (p p' : list string) (content : bytes) :
  locate dir name' = Ok p' → p' ≠ p →
  get_file (put_file self dir p content) dir name' = get_file self dir name'.
Proof.
  intros Hp Hne. rewrite !(get_file_container _ _ _ p' Hp), container_put.
  by rewrite lookup_insert_ne.
Qed.

Lemma get_file_make_container (self : Storage) (dir dir' name' : string) :
  dir ≠ dir' ∨ (∃ p', locate dir' name' = Ok p') →
  get_file (make_container self dir) dir' name' = get_file self dir' name'.
Proof.
  intros Hcase. unfold make_container.
  destruct (_fs self !! dir) as [t|] eqn:Et; [done|].
  destruct (decide (dir = dir')) as [<- | Hne].
  - destruct Hcase as [? | [p' Hp]]; [done|].
    rewrite !(get_file_container _ _ _ p' Hp). unfold container. simpl.
    by rewrite lookup_insert_eq, Et.
  - unfold get_file. simpl. by rewrite lookup_insert_ne.
Qed.

Lemma get_file_drop_eq (self : Storage) (dir name : string)
    (p : list string) :
  locate dir name = Ok p →
  get_file (drop_file self dir p) dir name = Raise NotFound.
Proof.
  intros Hp. unfold get_file, drop_file. rewrite Hp.
  destruct (_fs self !! dir) as [t|] eqn:Et.
  - simpl. by rewrite lookup_insert_eq, lookup_delete_eq.
  - by rewrite Et.
Qed.

Lemma get_file_drop_ne (self : Storage) (dir dir' name' : string)
    (p : list string) :
  dir ≠ dir' ∨ locate dir' name' ≠ Ok p →
  get_file (drop_file self dir p) dir' name' = get_file self dir' name'.
Proof.
  intros Hcase. unfold get_file, drop_file.
  destruct (_fs self !! dir) as [t|] eqn:Et; [|done]. simpl.
  destruct (decide (dir = dir')) as [<- | Hne].
  - rewrite lookup_insert_eq, Et.
    destruct (locate dir name') as [p'|]; [|done].
    destruct Hcase as [? | Hp]; [done|].
    rewrite lookup_delete_ne; [done | congruence].
  - by rewrite lookup_insert_ne.
Qed.

(** *** The catalog is not in the file system *)

Lemma same_catalog_refl (self : Storage) : same_catalog self self.
Proof. by repeat split. Qed.

Lemma same_catalog_trans (s1 s2 s3 : Storage) :
  same_catalog s1 s2 → same_catalog s2 s3 → same_catalog s1 s3.
Proof.
  intros (? & ? & ? & ? & ?) (? & ? & ? & ? & ?).
  repeat split; congruence.
Qed.

Lemma same_catalog_set_fs (f : gmap string (gmap (list string) entry)
                               → gmap string (gmap (list string) entry))
    (self : Storage) :
  same_catalog self (set_fs f self).
Proof. by repeat split. Qed.

Lemma same_catalog_make_container (self : Storage) (dir : string) :
  same_catalog self (make_container self dir).
Proof.
  unfold make_container. destruct (_fs self !! dir); by repeat split.
Qed.

Lemma same_catalog_put (self : Storage) (dir : string) (p : list string)
    (content : bytes) :
  same_catalog self (put_file self dir p content).
Proof. by repeat split. Qed.

Lemma same_catalog_drop (self : Storage) (dir : string) (p : list string) :
  same_catalog self (drop_file self dir p).
Proof. unfold drop_file. destruct (_fs self !! dir); by repeat split. Qed.

Lemma _get_or_create_dir_catalog (self : Storage)
    (bucket_name file_name : string) :
  same_catalog self (_get_or_create_dir self bucket_name file_name).1.
Proof.
  unfold _get_or_create_dir.
  pose proof (same_catalog_make_container self bucket_name) as Hc.
  destruct (transient bucket_name); [done|].
  destruct (normalise [] (dirname file_name)) as [d|]; [|done].
  destruct (_fs (make_container self bucket_name) !! bucket_name) as [t|];
    [|done].
  destruct (makedirs [] d t); [|done].
  apply same_catalog_trans with (make_container self bucket_name); [done|].
  apply same_catalog_set_fs.
Qed.

Lemma write_file_catalog (self : Storage) (bucket_name : string)
    (file_dir : list string) (name : string) (content : bytes) :
  same_catalog self (write_file self bucket_name file_dir name content).1.
Proof.
  unfold write_file.
  destruct (_fs self !! bucket_name) as [t|]; [|apply same_catalog_refl].
  destruct (transient bucket_name); [apply same_catalog_set_fs|].
  destruct (normpath name) as [below|]; [|apply same_catalog_refl].
  destruct (file_dir ++ below) as [|c target]; [apply same_catalog_refl|].
  destruct (negb (is_dir t (removelast (c :: target))));
    [apply same_catalog_refl|].
  destruct (t !! (c :: target)) as [[?|]|];
    first [apply same_catalog_set_fs | apply same_catalog_refl].
Qed.

Lemma _delete_file_catalog (self : Storage) (bucket_name file_name : string) :
  same_catalog self (_delete_file self bucket_name file_name).1.
Proof.
  unfold _delete_file.
  destruct (_fs self !! bucket_name) as [t|]; [|apply same_catalog_refl].
  destruct (transient bucket_name); [apply same_catalog_set_fs|].
  destruct (normpath file_name) as [[|c p]|]; try apply same_catalog_refl.
  destruct (t !! (c :: p)) as [[?|]|];
    first [apply same_catalog_set_fs | apply same_catalog_refl].
Qed.

(** *** The transient directories *)

(** A file of a transient directory can always be written: the directory
    is made when it is missing and the file is put under its name. *)
Lemma write_transient (self : Storage) (dir name : string)
    (content : bytes) :
  transient dir = true →
  bind (fun s => _get_or_create_dir s dir name)
    (fun file_dir s => write_file s dir file_dir name content) self
  = (put_file self dir [name] content, Ok tt).
Proof.
  intros Ht. unfold bind, _get_or_create_dir, write_file. rewrite Ht.
  unfold put_file, container, make_container, set_container.
  destruct (_fs self !! dir) as [t|] eqn:Et.
  - by rewrite Et.
  - simpl. rewrite lookup_insert_eq. unfold set_fs. simpl.
    by rewrite insert_insert_eq.
Qed.

Lemma delete_transient (self : Storage) (dir name : string) :
  transient dir = true →
  _delete_file self dir name = (drop_file self dir [name], Ok tt).
Proof.
  intros Ht. unfold _delete_file, drop_file. rewrite Ht.
  by destruct (_fs self !! dir).
Qed.

End ByteStore.

Section Files.

Context `{Imports}.

(** ** Files of a bucket *)

(** [makedirs] makes directories: the files of the tree are those that
    were there. *)
Lemma makedirs_files (d : list string) :
  ∀ (here : list string) (t t' : gmap (list string) entry),
    makedirs here d t = Ok t' →
    ∀ q c, t' !! q = Some (FileE c) ↔ t !! q = Some (FileE c).
Proof.
  induction d as [|a d IH]; intros here t t'; simpl.
  - by intros [= <-].
  - destruct (t !! (here ++ [a])) as [[content|]|] eqn:Et; [done| |];
      intros Hm q c; rewrite (IH _ _ _ Hm q c);
      (destruct (decide (q = here ++ [a])) as [-> | Hq];
       [rewrite lookup_insert_eq, Et; split; discriminate
       | by rewrite lookup_insert_ne]).
Qed.

Lemma makedirs_keeps_dirs (d : list string) :
  ∀ (here : list string) (t t' : gmap (list string) entry) q,
    makedirs here d t = Ok t' →
    t !! q = Some DirE → t' !! q = Some DirE.
Proof.
  induction d as [|a d IH]; intros here t t' q; simpl.
  - by intros [= <-].
  - destruct (t !! (here ++ [a])) as [[content|]|] eqn:Et; [done| |];
      intros Hm Hq; apply (IH _ _ _ _ Hm);
      (destruct (decide (q = here ++ [a])) as [-> | Hne];
       [by rewrite lookup_insert_eq | by rewrite lookup_insert_ne]).
Qed.

Lemma makedirs_made (d : list string) :
  ∀ (here : list string) (t t' : gmap (list string) entry),
    makedirs here d t = Ok t' →
    d ≠ [] → t' !! (here ++ d) = Some DirE.
Proof.
  induction d as [|a d IH]; intros here t t'; simpl; [done|].
  destruct (t !! (here ++ [a])) as [[content|]|] eqn:Et; [done| |];
    intros Hm _;
    (destruct d as [|b d];
     [ simpl in Hm; injection Hm as <-; by rewrite lookup_insert_eq
     | rewrite (cons_middle a), app_assoc; by apply (IH _ _ _ Hm) ]).
Qed.

Lemma makedirs_is_dir (d : list string)
    (t t' : gmap (list string) entry) :
  makedirs [] d t = Ok t' → is_dir t' d = true.
Proof.
  intros Hm. destruct d as [|a d]; [done|].
  pose proof (makedirs_made (a :: d) [] t t' Hm) as Hd. simpl in Hd.
  unfold is_dir. by rewrite Hd.
Qed.

(** What [get_file] reads in a tree does not change when directories are
    made. *)
Lemma read_makedirs (d here : list string)
    (t t' : gmap (list string) entry) (q : list string) :
  makedirs here d t = Ok t' →
  match t' !! q with
  | Some (FileE content) => Ok content
  | _ => Raise NotFound
  end
  = match t !! q with
    | Some (FileE content) => Ok content
    | _ => Raise NotFound
    end.
Proof.
  intros Hm. destruct (t' !! q) as [[c'|]|] eqn:E'.
  - apply (makedirs_files d here t t' Hm) in E'. by rewrite E'.
  - destruct (t !! q) as [[c|]|] eqn:E; try done.
    apply (makedirs_files d here t t' Hm) in E. congruence.
  - destruct (t !! q) as [[c|]|] eqn:E; try done.
    apply (makedirs_files d here t t' Hm) in E. congruence.
Qed.

(** The two steps that put the bytes of an object into the file system,
    when they return, in a bucket: the key names a place, the bytes are
    read back under the key, and what is read under a key of another
    place, or in another directory, is what was read before. *)
Lemma file_steps_ok (self s' : Storage) (bucket_name file_name : string)
    (content : bytes) :
  transient bucket_name = false →
  bind (fun s => _get_or_create_dir s bucket_name file_name)
    (fun file_dir s =>
       write_file s bucket_name file_dir (basename file_name) content) self
  = (s', Ok tt) →
  same_catalog self s'
  ∧ (∀ dir, dir ≠ bucket_name → _fs s' !! dir = _fs self !! dir)
  ∧ ∃ p,
      normpath file_name = Ok p
      ∧ p ≠ []
      ∧ get_file s' bucket_name file_name = Ok content
      ∧ ∀ name' p',
          normpath name' = Ok p' → p' ≠ p →
          get_file s' bucket_name name' = get_file self bucket_name name'.
Proof.
  intros Ht. unfold bind at 1, _get_or_create_dir. rewrite Ht.
  set (s0 := make_container self bucket_name).
  assert (Hs0 : _fs s0 !! bucket_name = Some (container self bucket_name)).
  { subst s0. unfold make_container, container.
    destruct (_fs self !! bucket_name) as [t|] eqn:Et; [done|].
    simpl. by rewrite lookup_insert_eq. }
  assert (Hother0 : ∀ dir, dir ≠ bucket_name → _fs s0 !! dir = _fs self !! dir).
  { intros dir Hdir. subst s0. unfold make_container.
    destruct (_fs self !! bucket_name); [done|].
    simpl. by rewrite lookup_insert_ne. }
  destruct (normalise [] (dirname file_name)) as [d|] eqn:Ed; [|done].
  rewrite Hs0.
  destruct (makedirs [] d (container self bucket_name)) as [t'|] eqn:Em;
    [|done].
  unfold write_file. simpl. rewrite lookup_insert_eq, Ht.
  destruct (normpath (basename file_name)) as [below|] eqn:Eb; [|done].
  destruct (d ++ below) as [|a target] eqn:Etarget; [done|].
  destruct (negb (is_dir t' (removelast (a :: target)))); [done|].
  intros Hrun.
  assert (Hs' : s' = set_container bucket_name
                       (<[a :: target := FileE content]> t')
                       (set_container bucket_name t' s0)).
  { destruct (t' !! (a :: target)) as [[old|]|]; [|done|];
      by injection Hrun as <-. }
  clear Hrun. subst s'.
  pose proof (normpath_split file_name d below Ed Eb) as Hp.
  rewrite Etarget in Hp.
  split; [|split].
  - apply same_catalog_trans with s0;
      [apply same_catalog_make_container | by repeat split].
  - intros dir Hdir. simpl. by rewrite !lookup_insert_ne, Hother0.
  - exists (a :: target). split; [done|]. split; [done|]. split.
    + rewrite (get_file_container _ _ _ (a :: target))
        by (by rewrite locate_bucket).
      unfold container. simpl.
      rewrite lookup_insert_eq. simpl. by rewrite lookup_insert_eq.
    + intros name' p' Hp' Hne.
      rewrite !(get_file_container _ _ _ p') by (by rewrite locate_bucket).
      unfold container at 1. simpl.
      rewrite lookup_insert_eq. simpl.
      rewrite lookup_insert_ne by done.
      by apply read_makedirs with d [].
Qed.

(** ** One directory of the byte store at a time *)

Lemma get_file_dir (self self' : Storage) (bucket_name file_name : string) :
  _fs self !! bucket_name = _fs self' !! bucket_name →
  get_file self bucket_name file_name = get_file self' bucket_name file_name.
Proof. unfold get_file. by intros ->. Qed.

Lemma make_container_other (self : Storage) (bucket_name dir : string) :
  dir ≠ bucket_name →
  _fs (make_container self bucket_name) !! dir = _fs self !! dir.
Proof.
  intros Hdir. unfold make_container.
  destruct (_fs self !! bucket_name); [done|].
  simpl. by rewrite lookup_insert_ne.
Qed.

Lemma make_container_is_Some (self : Storage) (bucket_name : string) :
  _fs (make_container self bucket_name) !! bucket_name
  = Some (container self bucket_name).
Proof.
  unfold make_container, container.
  destruct (_fs self !! bucket_name) as [t|] eqn:Et; [done|].
  simpl. by rewrite lookup_insert_eq.
Qed.

Lemma _get_or_create_dir_other (self : Storage)
    (bucket_name file_name dir : string) :
  dir ≠ bucket_name →
  _fs (_get_or_create_dir self bucket_name file_name).1 !! dir
  = _fs self !! dir.
Proof.
  intros Hdir. unfold _get_or_create_dir.
  destruct (transient bucket_name);
    [simpl; by apply make_container_other|].
  destruct (normalise [] (dirname file_name)) as [d|];
    [|simpl; by apply make_container_other].
  destruct (_fs (make_container self bucket_name) !! bucket_name) as [t|];
    [|simpl; by apply make_container_other].
  destruct (makedirs [] d t) as [t'|];
    [|simpl; by apply make_container_other].
  simpl. rewrite lookup_insert_ne by done. by apply make_container_other.
Qed.

Lemma _get_or_create_dir_is_Some (self : Storage)
    (bucket_name file_name dir : string) :
  is_Some (_fs self !! dir) →
  is_Some (_fs (_get_or_create_dir self bucket_name file_name).1 !! dir).
Proof.
  intros Hdir. destruct (decide (dir = bucket_name)) as [-> | Hne].
  - unfold _get_or_create_dir.
    pose proof (make_container_is_Some self bucket_name) as Hc.
    destruct (transient bucket_name); [simpl; by rewrite Hc|].
    destruct (normalise [] (dirname file_name)) as [d|];
      [|simpl; by rewrite Hc].
    rewrite Hc.
    destruct (makedirs [] d (container self bucket_name)) as [t'|];
      [|simpl; by rewrite Hc].
    simpl. by rewrite lookup_insert_eq.
  - by rewrite _get_or_create_dir_other.
Qed.

Lemma write_file_other (self : Storage) (bucket_name : string)
    (file_dir : list string) (name : string) (content : bytes)
    (dir : string) :
  dir ≠ bucket_name →
  _fs (write_file self bucket_name file_dir name content).1 !! dir
  = _fs self !! dir.
Proof.
  intros Hdir. unfold write_file.
  destruct (_fs self !! bucket_name) as [t|]; [|done].
  destruct (transient bucket_name);
    [simpl; by rewrite lookup_insert_ne|].
  destruct (normpath name) as [below|]; [|done].
  destruct (file_dir ++ below) as [|a target]; [done|].
  destruct (negb (is_dir t (removelast (a :: target)))); [done|].
  destruct (t !! (a :: target)) as [[old|]|]; simpl;
    by rewrite ?lookup_insert_ne.
Qed.

Lemma drop_file_other (self : Storage) (bucket_name : string)
    (p : list string) (dir : string) :
  dir ≠ bucket_name →
  _fs (drop_file self bucket_name p) !! dir = _fs self !! dir.
Proof.
  intros Hdir. unfold drop_file.
  destruct (_fs self !! bucket_name) as [t|]; [|done].
  simpl. by rewrite lookup_insert_ne.
Qed.

Lemma drop_file_is_Some (self : Storage) (bucket_name : string)
    (p : list string) (dir : string) :
  is_Some (_fs (drop_file self bucket_name p) !! dir)
  ↔ is_Some (_fs self !! dir).
Proof.
  unfold drop_file.
  destruct (_fs self !! bucket_name) as [t|] eqn:Et; [|done]. simpl.
  destruct (decide (dir = bucket_name)) as [-> | Hne].
  - rewrite lookup_insert_eq, Et. split; eauto.
  - by rewrite lookup_insert_ne.
Qed.

Lemma _delete_file_other (self : Storage) (bucket_name file_name : string)
    (dir : string) :
  dir ≠ bucket_name →
  _fs (_delete_file self bucket_name file_name).1 !! dir = _fs self !! dir.
Proof.
  intros Hdir. unfold _delete_file.
  destruct (_fs self !! bucket_name) as [t|]; [|done].
  destruct (transient bucket_name);
    [simpl; by rewrite lookup_insert_ne|].
  destruct (normpath file_name) as [[|a p]|]; [done| |done].
  destruct (t !! (a :: p)) as [[old|]|]; simpl;
    by rewrite ?lookup_insert_ne.
Qed.

(** What [write_file] does in a directory depends on that directory
    only. *)
Lemma write_file_container (s1 s0 : Storage) (bucket_name : string)
    (file_dir : list string) (name : string) (content : bytes) :
  _fs s1 !! bucket_name = _fs s0 !! bucket_name →
  (write_file s1 bucket_name file_dir name content).2
  = (write_file s0 bucket_name file_dir name content).2
  ∧ _fs (write_file s1 bucket_name file_dir name content).1 !! bucket_name
    = _fs (write_file s0 bucket_name file_dir name content).1 !! bucket_name.
Proof.
  intros Hsame. unfold write_file. rewrite Hsame.
  destruct (_fs s0 !! bucket_name) as [t|] eqn:Et;
    [|simpl; split; congruence].
  destruct (transient bucket_name);
    [simpl; by rewrite !lookup_insert_eq|].
  destruct (normpath name) as [below|]; [|simpl; split; congruence].
  destruct (file_dir ++ below) as [|a target];
    [simpl; split; congruence|].
  destruct (negb (is_dir t (removelast (a :: target))));
    [simpl; split; congruence|].
  destruct (t !! (a :: target)) as [[old|]|]; simpl;
    rewrite ?lookup_insert_eq; split; congruence.
Qed.

(** Whether the file system takes a file in a directory depends on that
    directory only. *)
Lemma accepts_dir (self self' : Storage) (bucket_name file_name : string) :
  _fs self !! bucket_name = _fs self' !! bucket_name →
  accepts self bucket_name file_name = accepts self' bucket_name file_name.
Proof.
  intros Hsame. unfold accepts, bind, _get_or_create_dir.
  assert (Hc : container self bucket_name = container self' bucket_name)
    by (unfold container; by rewrite Hsame).
  destruct (transient bucket_name) eqn:Ht.
  - simpl. unfold write_file. rewrite !make_container_is_Some, Ht. done.
  - destruct (normalise [] (dirname file_name)) as [d|]; [|done].
    rewrite !make_container_is_Some, Hc.
    destruct (makedirs [] d (container self' bucket_name)) as [t'|];
      [|done].
    cbn beta iota.
    match goal with
    | |- is_ok (write_file ?a _ _ _ _).2 = is_ok (write_file ?b _ _ _ _).2 =>
        destruct (write_file_container a b bucket_name d
                    (basename file_name) []) as [-> _]; [|done]
    end.
    simpl. by rewrite !lookup_insert_eq.
Qed.

End Files.

Section Catalog.

Context `{Imports}.

(** ** Objects *)

Lemma get_file_obj_install (objs : dict (dict resource))
    (self : Storage) (bucket_name file_name : string) (file_obj : resource) :
  objects self = install_object bucket_name file_name file_obj objs →
  get_file_obj self bucket_name file_name = Ok file_obj.
Proof.
  unfold get_file_obj, install_object. intros ->.
  by rewrite !get_set_eq.
Qed.

Lemma mem_get {V} (k : string) (d : dict V) :
  PyDict.mem k d = true ↔ ∃ v, PyDict.get k d = Some v.
Proof.
  unfold PyDict.mem. destruct (PyDict.get k d); split; eauto; try done.
  by intros [? ?].
Qed.

(** Whether the file system takes the file does not depend on the
    bytes. *)
Lemma file_steps_content (self : Storage) (bucket_name file_name : string)
    (content content' : bytes) :
  is_ok (bind (fun s => _get_or_create_dir s bucket_name file_name)
           (fun file_dir s =>
              write_file s bucket_name file_dir (basename file_name) content)
           self).2
  = is_ok (bind (fun s => _get_or_create_dir s bucket_name file_name)
             (fun file_dir s =>
                write_file s bucket_name file_dir (basename file_name)
                  content') self).2.
Proof.
  unfold bind.
  destruct (_get_or_create_dir self bucket_name file_name) as [s1 [d|e]];
    [|done].
  unfold write_file.
  destruct (_fs s1 !! bucket_name) as [t|]; [|done].
  destruct (transient bucket_name); [done|].
  destruct (normpath (basename file_name)) as [below|]; [|done].
  destruct (d ++ below) as [|a target]; [done|].
  destruct (negb (is_dir t (removelast (a :: target)))); [done|].
  by destruct (t !! (a :: target)) as [[old|]|].
Qed.

Lemma file_steps_accepts (self : Storage) (bucket_name file_name : string)
    (content : bytes) :
  (bind (fun s => _get_or_create_dir s bucket_name file_name)
     (fun file_dir s =>
        write_file s bucket_name file_dir (basename file_name) content)
     self).2 = Ok tt
  ↔ accepts self bucket_name file_name = true.
Proof.
  unfold accepts.
  rewrite <- (file_steps_content self bucket_name file_name content []).
  destruct (bind _ _ self) as [s1 [[]|e]]; simpl; split; done.
Qed.

(** What the file system raises, and what is left then: the catalog is
    as it was (directories may have been made). *)
Lemma file_steps_raises (self s' : Storage) (bucket_name file_name : string)
    (content : bytes) (e : exn) :
  bind (fun s => _get_or_create_dir s bucket_name file_name)
    (fun file_dir s =>
       write_file s bucket_name file_dir (basename file_name) content) self
  = (s', Raise e) →
  same_catalog self s'
  ∧ e ∈ [FileExpected; DirectoryExpected; ResourceNotFound;
         IllegalBackReference].
Proof.
  unfold bind at 1.
  pose proof (_get_or_create_dir_catalog self bucket_name file_name) as Hc1.
  destruct (_get_or_create_dir self bucket_name file_name)
    as [s1 [d|e1]] eqn:E1; simpl in Hc1.
  - pose proof (write_file_catalog s1 bucket_name d (basename file_name)
                  content) as Hc2.
    intros Hw. rewrite Hw in Hc2. simpl in Hc2.
    split; [by apply same_catalog_trans with s1|].
    revert Hw. unfold write_file.
    destruct (_fs s1 !! bucket_name) as [t|];
      [|intros [= _ <-]; set_solver].
    destruct (transient bucket_name); [done|].
    destruct (normpath (basename file_name)) as [below|e2] eqn:E2.
    + destruct (d ++ below) as [|a target];
        [intros [= _ <-]; set_solver|].
      destruct (negb (is_dir t (removelast (a :: target))));
        [intros [= _ <-]; set_solver|].
      destruct (t !! (a :: target)) as [[old|]|];
        [done | intros [= _ <-]; set_solver | done].
    + intros [= _ <-]. apply normalise_raises in E2 as ->. set_solver.
  - intros [= <- <-]. split; [done|].
    revert E1. unfold _get_or_create_dir.
    destruct (transient bucket_name); [done|].
    destruct (normalise [] (dirname file_name)) as [d|e2] eqn:E2.
    + destruct (_fs (make_container self bucket_name) !! bucket_name)
        as [t|]; [|intros [= _ <-]; set_solver].
      destruct (makedirs [] d t) as [t'|e3] eqn:E3; [done|].
      intros [= _ <-].
      assert (Hm : ∀ d here t, makedirs here d t = Raise e3 →
                               e3 = DirectoryExpected).
      { clear. intros d. induction d as [|a d IH]; intros here t; simpl;
          [done|].
        destruct (t !! (here ++ [a])) as [[c|]|]; [by intros [= <-]| |];
          apply IH. }
      rewrite (Hm _ _ _ E3). set_solver.
    + intros [= _ <-]. apply normalise_raises in E2 as ->. set_solver.
Qed.

(** [create_file] without a session: the bucket is looked up, the bytes
    are written, the resource is installed and [.meta] is written. *)
Lemma create_file_unfold (self : Storage) (bucket_name file_name : string)
    (content : bytes) (file_obj : resource) :
  create_file self bucket_name file_name content file_obj None =
    if PyDict.mem bucket_name (buckets self) then
      match bind (fun s => _get_or_create_dir s bucket_name file_name)
              (fun file_dir s =>
                 write_file s bucket_name file_dir (basename file_name)
                   content) self with
      | (s1, Ok _) =>
          (_write_config_to_file
             (set_objects (install_object bucket_name file_name file_obj)
                s1), Ok tt)
      | (s1, Raise e) => (s1, Raise e)
      end
    else (self, Raise NotFound).
Proof.
  unfold create_file, bind, gets, modify, raise, ret. simpl.
  destruct (PyDict.mem bucket_name (buckets self)); [|done]. simpl.
  destruct (_get_or_create_dir self bucket_name file_name) as [s1 [d|e]];
    [|done].
  by destruct (write_file s1 bucket_name d (basename file_name) content)
    as [s2 [[]|e]].
Qed.

(** In an existing bucket [create_file] returns exactly when the file
    system takes the file. *)
Lemma create_file_returns (self : Storage) (bucket_name file_name : string)
    (content : bytes) (file_obj : resource) :
  PyDict.mem bucket_name (buckets self) = true →
  (create_file self bucket_name file_name content file_obj None).2 = Ok tt
  ↔ accepts self bucket_name file_name = true.
Proof.
  intros Hmem. rewrite create_file_unfold, Hmem.
  rewrite <- (file_steps_accepts self bucket_name file_name content).
  destruct (bind _ _ self) as [s1 [[]|e]]; simpl; split; done.
Qed.

(** What [create_file] leaves when it returns: the bytes are read back
    under the key, the resource is the one of the key, [.meta] holds the
    catalog; every other object has the resource it had, and the bytes
    it had unless its key names the same file. *)
Lemma create_file_stores (self s' : Storage) (bucket_name file_name : string)
    (content : bytes) (file_obj : resource) :
  transient bucket_name = false →
  create_file self bucket_name file_name content file_obj None
  = (s', Ok tt) →
  PyDict.mem bucket_name (buckets self) = true
  ∧ buckets s' = buckets self
  ∧ objects s' = install_object bucket_name file_name file_obj (objects self)
  ∧ resumable s' = resumable self
  ∧ multipart s' = multipart self
  ∧ meta s' = Some (snapshot s')
  ∧ get_file s' bucket_name file_name = Ok content
  ∧ get_file_obj s' bucket_name file_name = Ok file_obj
  ∧ (∀ dir, dir ≠ bucket_name → _fs s' !! dir = _fs self !! dir)
  ∧ ∃ p,
      normpath file_name = Ok p
      ∧ ∀ name' p',
          normpath name' = Ok p' → p' ≠ p →
          get_file s' bucket_name name' = get_file self bucket_name name'.
Proof.
  intros Ht. rewrite create_file_unfold.
  destruct (PyDict.mem bucket_name (buckets self)); [|done].
  destruct (bind _ _ self) as [s1 [[]|e]] eqn:Esteps; [|done].
  intros [= <-].
  destruct (file_steps_ok self s1 bucket_name file_name content Ht Esteps)
    as ((Hb & Ho & Hr & Hm & Hmeta) & Hother & p & Hp & _ & Hget & Hrest).
  split_and!; try done.
  - simpl. by rewrite Ho.
  - by apply get_file_obj_install with (objects s1).
  - exists p. split; [done|]. intros name' p' Hp' Hne.
    rewrite <- (Hrest name' p' Hp' Hne). by apply get_file_fs.
Qed.

(** What [create_file] leaves when it raises: [NotFound] for a missing
    bucket, with nothing changed, or what the file system raised, with
    the catalog as it was. *)
Lemma create_file_raises (self s' : Storage) (bucket_name file_name : string)
    (content : bytes) (file_obj : resource) (e : exn) :
  create_file self bucket_name file_name content file_obj None
  = (s', Raise e) →
  (e = NotFound ∧ s' = self)
  ∨ (same_catalog self s'
     ∧ e ∈ [FileExpected; DirectoryExpected; ResourceNotFound;
            IllegalBackReference]).
Proof.
  rewrite create_file_unfold.
  destruct (PyDict.mem bucket_name (buckets self));
    [|intros [= <- <-]; by left].
  destruct (bind _ _ self) as [s1 [[]|e1]] eqn:Esteps; [done|].
  intros [= <- <-]. right. by apply file_steps_raises in Esteps.
Qed.

(** C9.  After [create_file] has returned for a key of an existing
    bucket, [get_file] returns the content that was written and
    [get_file_obj] the resource that was installed, whose size is the
    length of the content when the resource stated it.  The call returns
    exactly when the file system takes a file under the key. *)
Theorem create_file_round_trip (self : Storage)
    (bucket_name file_name : string) (content : bytes)
    (file_obj : resource) :
  PyDict.mem bucket_name (buckets self) = true →
  transient bucket_name = false →
  has_size file_obj (length content) →
  let self' :=
    (create_file self bucket_name file_name content file_obj None).1 in
  let res :=
    (create_file self bucket_name file_name content file_obj None).2 in
  (res = Ok tt ↔ accepts self bucket_name file_name = true)
  ∧ (res = Ok tt →
     get_file self' bucket_name file_name = Ok content
     ∧ ∃ installed,
         get_file_obj self' bucket_name file_name = Ok installed
         ∧ installed = file_obj
         ∧ has_size installed (length content)).
Proof.
  intros Hmem Ht Hsize self' res. split.
  - by apply create_file_returns.
  - subst self' res.
    destruct (create_file self bucket_name file_name content file_obj None)
      as [s' r] eqn:Ecreate. simpl. intros ->.
    destruct (create_file_stores _ _ _ _ _ _ Ht Ecreate)
      as (_ & _ & _ & _ & _ & _ & Hget & Hobj & _).
    split; [done|]. by exists file_obj.
Qed.

(** ** Resumable sessions *)

Lemma add_to_resumable_upload_unfold (self : Storage) (file_id : string)
    (content : bytes) (total_size : Z) :
  add_to_resumable_upload self file_id content total_size =
    let file_content := resumable_buffer self file_id ++ content in
    (put_file self RESUMABLE_DIR [safe_id file_id] file_content,
     Ok (if Z.of_nat (length file_content) >=? total_size
         then Some (bytes_upto total_size file_content) else None)).
Proof.
  unfold add_to_resumable_upload, resumable_buffer.
  unfold bind at 1, except_NotFound, reads, ret.
  assert (Hbuffer :
    match get_file self RESUMABLE_DIR (safe_id file_id) with
    | Raise NotFound => (self, Ok [])
    | r => (self, r)
    end
    = (self, Ok match get_file self RESUMABLE_DIR (safe_id file_id) with
                | Ok b => b
                | Raise _ => []
                end)).
  { destruct (get_file self RESUMABLE_DIR (safe_id file_id)) as [b|e] eqn:E;
      [done|].
    by apply get_file_transient_raises in E as ->. }
  rewrite Hbuffer. cbn beta iota.
  set (file_content := _ ++ content).
  pose proof (write_transient self RESUMABLE_DIR (safe_id file_id)
                file_content transient_resumable) as Hw.
  unfold bind at 1 in Hw. unfold bind at 1.
  destruct (_get_or_create_dir self RESUMABLE_DIR (safe_id file_id))
    as [s1 [d|e]]; [|done].
  unfold bind at 1. rewrite Hw. unfold ret.
  by destruct (_ >=? _).
Qed.

Lemma resumable_buffer_add (self : Storage) (file_id : string)
    (content : bytes) (total_size : Z) :
  get_file (add_to_resumable_upload self file_id content total_size).1
    RESUMABLE_DIR (safe_id file_id)
  = Ok (resumable_buffer self file_id ++ content).
Proof.
  rewrite add_to_resumable_upload_unfold. simpl.
  apply get_file_put_eq. by apply locate_transient.
Qed.

(** C6.  A chunk is appended to the buffer of the session.  While the
    buffer is shorter than the declared total the call returns [None] and
    the buffer holds every byte received; from the moment it is long
    enough the call returns the first [total_size] bytes of the buffer.
    With a total of 10, a first chunk of 4 bytes is incomplete and
    stored, and a following chunk of 6 bytes completes with the 10
    bytes. *)
Theorem add_to_resumable_upload_accumulates (self : Storage)
    (file_id : string) :
  (∀ (content : bytes) (total_size : Z),
     0 ≤ total_size →
     let buffer := resumable_buffer self file_id ++ content in
     let self' :=
       (add_to_resumable_upload self file_id content total_size).1 in
     let res :=
       (add_to_resumable_upload self file_id content total_size).2 in
     resumable_buffer self' file_id = buffer
     ∧ (Z.of_nat (length buffer) < total_size → res = Ok None)
     ∧ (total_size ≤ Z.of_nat (length buffer) →
        res = Ok (Some (take (Z.to_nat total_size) buffer))
        ∧ Z.of_nat (length (take (Z.to_nat total_size) buffer))
          = total_size))
  ∧ (∀ chunk1 chunk2 : bytes,
       get_file self RESUMABLE_DIR (safe_id file_id) = Raise NotFound →
       length chunk1 = 4%nat →
       length chunk2 = 6%nat →
       let first := add_to_resumable_upload self file_id chunk1 10 in
       let second := add_to_resumable_upload first.1 file_id chunk2 10 in
       first.2 = Ok None
       ∧ resumable_buffer first.1 file_id = chunk1
       ∧ second.2 = Ok (Some (chunk1 ++ chunk2))
       ∧ length (chunk1 ++ chunk2) = 10%nat).
Proof.
  split.
  - intros content total_size Hpos buffer self' res.
    assert (Hbuf : resumable_buffer self' file_id = buffer).
    { unfold resumable_buffer at 1. subst self'.
      by rewrite resumable_buffer_add. }
    subst res. rewrite add_to_resumable_upload_unfold. fold buffer. simpl.
    split; [done|]. split.
    + intros Hlt. destruct (_ >=? _) eqn:E; [lia|done].
    + intros Hge. destruct (_ >=? _) eqn:E; [|lia].
      unfold bytes_upto. destruct (0 <=? total_size) eqn:E0; [|lia].
      split; [done|]. rewrite length_take. lia.
  - intros chunk1 chunk2 Hfresh Hlen1 Hlen2 first second.
    assert (Hempty : resumable_buffer self file_id = []).
    { unfold resumable_buffer. by rewrite Hfresh. }
    assert (Hbuf1 : resumable_buffer first.1 file_id = chunk1).
    { unfold resumable_buffer at 1. subst first.
      by rewrite resumable_buffer_add, Hempty. }
    split; [|split; [done|split]].
    + subst first. rewrite add_to_resumable_upload_unfold, Hempty. simpl.
      rewrite Hlen1. done.
    + subst second. rewrite add_to_resumable_upload_unfold, Hbuf1. simpl.
      rewrite length_app, Hlen1, Hlen2. simpl.
      unfold bytes_upto. simpl.
      rewrite take_ge; [done|]. rewrite length_app. lia.
    + rewrite length_app. lia.
Qed.


(** C10.  When the session has no transient buffer yet,
    [add_to_resumable_upload] does not raise: the missing buffer counts
    as empty, and afterwards the buffer is the chunk. *)
Theorem add_to_resumable_upload_fresh (self : Storage) (file_id : string)
    (content : bytes) (total_size : Z) :
  get_file self RESUMABLE_DIR (safe_id file_id) = Raise NotFound →
  let self' :=
    (add_to_resumable_upload self file_id content total_size).1 in
  let res := (add_to_resumable_upload self file_id content total_size).2 in
  (∃ r, res = Ok r)
  ∧ res ≠ Raise NotFound
  ∧ get_file self' RESUMABLE_DIR (safe_id file_id) = Ok content.
Proof.
  intros Hfresh self' res.
  assert (Hempty : resumable_buffer self file_id = []).
  { unfold resumable_buffer. by rewrite Hfresh. }
  subst self' res. rewrite resumable_buffer_add, Hempty.
  rewrite add_to_resumable_upload_unfold. simpl.
  split; [by eexists|]. split; done.
Qed.


End Catalog.

Section Buckets.

Context `{Imports}.

(** ** Deleting a bucket *)

(** The sessions that [delete_bucket] counts for a bucket. *)
Lemma pending_sessions_nil (bucket_name : string) (sessions : dict resource) :
  List.filter
    (fun item : string * resource =>
       py_eq (field item.2 "bucket") (VStr bucket_name))
    (PyDict.items sessions) = []
  ↔ ∀ file_id session,
      (file_id, session) ∈ PyDict.items sessions →
      field session "bucket" ≠ VStr bucket_name.
Proof.
  unfold PyDict.items. induction sessions as [|[k o] d IH]; simpl.
  - split; [|done]. intros _ ? ? Hin. by apply elem_of_nil in Hin.
  - destruct (py_eq (field o "bucket") (VStr bucket_name)) eqn:E.
    + split; [done|]. intros Hall. exfalso.
      apply (Hall k o); [apply list_elem_of_here | by apply py_eq_str].
    + rewrite IH. split.
      * intros Hall file_id session Hin.
        apply elem_of_cons in Hin as [[= -> ->]|Hin]; [|by eapply Hall].
        intros Heq. apply py_eq_str in Heq. congruence.
      * intros Hall file_id session Hin.
        apply (Hall file_id session). by apply list_elem_of_further.
Qed.

Lemma delete_bucket_unfold (self : Storage) (bucket_name : string) :
  delete_bucket self bucket_name =
    match PyDict.get bucket_name (buckets self) with
    | None => (self, Raise NotFound)
    | Some _ =>
        match PyDict.get bucket_name (objects self) with
        | Some (_ :: _) => (self, Raise (Conflict (BucketNotEmpty bucket_name)))
        | _ =>
            match List.filter
                    (fun item : string * resource =>
                       py_eq (field item.2 "bucket") (VStr bucket_name))
                    (PyDict.items (resumable self)) with
            | _ :: _ => (self, Raise (Conflict (PendingUploads bucket_name)))
            | [] =>
                (_write_config_to_file
                   (_delete_dir (set_buckets (PyDict.del bucket_name) self)
                      bucket_name), Ok tt)
            end
        end
    end.
Proof.
  unfold delete_bucket, bind, gets, modify, raise, ret.
  destruct (PyDict.get bucket_name (buckets self)); [|done].
  destruct (PyDict.get bucket_name (objects self)) as [[|? ?]|]; simpl;
    try done;
    by destruct (List.filter _ _).
Qed.

(** C7.  [delete_bucket] raises [NotFound] for a bucket that does not
    exist, [Conflict] for a bucket that holds an object, and [Conflict]
    for a bucket that a resumable session targets, also when the bucket
    holds no object; in each of these cases the storage is as it was.
    Otherwise the bucket is removed from the catalog, its container is
    removed from the byte store and the snapshot is written. *)
Theorem delete_bucket_guards (self : Storage) (bucket_name : string) :
  let self' := (delete_bucket self bucket_name).1 in
  let res := (delete_bucket self bucket_name).2 in
  let exists_ := PyDict.mem bucket_name (buckets self) = true in
  let holds_object :=
    ∃ file_name file_obj,
      get_file_obj self bucket_name file_name = Ok file_obj in
  let targeted :=
    ∃ file_id session,
      (file_id, session) ∈ PyDict.items (resumable self)
      ∧ field session "bucket" = VStr bucket_name in
  (¬ exists_ → res = Raise NotFound)
  ∧ (exists_ → holds_object →
     res = Raise (Conflict (BucketNotEmpty bucket_name)))
  ∧ (exists_ → targeted → ∃ why, res = Raise (Conflict why))
  ∧ (exists_ → ¬ holds_object → targeted →
     res = Raise (Conflict (PendingUploads bucket_name)))
  ∧ (exists_ → ¬ holds_object → ¬ targeted →
     res = Ok tt
     ∧ buckets self' = PyDict.del bucket_name (buckets self)
     ∧ PyDict.mem bucket_name (buckets self') = false
     ∧ _fs self' = delete bucket_name (_fs self)
     ∧ _fs self' !! bucket_name = None
     ∧ meta self' = Some (snapshot self')
     ∧ objects self' = objects self
     ∧ resumable self' = resumable self
     ∧ multipart self' = multipart self)
  ∧ (∀ e, res = Raise e → self' = self).
Proof.
  intros self' res exists_ holds_object targeted.
  subst self' res. rewrite delete_bucket_unfold.
  assert (Hexists : exists_ ↔ ∃ b, PyDict.get bucket_name (buckets self) = Some b)
    by apply mem_get.
  assert (Hobj : holds_object ↔
                 ∃ o d, PyDict.get bucket_name (objects self) = Some (o :: d)).
  { subst holds_object. unfold get_file_obj.
    destruct (PyDict.get bucket_name (objects self)) as [[|[k o] d]|].
    - split; [by intros (? & ? & ?)|by intros (? & ? & ?)].
    - split; [by eauto|]. intros _. exists k, o. simpl.
      by rewrite String.eqb_refl.
    - split; [by intros (? & ? & ?)|by intros (? & ? & ?)]. }
  assert (Htarget : targeted ↔
                    List.filter
                      (fun item : string * resource =>
                         py_eq (field item.2 "bucket") (VStr bucket_name))
                      (PyDict.items (resumable self)) ≠ []).
  { subst targeted. split.
    - intros (file_id & session & Hin & Heq) Hnil.
      by apply (proj1 (pending_sessions_nil _ _) Hnil _ _ Hin).
    - intros Hnot.
      destruct (List.filter _ _) as [|[k o] l] eqn:E; [done|].
      assert (Hin : In (k, o) (List.filter
                  (fun item : string * resource =>
                     py_eq (field item.2 "bucket") (VStr bucket_name))
                  (PyDict.items (resumable self)))).
      { rewrite E. by left. }
      apply filter_In in Hin as [Hin Heq].
      exists k, o. split; [by apply list_elem_of_In|].
      by apply py_eq_str. }
  clearbody exists_ holds_object targeted.
  destruct (PyDict.get bucket_name (buckets self)) as [b|] eqn:Eb.
  - assert (Hex : exists_) by (apply Hexists; eauto).
    destruct (PyDict.get bucket_name (objects self)) as [[|o d]|] eqn:Eo.
    + assert (Hno : ¬ holds_object).
      { rewrite Hobj. by intros (? & ? & ?). }
      destruct (List.filter _ _) as [|s l] eqn:Ef; simpl.
      * assert (Hnt : ¬ targeted) by (rewrite Htarget; tauto).
        repeat split; try done; try tauto.
        -- unfold PyDict.mem. by rewrite get_del_eq.
        -- apply lookup_delete_eq.
      * assert (Ht : targeted) by (by rewrite Htarget).
        repeat split; try done; try tauto. by eauto.
    + assert (Hyes : holds_object) by (rewrite Hobj; eauto).
      simpl. repeat split; try done; try tauto. by eauto.
    + assert (Hno : ¬ holds_object).
      { rewrite Hobj. by intros (? & ? & ?). }
      destruct (List.filter _ _) as [|s l] eqn:Ef; simpl.
      * assert (Hnt : ¬ targeted) by (rewrite Htarget; tauto).
        repeat split; try done; try tauto.
        -- unfold PyDict.mem. by rewrite get_del_eq.
        -- apply lookup_delete_eq.
      * assert (Ht : targeted) by (by rewrite Htarget).
        repeat split; try done; try tauto. by eauto.
  - assert (Hnex : ¬ exists_).
    { rewrite Hexists. by intros (? & ?). }
    simpl. repeat split; try done; try tauto.
Qed.

End Buckets.

Section PartNames.

(** ** Part numbers and part files *)

Lemma uint_of_zeros (k : nat) (s : string) :
  NilEmpty.uint_of_string (zeros k +:+ s)
  = option_map (Nat.iter k D0) (NilEmpty.uint_of_string s).
Proof.
  induction k as [|k IH].
  - change (zeros 0 +:+ s) with s.
    by destruct (NilEmpty.uint_of_string s).
  - change (zeros (S k) +:+ s) with (String "0" (zeros k +:+ s)).
    simpl. rewrite IH. by destruct (NilEmpty.uint_of_string s).
Qed.

Lemma of_uint_zeros (k : nat) (d : uint) :
  Z.of_uint (Nat.iter k D0 d) = Z.of_uint d.
Proof. induction k as [|k IH]; [done|]. exact IH. Qed.

Lemma py_str_decode (n : Z) :
  0 ≤ n →
  option_map Z.of_uint (NilEmpty.uint_of_string (py_str n)) = Some n.
Proof.
  intros Hn. unfold py_str. destruct n as [|p|p]; [done| |lia].
  simpl. pose proof (DecimalPos.Unsigned.to_uint_nonnil p) as Hnil.
  assert (NilZero.string_of_uint (Pos.to_uint p)
          = NilEmpty.string_of_uint (Pos.to_uint p)) as ->.
  { revert Hnil. generalize (Pos.to_uint p). intros [] ?; [congruence|done..]. }
  rewrite NilEmpty.usu. simpl. f_equal.
  unfold Z.of_uint. by rewrite DecimalPos.Unsigned.of_to.
Qed.

Lemma fmt05_decode (n : Z) :
  0 ≤ n →
  option_map Z.of_uint (NilEmpty.uint_of_string (fmt05 n)) = Some n.
Proof.
  intros Hn. unfold fmt05, zero_pad.
  destruct (n <? 0) eqn:E; [lia|].
  rewrite uint_of_zeros.
  pose proof (py_str_decode n Hn) as Hd.
  destruct (NilEmpty.uint_of_string (py_str n)) as [d|]; [|done].
  simpl in *. by rewrite of_uint_zeros.
Qed.

Lemma fmt05_inj (a b : Z) : 0 ≤ a → 0 ≤ b → fmt05 a = fmt05 b → a = b.
Proof.
  intros Ha Hb Heq.
  pose proof (fmt05_decode a Ha) as Hda.
  rewrite Heq, (fmt05_decode b Hb) in Hda. congruence.
Qed.

End PartNames.

Section Multipart.

Context `{Imports}.

(** ** Multipart sessions *)

Lemma part_file_id_inj (safe : string) (a b : Z) :
  0 ≤ a → 0 ≤ b → part_file_id safe a = part_file_id safe b → a = b.
Proof.
  unfold part_file_id. intros Ha Hb Heq.
  apply (inj (String.append safe)), (inj (String.append ".")) in Heq.
  by apply fmt05_inj.
Qed.

Lemma spec_parts_ext (n : nat) (safe : string) (self self' : Storage) :
  ∀ k,
    (∀ j, k ≤ j →
          get_file self' MULTIPART_DIR (part_file_id safe j)
          = get_file self MULTIPART_DIR (part_file_id safe j)) →
    spec_parts n k safe self' = spec_parts n k safe self.
Proof.
  induction n as [|n IH]; intros k Hsame; [done|]. simpl.
  rewrite Hsame by lia.
  destruct (get_file self MULTIPART_DIR (part_file_id safe k)); [|done].
  f_equal. apply IH. intros j Hj. apply Hsame. lia.
Qed.

Lemma spec_parts_dir (n : nat) (safe : string) (self self' : Storage)
    (k : Z) :
  _fs self' !! MULTIPART_DIR = _fs self !! MULTIPART_DIR →
  spec_parts n k safe self' = spec_parts n k safe self.
Proof. intros Hsame. apply spec_parts_ext. intros j _. by apply get_file_dir. Qed.

Lemma get_part_drop_ne (self : Storage) (safe : string) (j k : Z) :
  0 ≤ j → 0 ≤ k → j ≠ k →
  get_file (drop_file self MULTIPART_DIR [part_file_id safe k])
    MULTIPART_DIR (part_file_id safe j)
  = get_file self MULTIPART_DIR (part_file_id safe j).
Proof.
  intros Hj Hk Hne. apply get_file_drop_ne. right.
  rewrite locate_transient by apply transient_multipart.
  intros [= Heq]. by apply part_file_id_inj in Heq.
Qed.

(** The loop refines the specification: it returns the parts that
    [spec_parts] lists for the store it started from, in that order;
    it deletes what it has read and touches nothing else. *)
Lemma read_parts_refines (safe : string) (n : nat) :
  ∀ (k : Z) (content : bytes) (self : Storage),
    0 ≤ k →
    ∃ self',
      read_parts n k safe content self
      = (self', Ok (content ++ concat (spec_parts n k safe self)))
      ∧ same_catalog self self'
      ∧ shrinks_in MULTIPART_DIR self self'
      ∧ (∀ dir, dir ≠ MULTIPART_DIR → _fs self' !! dir = _fs self !! dir)
      ∧ (∀ j, k ≤ j < k + Z.of_nat (length (spec_parts n k safe self)) →
              get_file self' MULTIPART_DIR (part_file_id safe j)
              = Raise NotFound)
      ∧ (∀ j, k + Z.of_nat (length (spec_parts n k safe self)) ≤ j →
              get_file self' MULTIPART_DIR (part_file_id safe j)
              = get_file self MULTIPART_DIR (part_file_id safe j)).
Proof.
  induction n as [|n IH]; intros k content self Hk.
  - exists self. simpl. rewrite app_nil_r.
    split; [done|]. split; [apply same_catalog_refl|]. split.
    + repeat split; auto.
    + split; [done|]. split; [|done]. intros j Hj. lia.
  - simpl.
    destruct (get_file self MULTIPART_DIR (part_file_id safe k))
      as [part_content|e] eqn:E.
    + rewrite (delete_transient self MULTIPART_DIR (part_file_id safe k)
                 transient_multipart).
      set (self1 := drop_file self MULTIPART_DIR [part_file_id safe k]).
      destruct (IH (k + 1) (content ++ part_content) self1 ltac:(lia))
        as (self' & Hrun & Hcat & (Hdirs & Hother & Hshrink) & Hrest
            & Hgone & Hkept).
      assert (Hspec : spec_parts n (k + 1) safe self1
                      = spec_parts n (k + 1) safe self).
      { apply spec_parts_ext. intros j Hj. subst self1.
        apply get_part_drop_ne; lia. }
      rewrite Hspec in Hrun, Hgone, Hkept.
      exists self'. rewrite Hrun. simpl. rewrite <- app_assoc.
      split; [done|]. split; [|split; [|split; [|split]]].
      * apply same_catalog_trans with self1; [|done].
        apply same_catalog_drop.
      * split; [|split].
        -- intros b. rewrite Hdirs. apply drop_file_is_Some.
        -- intros b f Hb. rewrite Hother by done. subst self1.
           apply get_file_drop_ne. by left.
        -- intros b f. destruct (Hshrink b f) as [-> | ->]; [|by right].
           subst self1.
           destruct (decide (MULTIPART_DIR = b)) as [<- | Hb];
             [|left; apply get_file_drop_ne; by left].
           destruct (decide (part_file_id safe k = f)) as [<- | Hf].
           ++ right. apply get_file_drop_eq.
              by apply locate_transient, transient_multipart.
           ++ left. apply get_file_drop_ne. right.
              rewrite locate_transient by apply transient_multipart.
              congruence.
      * intros dir Hdir. rewrite Hrest by done. subst self1.
        by apply drop_file_other.
      * intros j Hj. simpl in Hj.
        destruct (decide (j = k)) as [->|Hjk]; [|apply Hgone; lia].
        destruct (Hshrink MULTIPART_DIR (part_file_id safe k)) as [-> | ->];
          [|done].
        subst self1. apply get_file_drop_eq.
        by apply locate_transient, transient_multipart.
      * intros j Hj. simpl in Hj. rewrite Hkept by lia. subst self1.
        apply get_part_drop_ne; lia.
    + apply (get_file_transient_raises _ _ _ _ transient_multipart) in E
        as Hnf.
      subst e. exists self. rewrite app_nil_r.
      split; [done|]. split; [apply same_catalog_refl|]. split.
      * repeat split; auto.
      * split; [done|]. split; [|done]. intros j Hj. simpl in Hj. lia.
Qed.

Lemma add_to_multipart_upload_unfold (self : Storage) (upload_id : string)
    (part_number : Z) (content : bytes) :
  add_to_multipart_upload self upload_id part_number content =
    match PyDict.get upload_id (multipart self) with
    | None => (self, Raise NotFound)
    | Some _ =>
        (put_file self MULTIPART_DIR
           [part_file_id (safe_id upload_id) part_number] content, Ok tt)
    end.
Proof.
  unfold add_to_multipart_upload. unfold bind at 1, gets.
  destruct (PyDict.get upload_id (multipart self)); [|done].
  by apply write_transient, transient_multipart.
Qed.

Lemma add_to_multipart_upload_multipart (self : Storage)
    (upload_id : string) (part_number : Z) (content : bytes) :
  multipart (add_to_multipart_upload self upload_id part_number content).1
  = multipart self.
Proof.
  rewrite add_to_multipart_upload_unfold.
  by destruct (PyDict.get upload_id (multipart self)).
Qed.

Lemma add_to_multipart_upload_other (self : Storage)
    (upload_id : string) (part_number : Z) (content : bytes)
    (dir : string) :
  dir ≠ MULTIPART_DIR →
  _fs (add_to_multipart_upload self upload_id part_number content).1 !! dir
  = _fs self !! dir.
Proof.
  intros Hdir. rewrite add_to_multipart_upload_unfold.
  destruct (PyDict.get upload_id (multipart self)); [|done].
  simpl. by rewrite lookup_insert_ne.
Qed.

Lemma get_part_add_eq (self : Storage) (upload_id : string)
    (part_number : Z) (content : bytes) :
  PyDict.mem upload_id (multipart self) = true →
  get_file (add_to_multipart_upload self upload_id part_number content).1
    MULTIPART_DIR (part_file_id (safe_id upload_id) part_number)
  = Ok content.
Proof.
  intros [u Hu]%mem_get. rewrite add_to_multipart_upload_unfold, Hu.
  apply get_file_put_eq. by apply locate_transient, transient_multipart.
Qed.

Lemma get_part_add_ne (self : Storage) (upload_id : string)
    (part_number other : Z) (content : bytes) :
  0 ≤ part_number → 0 ≤ other → part_number ≠ other →
  get_file (add_to_multipart_upload self upload_id part_number content).1
    MULTIPART_DIR (part_file_id (safe_id upload_id) other)
  = get_file self MULTIPART_DIR (part_file_id (safe_id upload_id) other).
Proof.
  intros Hp Ho Hne. rewrite add_to_multipart_upload_unfold.
  destruct (PyDict.get upload_id (multipart self)); [|done]. simpl.
  apply get_file_put_path
    with (p' := [part_file_id (safe_id upload_id) other]).
  - by apply locate_transient, transient_multipart.
  - intros [= Heq]. apply part_file_id_inj in Heq; lia.
Qed.

Lemma field_union_2 (r : resource) (k1 k2 k : string) (v1 v2 : value) :
  k ≠ k1 → k ≠ k2 →
  field (PyDict.union r [(k1, v1); (k2, v2)]) k = field r k.
Proof.
  intros H1 H2. unfold PyDict.union. simpl.
  by rewrite !field_set_ne.
Qed.

(** Completion, step by step: the session is looked up, the directories
    of the key are made, the parts of [spec_parts] are read and deleted,
    their concatenation is written under the key, and the resource with
    its size and digests is installed. *)
Lemma complete_multipart_upload_unfold (self : Storage)
    (now upload_id : string) :
  complete_multipart_upload self now upload_id =
    match PyDict.get upload_id (multipart self) with
    | None => (self, Raise NotFound)
    | Some upload =>
        match as_str (field upload "bucket_name") with
        | Raise e => (self, Raise e)
        | Ok bucket_name =>
            match as_str (field upload "id") with
            | Raise e => (self, Raise e)
            | Ok file_name =>
                match _get_or_create_dir self bucket_name file_name with
                | (s0, Raise e) => (s0, Raise e)
                | (s0, Ok file_dir) =>
                    let safe := safe_id upload_id in
                    let s1 := (read_parts (Z.to_nat 10000) 1 safe [] s0).1 in
                    let content :=
                      concat (spec_parts (Z.to_nat 10000) 1 safe s0) in
                    match write_file s1 bucket_name file_dir
                            (basename file_name) content with
                    | (s2, Raise e) => (s2, Raise e)
                    | (s2, Ok _) =>
                        match checked content
                                (PyDict.union upload
                                   [ ("size",
                                      VInt (Z.of_nat (length content)));
                                     ("updated", VStr now) ]) with
                        | Raise e => (s2, Raise e)
                        | Ok file_obj =>
                            (_write_config_to_file
                               (set_objects
                                  (install_object bucket_name file_name
                                     file_obj) s2), Ok tt)
                        end
                    end
                end
            end
        end
    end.
Proof.
  unfold complete_multipart_upload.
  generalize (Z.to_nat 10000). intros fuel.
  unfold bind at 1, gets.
  destruct (PyDict.get upload_id (multipart self)) as [upload|]; [|done].
  unfold bind at 1, lift.
  destruct (as_str (field upload "bucket_name")) as [bucket_name|]; [|done].
  unfold bind at 1.
  destruct (as_str (field upload "id")) as [file_name|]; [|done].
  unfold bind at 1.
  destruct (_get_or_create_dir self bucket_name file_name)
    as [s0 [file_dir|e]]; [|done].
  unfold bind at 1.
  destruct (read_parts_refines (safe_id upload_id) fuel 1 [] s0 ltac:(lia))
    as (s1 & Hrun & _).
  rewrite Hrun. cbn [fst]. rewrite app_nil_l.
  generalize (concat (spec_parts fuel 1 (safe_id upload_id) s0)).
  intros content. cbv zeta.
  unfold bind at 1.
  destruct (write_file s1 bucket_name file_dir (basename file_name) content)
    as [s2 [[]|e]]; [|done].
  unfold bind at 1.
  destruct (checked content _) as [file_obj|e]; [|done].
  unfold bind, modify. done.
Qed.

(** The directories of the key are made before the parts are read, the
    file is written after; in between the loop touches the transient
    directory only. *)
Lemma complete_multipart_upload_file_steps (self : Storage)
    (now upload_id : string) (upload : resource)
    (bucket_name file_name : string) :
  PyDict.get upload_id (multipart self) = Some upload →
  field upload "bucket_name" = VStr bucket_name →
  field upload "id" = VStr file_name →
  bucket_name ≠ MULTIPART_DIR →
  let content :=
    concat (spec_parts (Z.to_nat 10000) 1 (safe_id upload_id) self) in
  let steps :=
    bind (fun s => _get_or_create_dir s bucket_name file_name)
      (fun file_dir s =>
         write_file s bucket_name file_dir (basename file_name) content)
      self in
  let r := complete_multipart_upload self now upload_id in
  same_catalog self steps.1
  ∧ (∀ e, steps.2 = Raise e → r.2 = Raise e ∧ same_catalog self r.1)
  ∧ (steps.2 = Ok tt →
     _fs r.1 !! bucket_name = _fs steps.1 !! bucket_name
     ∧ match checked content
               (PyDict.union upload
                  [ ("size", VInt (Z.of_nat (length content)));
                    ("updated", VStr now) ]) with
       | Raise e => r.2 = Raise e ∧ same_catalog self r.1
       | Ok file_obj =>
           r.2 = Ok tt
           ∧ buckets r.1 = buckets self
           ∧ objects r.1
             = install_object bucket_name file_name file_obj (objects self)
           ∧ resumable r.1 = resumable self
           ∧ multipart r.1 = multipart self
           ∧ meta r.1 = Some (snapshot r.1)
       end).
Proof.
  intros Hu Hb Hf Hne content steps r.
  assert (Hsteps : same_catalog self steps.1).
  { subst steps. unfold bind.
    pose proof (_get_or_create_dir_catalog self bucket_name file_name) as H1.
    destruct (_get_or_create_dir self bucket_name file_name) as [s0 [d|e]];
      [|done].
    apply same_catalog_trans with s0; [done|]. apply write_file_catalog. }
  split; [done|]. revert Hsteps.
  subst r steps. rewrite complete_multipart_upload_unfold, Hu, Hb, Hf.
  cbn [as_str]. unfold bind.
  pose proof (_get_or_create_dir_catalog self bucket_name file_name) as Hc0.
  pose proof (_get_or_create_dir_other self bucket_name file_name
                MULTIPART_DIR) as Hmp.
  destruct (_get_or_create_dir self bucket_name file_name) as [s0 [d|e0]];
    cbn [fst snd] in *.
  2: { intros _. split; [by intros e [= <-]|done]. }
  destruct (read_parts_refines (safe_id upload_id) (Z.to_nat 10000) 1 [] s0
              ltac:(lia))
    as (s1 & Hrun & Hcat & _ & Hrest & _).
  rewrite Hrun. cbv zeta. cbn [fst].
  rewrite (spec_parts_dir _ _ self s0) by (apply Hmp; congruence).
  fold content.
  destruct (write_file_container s1 s0 bucket_name d (basename file_name)
              content (Hrest bucket_name Hne)) as [Hres Hfs].
  pose proof (write_file_catalog s1 bucket_name d (basename file_name)
                content) as Hc2.
  destruct (write_file s1 bucket_name d (basename file_name) content)
    as [s2 r2]. cbn [fst snd] in *.
  assert (Hall : same_catalog self s2).
  { apply same_catalog_trans with s0; [done|].
    by apply same_catalog_trans with s1. }
  intros _. rewrite <- Hres. split.
  - intros e ->. done.
  - intros ->. cbn [fst snd].
    destruct (checked content _) as [file_obj|e]; cbn [fst snd];
      [|by split].
    destruct Hall as (Hbk & Hob & Hrs & Hmu & Hme).
    split; [done|]. split_and!; try done. simpl. by rewrite Hob.
Qed.

(** Completion of a session whose resource names its bucket and key and
    carries no digest returns exactly when the file system takes a file
    under the key. *)
Lemma complete_multipart_upload_returns (self : Storage)
    (now upload_id : string) (upload : resource)
    (bucket_name file_name : string) :
  PyDict.get upload_id (multipart self) = Some upload →
  field upload "bucket_name" = VStr bucket_name →
  field upload "id" = VStr file_name →
  truthy (field upload "crc32c") = false →
  truthy (field upload "md5Hash") = false →
  bucket_name ≠ MULTIPART_DIR →
  (complete_multipart_upload self now upload_id).2 = Ok tt
  ↔ accepts self bucket_name file_name = true.
Proof.
  intros Hu Hb Hf Hc Hm Hne.
  destruct (complete_multipart_upload_file_steps self now upload_id upload
              bucket_name file_name Hu Hb Hf Hne) as (_ & Hraise & Hok).
  cbv zeta in Hraise, Hok.
  set (content := concat (spec_parts (Z.to_nat 10000) 1 (safe_id upload_id)
                            self)) in *.
  rewrite <- (file_steps_accepts self bucket_name file_name content).
  destruct (bind _ _ self) as [sw [[]|e]] eqn:Esteps; cbn [fst snd] in *.
  - destruct (Hok eq_refl) as [_ Hchecked].
    destruct (checked_fresh content
                (PyDict.union upload
                   [("size", VInt (Z.of_nat (length content)));
                    ("updated", VStr now)]))
      as (file_obj & Hchecked' & _).
    { by rewrite field_union_2. }
    { by rewrite field_union_2. }
    rewrite Hchecked' in Hchecked. by destruct Hchecked as [-> _].
  - destruct (Hraise e eq_refl) as [-> _]. done.
Qed.

(** What completion leaves when it returns. *)
Lemma complete_multipart_upload_run (self s' : Storage) (now : string)
    (upload_id : string) (upload : resource)
    (bucket_name file_name : string) :
  PyDict.get upload_id (multipart self) = Some upload →
  field upload "bucket_name" = VStr bucket_name →
  field upload "id" = VStr file_name →
  truthy (field upload "crc32c") = false →
  truthy (field upload "md5Hash") = false →
  transient bucket_name = false →
  complete_multipart_upload self now upload_id = (s', Ok tt) →
  let content :=
    concat (spec_parts (Z.to_nat 10000) 1 (safe_id upload_id) self) in
  ∃ file_obj,
    checked content
      (PyDict.union upload
         [ ("size", VInt (Z.of_nat (length content)));
           ("updated", VStr now) ]) = Ok file_obj
    ∧ field file_obj "size" = VInt (Z.of_nat (length content))
    ∧ buckets s' = buckets self
    ∧ objects s'
      = install_object bucket_name file_name file_obj (objects self)
    ∧ resumable s' = resumable self
    ∧ multipart s' = multipart self
    ∧ meta s' = Some (snapshot s')
    ∧ get_file s' bucket_name file_name = Ok content
    ∧ get_file_obj s' bucket_name file_name = Ok file_obj
    ∧ ∃ p,
        normpath file_name = Ok p
        ∧ ∀ name' p',
            normpath name' = Ok p' → p' ≠ p →
            get_file s' bucket_name name' = get_file self bucket_name name'.
Proof.
  intros Hu Hb Hf Hc Hm Ht Hrun content.
  assert (Hne : bucket_name ≠ MULTIPART_DIR).
  { intros ->. by rewrite transient_multipart in Ht. }
  destruct (complete_multipart_upload_file_steps self now upload_id upload
              bucket_name file_name Hu Hb Hf Hne) as (_ & Hraise & Hok).
  cbv zeta in Hraise, Hok. fold content in Hraise, Hok.
  rewrite Hrun in Hraise, Hok. cbn [fst snd] in Hraise, Hok.
  destruct (bind _ _ self) as [sw [[]|e]] eqn:Esteps; cbn [fst snd] in *.
  2: { by destruct (Hraise e eq_refl) as [? _]. }
  destruct (Hok eq_refl) as [Hfs Hchecked].
  destruct (checked_fresh content
              (PyDict.union upload
                 [("size", VInt (Z.of_nat (length content)));
                  ("updated", VStr now)]))
    as (file_obj & Hchecked' & Hsize).
  { by rewrite field_union_2. }
  { by rewrite field_union_2. }
  rewrite Hchecked' in Hchecked.
  destruct Hchecked as (_ & Hbk & Hob & Hrs & Hmu & Hme).
  destruct (file_steps_ok self sw bucket_name file_name content Ht Esteps)
    as (_ & _ & p & Hp & _ & Hget & Hothers).
  exists file_obj. split_and!; try done.
  - rewrite Hsize. unfold PyDict.union. cbn [fold_left fst snd].
    by rewrite field_set_ne, field_set_eq.
  - rewrite <- Hget. by apply get_file_dir.
  - by apply get_file_obj_install with (objects self).
  - exists p. split; [done|]. intros name' p' Hp' Hpne.
    rewrite <- (Hothers name' p' Hp' Hpne). by apply get_file_dir.
Qed.

Lemma complete_multipart_upload_spec (self : Storage) (now : string)
    (upload_id : string) (upload : resource)
    (bucket_name file_name : string) :
  PyDict.get upload_id (multipart self) = Some upload →
  field upload "bucket_name" = VStr bucket_name →
  field upload "id" = VStr file_name →
  truthy (field upload "crc32c") = false →
  truthy (field upload "md5Hash") = false →
  transient bucket_name = false →
  accepts self bucket_name file_name = true →
  let content :=
    concat (spec_parts (Z.to_nat 10000) 1 (safe_id upload_id) self) in
  let self' := (complete_multipart_upload self now upload_id).1 in
  (complete_multipart_upload self now upload_id).2 = Ok tt
  ∧ get_file self' bucket_name file_name = Ok content
  ∧ (∃ file_obj,
       get_file_obj self' bucket_name file_name = Ok file_obj
       ∧ has_size file_obj (length content))
  ∧ multipart self' = multipart self.
Proof.
  intros Hu Hb Hf Hc Hm Ht Hacc content self'. subst self'.
  assert (Hne : bucket_name ≠ MULTIPART_DIR).
  { intros ->. by rewrite transient_multipart in Ht. }
  apply (complete_multipart_upload_returns self now upload_id upload
           bucket_name file_name Hu Hb Hf Hc Hm Hne) in Hacc.
  destruct (complete_multipart_upload self now upload_id) as [s' r] eqn:Hrun.
  simpl in Hacc. subst r.
  destruct (complete_multipart_upload_run self s' now upload_id upload
              bucket_name file_name Hu Hb Hf Hc Hm Ht Hrun)
    as (file_obj & _ & Hsize & _ & _ & _ & Hmulti & _ & Hget & Hobj & _).
  cbn [fst snd]. split; [done|]. split; [done|]. split; [|done].
  exists file_obj. split; [done|]. by right.
Qed.

Lemma spec_parts_eq (safe : string) (self : Storage) (parts : list bytes) :
  ∀ (n : nat) (k : Z),
    (length parts ≤ n)%nat →
    (∀ (i : nat) c, parts !! i = Some c →
       get_file self MULTIPART_DIR (part_file_id safe (k + Z.of_nat i))
       = Ok c) →
    ((length parts < n)%nat →
     get_file self MULTIPART_DIR
       (part_file_id safe (k + Z.of_nat (length parts)))
     = Raise NotFound) →
    spec_parts n k safe self = parts.
Proof.
  induction parts as [|c parts IH]; intros n k Hlen Hparts Hgap.
  - destruct n as [|n]; [done|]. simpl in *.
    rewrite Z.add_0_r in Hgap. rewrite Hgap; [done|lia].
  - destruct n as [|n]; simpl in Hlen; [lia|]. simpl.
    pose proof (Hparts 0%nat c eq_refl) as H0.
    rewrite Z.add_0_r in H0. rewrite H0. f_equal.
    apply IH; [lia| |].
    + intros i c' Hi.
      replace (k + 1 + Z.of_nat i) with (k + Z.of_nat (S i)) by lia.
      by apply Hparts.
    + intros Hlt.
      replace (k + 1 + Z.of_nat (length parts))
        with (k + Z.of_nat (length (c :: parts))) by (simpl; lia).
      apply Hgap. simpl. lia.
Qed.

(** The same, with the parts spelled out: when the store holds [parts]
    under the part numbers 1, 2, ... and nothing under the next number,
    the bytes stored are [parts] concatenated. *)
Lemma complete_multipart_upload_parts (self : Storage) (now : string)
    (upload_id : string) (upload : resource)
    (bucket_name file_name : string) (parts : list bytes) :
  PyDict.get upload_id (multipart self) = Some upload →
  field upload "bucket_name" = VStr bucket_name →
  field upload "id" = VStr file_name →
  truthy (field upload "crc32c") = false →
  truthy (field upload "md5Hash") = false →
  transient bucket_name = false →
  accepts self bucket_name file_name = true →
  Z.of_nat (length parts) ≤ 10000 →
  (∀ (i : nat) c, parts !! i = Some c →
     get_file self MULTIPART_DIR
       (part_file_id (safe_id upload_id) (1 + Z.of_nat i)) = Ok c) →
  (Z.of_nat (length parts) < 10000 →
   get_file self MULTIPART_DIR
     (part_file_id (safe_id upload_id) (1 + Z.of_nat (length parts)))
   = Raise NotFound) →
  (complete_multipart_upload self now upload_id).2 = Ok tt
  ∧ get_file (complete_multipart_upload self now upload_id).1
      bucket_name file_name = Ok (concat parts).
Proof.
  intros Hu Hb Hf Hc Hm Ht Hacc Hlen Hparts Hgap.
  destruct (complete_multipart_upload_spec self now upload_id upload
              bucket_name file_name Hu Hb Hf Hc Hm Ht Hacc)
    as (Hok & Hget & _).
  split; [done|]. rewrite Hget. do 2 f_equal.
  apply spec_parts_eq; [lia|done|]. intros Hlt. apply Hgap. lia.
Qed.

(** C2 (amended).  Completion of a session returns exactly when the file
    system takes a file under the key of the session.  It then stores
    under the key the parts numbered 1, 2, ... up to 10000 in ascending
    order, as far as they are there: the first missing number ends the
    assembly.  Parts "ab", "cd", "ef" uploaded as 3, 1, 2 give "abcdef";
    parts 1 and 3 without part 2 give the bytes of part 1. *)
Theorem complete_multipart_upload_assembles (self : Storage)
    (now upload_id : string) (upload : resource)
    (bucket_name file_name : string) :
  PyDict.get upload_id (multipart self) = Some upload →
  field upload "bucket_name" = VStr bucket_name →
  field upload "id" = VStr file_name →
  truthy (field upload "crc32c") = false →
  truthy (field upload "md5Hash") = false →
  transient bucket_name = false →
  let safe := safe_id upload_id in
  let add := fun s n c => (add_to_multipart_upload s upload_id n c).1 in
  let complete := fun s => complete_multipart_upload s now upload_id in
  ((complete self).2 = Ok tt ↔ accepts self bucket_name file_name = true)
  ∧ (accepts self bucket_name file_name = true →
     ((complete self).2 = Ok tt
      ∧ get_file (complete self).1 bucket_name file_name
        = Ok (concat (spec_parts (Z.to_nat 10000) 1 safe self)))
     ∧ (∀ parts : list bytes,
          Z.of_nat (length parts) ≤ 10000 →
          (∀ (i : nat) c, parts !! i = Some c →
             get_file self MULTIPART_DIR
               (part_file_id safe (1 + Z.of_nat i)) = Ok c) →
          (Z.of_nat (length parts) < 10000 →
           get_file self MULTIPART_DIR
             (part_file_id safe (1 + Z.of_nat (length parts)))
           = Raise NotFound) →
          get_file (complete self).1 bucket_name file_name
          = Ok (concat parts))
     ∧ (get_file self MULTIPART_DIR (part_file_id safe 4) = Raise NotFound →
        let s := add (add (add self 3 (B "ef")) 1 (B "ab")) 2 (B "cd") in
        (complete s).2 = Ok tt
        ∧ get_file (complete s).1 bucket_name file_name = Ok (B "abcdef"))
     ∧ (∀ part1 part3 : bytes,
          get_file self MULTIPART_DIR (part_file_id safe 2)
          = Raise NotFound →
          let s := add (add self 1 part1) 3 part3 in
          (complete s).2 = Ok tt
          ∧ get_file (complete s).1 bucket_name file_name = Ok part1)).
Proof.
  intros Hu Hb Hf Hc Hm Ht safe add complete.
  assert (Hne : bucket_name ≠ MULTIPART_DIR).
  { intros ->. by rewrite transient_multipart in Ht. }
  split.
  { by apply (complete_multipart_upload_returns self now upload_id upload). }
  intros Hacc.
  assert (Hmem : ∀ s, multipart s = multipart self →
                      PyDict.mem upload_id (multipart s) = true).
  { intros s ->. apply mem_get. eauto. }
  assert (Hadd : ∀ s n c,
            accepts s bucket_name file_name = true →
            accepts (add s n c) bucket_name file_name = true).
  { intros s n c <-. apply accepts_dir.
    by apply add_to_multipart_upload_other. }
  split; [|split; [|split]].
  - destruct (complete_multipart_upload_spec self now upload_id upload
                bucket_name file_name Hu Hb Hf Hc Hm Ht Hacc)
      as (Hok & Hget & _).
    done.
  - intros parts Hlen Hparts Hgap.
    by apply (complete_multipart_upload_parts self now upload_id upload).
  - intros Hgap s.
    set (s1 := add self 3 (B "ef")). set (s2 := add s1 1 (B "ab")).
    assert (Hm1 : multipart s1 = multipart self)
      by apply add_to_multipart_upload_multipart.
    assert (Hm2 : multipart s2 = multipart self).
    { subst s2 add. cbv beta.
      by rewrite add_to_multipart_upload_multipart. }
    assert (Hm3 : multipart s = multipart self).
    { subst s add. cbv beta.
      by rewrite add_to_multipart_upload_multipart. }
    apply (complete_multipart_upload_parts s now upload_id upload
             bucket_name file_name [B "ab"; B "cd"; B "ef"]);
      [by rewrite Hm3 | done | done | done | done | done
       | by do 3 apply Hadd | simpl; lia | | ].
    + intros i c Hi. subst s add. cbv beta.
      destruct i as [|[|[|i]]]; simpl in Hi; [| | |done];
        injection Hi as <-; simpl Z.of_nat; simpl Z.add.
      * rewrite get_part_add_ne by lia.
        apply get_part_add_eq, Hmem, Hm1.
      * apply get_part_add_eq, Hmem, Hm2.
      * rewrite !get_part_add_ne by lia.
        by apply get_part_add_eq, Hmem.
    + intros _. subst s s2 s1 add. cbv beta. simpl Z.of_nat. simpl Z.add.
      by rewrite !get_part_add_ne by lia.
  - intros part1 part3 Hgap s.
    set (s1 := add self 1 part1).
    assert (Hm1 : multipart s1 = multipart self)
      by apply add_to_multipart_upload_multipart.
    assert (Hm2 : multipart s = multipart self).
    { subst s add. cbv beta.
      by rewrite add_to_multipart_upload_multipart. }
    assert (Hres :
              (complete s).2 = Ok tt
              ∧ get_file (complete s).1 bucket_name file_name
                = Ok (concat [part1])).
    { apply (complete_multipart_upload_parts s now upload_id upload
               bucket_name file_name [part1]);
        [by rewrite Hm2 | done | done | done | done | done
         | by do 2 apply Hadd | simpl; lia | | ].
      + intros i c Hi. subst s add. cbv beta.
        destruct i as [|i]; simpl in Hi; [|done].
        injection Hi as <-. simpl Z.of_nat. simpl Z.add.
        rewrite get_part_add_ne by lia.
        by apply get_part_add_eq, Hmem.
      + intros _. subst s s1 add. cbv beta. simpl Z.of_nat. simpl Z.add.
        by rewrite !get_part_add_ne by lia. }
    simpl in Hres. by rewrite app_nil_r in Hres.
Qed.

(** Whatever happens, [complete_multipart_upload] leaves the sessions of
    [self.multipart] as they are. *)
Lemma complete_multipart_upload_multipart (self : Storage)
    (now upload_id : string) :
  multipart (complete_multipart_upload self now upload_id).1
  = multipart self.
Proof.
  rewrite complete_multipart_upload_unfold.
  destruct (PyDict.get upload_id (multipart self)) as [upload|]; [|done].
  destruct (as_str (field upload "bucket_name")) as [bucket_name|]; [|done].
  destruct (as_str (field upload "id")) as [file_name|]; [|done].
  pose proof (_get_or_create_dir_catalog self bucket_name file_name) as Hc0.
  destruct (_get_or_create_dir self bucket_name file_name)
    as [s0 [file_dir|e]]; simpl in Hc0;
    [|by destruct Hc0 as (_ & _ & _ & Hmulti & _)].
  cbv zeta.
  destruct (read_parts_refines (safe_id upload_id) (Z.to_nat 10000) 1 [] s0
              ltac:(lia)) as (s1 & Hrun & Hc1 & _).
  rewrite Hrun. cbn [fst].
  generalize (concat (spec_parts (Z.to_nat 10000) 1 (safe_id upload_id) s0)).
  intros content.
  pose proof (write_file_catalog s1 bucket_name file_dir
                (basename file_name) content) as Hc2.
  destruct (write_file s1 bucket_name file_dir (basename file_name) content)
    as [s2 r2]. simpl in Hc2.
  assert (Hs2 : multipart s2 = multipart self).
  { destruct Hc0 as (_ & _ & _ & H0 & _), Hc1 as (_ & _ & _ & H1 & _),
      Hc2 as (_ & _ & _ & H2 & _). congruence. }
  destruct r2 as [[]|e]; [|done].
  by destruct (checked content _).
Qed.

Lemma complete_multipart_upload_known (self : Storage)
    (now upload_id : string) :
  PyDict.mem upload_id (multipart self) = true ↔
  (complete_multipart_upload self now upload_id).2 ≠ Raise NotFound.
Proof.
  rewrite complete_multipart_upload_unfold. unfold PyDict.mem.
  destruct (PyDict.get upload_id (multipart self)) as [upload|];
    [|split; done].
  split; [intros _|done].
  destruct (as_str (field upload "bucket_name")) as [bucket_name|] eqn:Eb.
  2: { unfold as_str in Eb.
       destruct (field upload "bucket_name"); by simplify_eq. }
  destruct (as_str (field upload "id")) as [file_name|] eqn:Ef.
  2: { unfold as_str in Ef.
       destruct (field upload "id"); by simplify_eq. }
  destruct (_get_or_create_dir self bucket_name file_name)
    as [s0 [file_dir|e]] eqn:Ed.
  2: { revert Ed. unfold _get_or_create_dir.
       destruct (transient bucket_name); [done|].
       destruct (normalise [] (dirname file_name)) as [d|e1] eqn:E1.
       - destruct (_fs (make_container self bucket_name) !! bucket_name)
           as [t|]; [|by intros [= _ <-]].
         destruct (makedirs [] d t) as [t'|e2] eqn:E2; [done|].
         intros [= _ <-]. simpl. intros [= ->].
         clear -E2. revert E2. generalize (@nil string).
         revert t. induction d as [|a d IH]; intros t here; simpl; [done|].
         destruct (t !! (here ++ [a])) as [[c|]|]; [done| |]; apply IH.
       - intros [= _ <-]. apply normalise_raises in E1 as ->. done. }
  cbv zeta.
  generalize (read_parts (Z.to_nat 10000) 1 (safe_id upload_id) [] s0).1.
  generalize (concat (spec_parts (Z.to_nat 10000) 1 (safe_id upload_id) s0)).
  intros content s1.
  destruct (write_file s1 bucket_name file_dir (basename file_name) content)
    as [s2 [[]|e]] eqn:Ew.
  - destruct (checked content _) as [file_obj|e] eqn:Ec; [done|].
    apply checked_raises in Ec as [why ->]. done.
  - simpl. intros [= ->]. revert Ew. unfold write_file.
    destruct (_fs s1 !! bucket_name) as [t|]; [|done].
    destruct (transient bucket_name); [done|].
    destruct (normpath (basename file_name)) as [below|e1] eqn:E1.
    + destruct (file_dir ++ below) as [|a target]; [done|].
      destruct (negb (is_dir t (removelast (a :: target)))); [done|].
      by destruct (t !! (a :: target)) as [[old|]|].
    + intros [= _ ->]. by apply normalise_raises in E1.
Qed.

(** C3, on the code.  [complete_multipart_upload] never removes the
    record of the session: after a completion that returned, the session
    is still in [self.multipart], a further part is accepted and a second
    completion does not raise [NotFound]. *)
Theorem complete_multipart_upload_keeps_session (self : Storage)
    (now upload_id : string) :
  (complete_multipart_upload self now upload_id).2 = Ok tt →
  let self' := (complete_multipart_upload self now upload_id).1 in
  multipart self' = multipart self
  ∧ PyDict.mem upload_id (multipart self') = true
  ∧ (∀ part_number content,
       (add_to_multipart_upload self' upload_id part_number content).2
       = Ok tt)
  ∧ (∀ now',
       (complete_multipart_upload self' now' upload_id).2 ≠ Raise NotFound).
Proof.
  intros Hok self'.
  assert (Hsame : multipart self' = multipart self)
    by apply complete_multipart_upload_multipart.
  assert (Hmem : PyDict.mem upload_id (multipart self') = true).
  { rewrite Hsame. apply (complete_multipart_upload_known self now).
    by rewrite Hok. }
  split; [done|]. split; [done|]. split.
  - intros part_number content.
    rewrite add_to_multipart_upload_unfold.
    apply mem_get in Hmem as [u ->]. done.
  - intros now'. by apply complete_multipart_upload_known.
Qed.

(** The parts that completion has read are gone from the transient
    store, and the parts behind the first gap are as they were, as long
    as the object itself is not written there. *)
Lemma complete_multipart_upload_parts_after (self : Storage)
    (now upload_id : string) (upload : resource)
    (bucket_name file_name : string) :
  PyDict.get upload_id (multipart self) = Some upload →
  field upload "bucket_name" = VStr bucket_name →
  field upload "id" = VStr file_name →
  bucket_name ≠ MULTIPART_DIR →
  let parts := spec_parts (Z.to_nat 10000) 1 (safe_id upload_id) self in
  let s' := (complete_multipart_upload self now upload_id).1 in
  (∀ j, 1 + Z.of_nat (length parts) ≤ j →
        get_file s' MULTIPART_DIR (part_file_id (safe_id upload_id) j)
        = get_file self MULTIPART_DIR (part_file_id (safe_id upload_id) j))
  ∧ (is_ok (_get_or_create_dir self bucket_name file_name).2 = true →
     ∀ j, 1 ≤ j < 1 + Z.of_nat (length parts) →
          get_file s' MULTIPART_DIR (part_file_id (safe_id upload_id) j)
          = Raise NotFound).
Proof.
  intros Hu Hb Hf Hne parts s'. subst parts s'.
  rewrite complete_multipart_upload_unfold, Hu, Hb, Hf. cbn [as_str].
  pose proof (_get_or_create_dir_other self bucket_name file_name
                MULTIPART_DIR) as Hmp.
  destruct (_get_or_create_dir self bucket_name file_name)
    as [s0 [file_dir|e]]; cbn [fst snd] in *.
  2: { split; [|done]. intros j _. apply get_file_dir, Hmp. congruence. }
  assert (Hs0 : _fs s0 !! MULTIPART_DIR = _fs self !! MULTIPART_DIR)
    by (apply Hmp; congruence).
  cbv zeta.
  destruct (read_parts_refines (safe_id upload_id) (Z.to_nat 10000) 1 [] s0
              ltac:(lia)) as (s1 & Hrun & _ & _ & _ & Hgone & Hkept).
  rewrite Hrun. cbn [fst].
  rewrite (spec_parts_dir _ _ self s0) in Hgone, Hkept |- * by done.
  generalize (concat (spec_parts (Z.to_nat 10000) 1 (safe_id upload_id)
                        self)).
  intros content.
  pose proof (write_file_other s1 bucket_name file_dir (basename file_name)
                content MULTIPART_DIR) as Hw.
  destruct (write_file s1 bucket_name file_dir (basename file_name) content)
    as [s2 r2]. cbn [fst] in Hw.
  assert (Hs2 : ∀ name, get_file s2 MULTIPART_DIR name
                        = get_file s1 MULTIPART_DIR name).
  { intros name. apply get_file_dir, Hw. congruence. }
  assert (Hend : ∀ name,
            get_file
              match r2 with
              | Ok _ =>
                  match checked content
                          (PyDict.union upload
                             [("size", VInt (Z.of_nat (length content)));
                              ("updated", VStr now)]) with
                  | Ok file_obj =>
                      (_write_config_to_file
                         (set_objects
                            (install_object bucket_name file_name file_obj)
                            s2), Ok tt)
                  | Raise e => (s2, Raise e)
                  end
              | Raise e => (s2, Raise e)
              end.1 MULTIPART_DIR name
            = get_file s1 MULTIPART_DIR name).
  { intros name. rewrite <- Hs2.
    destruct r2 as [[]|e]; [|done]. by destruct (checked content _). }
  split.
  - intros j Hj. rewrite Hend, Hkept by done. by apply get_file_dir.
  - intros _ j Hj. rewrite Hend. by apply Hgone.
Qed.

End Multipart.

Section Listing.

(** ** Listing *)

Lemma get_file_list_unknown (self : Storage) (bucket_name : string)
    (prefix delimiter : option string) :
  PyDict.mem bucket_name (buckets self) = false →
  get_file_list self bucket_name prefix delimiter = Raise NotFound.
Proof. unfold get_file_list. by intros ->. Qed.

(** No prefix and the empty prefix are the same request. *)
Lemma get_file_list_empty_prefix (self : Storage) (bucket_name : string)
    (delimiter : option string) :
  get_file_list self bucket_name (Some "") delimiter
  = get_file_list self bucket_name None delimiter.
Proof. reflexivity. Qed.

(** With a prefix, an object whose key has the delimiter after the prefix
    is not among the objects returned. *)
Lemma get_file_list_prefix_excludes (self : Storage)
    (bucket_name prefix delimiter : string)
    (objs : list resource) (prefixes : list string) :
  given (Some prefix) = true →
  given (Some delimiter) = true →
  get_file_list self bucket_name (Some prefix) (Some delimiter)
  = Ok (objs, prefixes) →
  ∀ obj, obj ∈ objs →
    ∃ file_name bucket_objects,
      PyDict.get bucket_name (objects self) = Some bucket_objects
      ∧ (file_name, obj) ∈ PyDict.items bucket_objects
      ∧ String.prefix prefix file_name = true
      ∧ contains delimiter (str_drop (String.length prefix) file_name)
        = false.
Proof.
  intros Hp Hd. unfold get_file_list.
  destruct (PyDict.mem bucket_name (buckets self)); [|done].
  cbn [negb]. rewrite Hp, Hd. cbn [or_empty negb orb].
  intros [= <- _] obj Hin.
  apply list_elem_of_In, in_map_iff in Hin as ([file_name o] & <- & Hin).
  apply filter_In in Hin as [Hin Hkeep]. cbn [fst snd] in *.
  apply andb_prop in Hkeep as [Hpre Hno].
  destruct (PyDict.get bucket_name (objects self)) as [bucket_objects|];
    [|done].
  exists file_name, bucket_objects.
  repeat split; [by apply list_elem_of_In|done|].
  by destruct (contains _ _).
Qed.

(** Without a prefix every object of the bucket is returned, whatever the
    delimiter. *)
Lemma get_file_list_no_prefix (self : Storage) (bucket_name : string)
    (delimiter : option string) (objs : list resource)
    (prefixes : list string) :
  get_file_list self bucket_name None delimiter = Ok (objs, prefixes) →
  objs = PyDict.values
           (match PyDict.get bucket_name (objects self) with
            | Some d => d
            | None => []
            end).
Proof.
  unfold get_file_list.
  destruct (PyDict.mem bucket_name (buckets self)); [|done].
  cbn [negb given]. by intros [= <- _].
Qed.

(** The common prefixes are one entry for each key that matches, in the
    order of the keys. *)
Lemma get_file_list_prefixes_length (self : Storage)
    (bucket_name : string) (prefix : option string) (delimiter : string)
    (objs : list resource) (prefixes : list string) :
  given (Some delimiter) = true →
  get_file_list self bucket_name prefix (Some delimiter)
  = Ok (objs, prefixes) →
  length prefixes
  = length
      (List.filter
         (fun file_name =>
            String.prefix (or_empty prefix) file_name
            && contains delimiter
                 (str_drop (if given prefix
                            then String.length (or_empty prefix)
                            else 0%nat) file_name))
         (PyDict.keys
            (match PyDict.get bucket_name (objects self) with
             | Some d => d
             | None => []
             end))).
Proof.
  intros Hd. unfold get_file_list.
  destruct (PyDict.mem bucket_name (buckets self)); [|done].
  cbn [negb]. rewrite Hd. cbn [or_empty].
  intros [= _ <-]. by rewrite length_map.
Qed.

End Listing.

(** C4, on the code.  Without a prefix, or with the empty prefix, the
    objects whose key contains the delimiter stay in the list of objects:
    on the objects a/1.txt, a/b/2.txt, a/c/3.txt, z.txt and the delimiter
    "/" all four are returned, next to the common prefix "a/" once for each
    of the three. *)
Theorem get_file_list_no_prefix_keeps_delimited :
  get_file_list listing_example "b" None (Some "/")
  = Ok ([ named "a/1.txt"; named "a/b/2.txt"; named "a/c/3.txt";
          named "z.txt" ],
        [ "a/"; "a/"; "a/" ])
  ∧ get_file_list listing_example "b" (Some "") (Some "/")
    = get_file_list listing_example "b" None (Some "/")
  ∧ contains "/" (str_drop 0 "a/1.txt") = true.
Proof. repeat split. Qed.

(** C5, on the code.  The listing example of the specification gives the
    object a/1.txt and the common prefixes a/b/ and a/c/, but two objects
    below a/b/ give the common prefix a/b/ twice. *)
Theorem get_file_list_repeats_common_prefix :
  get_file_list listing_example "b" (Some "a/") (Some "/")
  = Ok ([ named "a/1.txt" ], [ "a/b/"; "a/c/" ])
  ∧ get_file_list shared_prefix_example "b" (Some "a/") (Some "/")
    = Ok ([], [ "a/b/"; "a/b/" ])
  ∧ count_occ string_dec [ "a/b/"; "a/b/" ] "a/b/" = 2%nat.
Proof. repeat split. Qed.

Section Uploads.

Context `{Imports}.

(** ** The upload handlers *)

Lemma persisted_write (self : Storage) : persisted (_write_config_to_file self).
Proof. reflexivity. Qed.

(** A handler that has the resource of the upload checks it, stores the
    object and answers with the resource. *)
Lemma _multipart_upload_steps (storage : Storage) (time_id : Z)
    (now base_url bucket_name object_id : string) (content_type meta : value)
    (content : bytes) (obj0 : resource) :
  _make_object_resource time_id now base_url bucket_name object_id
    content_type (VStr (py_str (Z.of_nat (length content)))) meta = Ok obj0 →
  _multipart_upload storage time_id now base_url bucket_name object_id
    content_type meta content
  = match checked content obj0 with
    | Ok obj =>
        ((create_file storage bucket_name object_id content obj None).1,
         match (create_file storage bucket_name object_id content obj
                  None).2 with
         | Ok _ => Ok obj
         | Raise e => Raise e
         end)
    | Raise e => (storage, Raise e)
    end.
Proof.
  intros Hmake. unfold _multipart_upload, bind, lift, ret. rewrite Hmake.
  destruct (checked content obj0) as [obj|]; [|done].
  by destruct (create_file storage bucket_name object_id content obj None)
    as [s [[]|]].
Qed.

Lemma _media_upload_multipart (storage : Storage) (time_id : Z)
    (now base_url bucket_name object_id : string) (content_type : value)
    (data : bytes) :
  _media_upload storage time_id now base_url bucket_name object_id
    content_type data
  = _multipart_upload storage time_id now base_url bucket_name object_id
      content_type VNone data.
Proof. reflexivity. Qed.

(** [create_file] raises no [Conflict]. *)
Lemma create_file_no_conflict (self : Storage)
    (bucket_name file_name : string) (content : bytes) (file_obj : resource)
    (why : conflict) :
  (create_file self bucket_name file_name content file_obj None).2
  ≠ Raise (Conflict why).
Proof.
  destruct (create_file self bucket_name file_name content file_obj None)
    as [s' [[]|e]] eqn:Ecreate; [done|].
  simpl. intros [= ->].
  apply create_file_raises in Ecreate as [[? _] | [_ Hin]]; [done|].
  rewrite !elem_of_cons, elem_of_nil in Hin. by intuition.
Qed.

(** A [Conflict] of an upload is raised by [checksums], before anything
    is stored. *)
Lemma _multipart_upload_conflict (storage : Storage) (time_id : Z)
    (now base_url bucket_name object_id : string) (content_type meta : value)
    (content : bytes) (obj0 : resource) (why : conflict) :
  _make_object_resource time_id now base_url bucket_name object_id
    content_type (VStr (py_str (Z.of_nat (length content)))) meta = Ok obj0 →
  (_multipart_upload storage time_id now base_url bucket_name object_id
     content_type meta content).2 = Raise (Conflict why) →
  checked content obj0 = Raise (Conflict why)
  ∧ (_multipart_upload storage time_id now base_url bucket_name object_id
       content_type meta content).1 = storage.
Proof.
  intros Hmake.
  rewrite (_multipart_upload_steps _ _ _ _ _ _ _ _ _ obj0 Hmake).
  destruct (checked content obj0) as [obj|e]; simpl; [|by intros ->].
  pose proof (create_file_no_conflict storage bucket_name object_id content
                obj why) as Hno.
  destruct (create_file storage bucket_name object_id content obj None).2
    as [[]|e]; [done|].
  intros [= ->]. done.
Qed.

(** What the handler stores and answers when [checksums] accepts the
    resource and the bucket exists: it returns exactly when the file
    system takes a file under the name. *)
Lemma _multipart_upload_stores (storage : Storage) (time_id : Z)
    (now base_url bucket_name object_id : string) (content_type meta : value)
    (content : bytes) (obj0 obj : resource) :
  _make_object_resource time_id now base_url bucket_name object_id
    content_type (VStr (py_str (Z.of_nat (length content)))) meta = Ok obj0 →
  checked content obj0 = Ok obj →
  PyDict.mem bucket_name (buckets storage) = true →
  transient bucket_name = false →
  let run :=
    _multipart_upload storage time_id now base_url bucket_name object_id
      content_type meta content in
  (run.2 = Ok obj ↔ accepts storage bucket_name object_id = true)
  ∧ (∀ obj', run.2 = Ok obj' →
       obj' = obj
       ∧ get_file_obj run.1 bucket_name object_id = Ok obj
       ∧ get_file run.1 bucket_name object_id = Ok content
       ∧ persisted run.1).
Proof.
  intros Hmake Hchecked Hmem Ht run. subst run.
  rewrite (_multipart_upload_steps _ _ _ _ _ _ _ _ _ obj0 Hmake), Hchecked.
  pose proof (create_file_returns storage bucket_name object_id content obj
                Hmem) as Hret.
  destruct (create_file storage bucket_name object_id content obj None)
    as [s' [[]|e]] eqn:Ecreate; cbn [fst snd] in *.
  - split; [by rewrite <- Hret|]. intros obj' [= <-].
    destruct (create_file_stores _ _ _ _ _ _ Ht Ecreate)
      as (_ & _ & _ & _ & _ & Hmeta & Hget & Hobj & _).
    done.
  - split; [|done]. rewrite <- Hret. split; done.
Qed.

(** The rules of [checksums] for the two digests and the etag. *)
Lemma checksums_rules (content : bytes) (r : resource) :
  let crc := _crc32c content in
  let md := _md5 content in
  let r' := (checksums content r).1 in
  let res := (checksums content r).2 in
  let crc_passes :=
    truthy (field r "crc32c") = false ∨ field r "crc32c" = VStr crc in
  let md_passes :=
    truthy (field r "md5Hash") = false ∨ field r "md5Hash" = VStr md in
  crc = b64encode (google_crc32c content)
  ∧ md = b64encode (hashlib_md5 content)
  ∧ (truthy (field r "crc32c") = false → field r' "crc32c" = VStr crc)
  ∧ (truthy (field r "crc32c") = true → field r "crc32c" ≠ VStr crc →
     res = Raise (Conflict (Crc32cMismatch (field r "crc32c") crc))
     ∧ r' = r)
  ∧ (truthy (field r "md5Hash") = false → crc_passes →
     field r' "md5Hash" = VStr md)
  ∧ (truthy (field r "md5Hash") = true → field r "md5Hash" ≠ VStr md →
     (∃ why, res = Raise (Conflict why))
     ∧ (crc_passes →
        res = Raise (Conflict (Md5Mismatch (field r "md5Hash") md))))
  ∧ (res = Ok tt ↔ crc_passes ∧ md_passes)
  ∧ (res = Ok tt →
     field r' "crc32c" = VStr crc
     ∧ field r' "md5Hash" = VStr md
     ∧ field r' "etag" =
         (if truthy (field r "etag") then field r "etag" else VStr md)).
Proof.
  intros crc md r' res crc_passes md_passes.
  subst r' res. rewrite checksums_unfold. fold crc md. cbv zeta.
  assert (Hcrc : ∀ b : bool,
             py_eq (field r "crc32c") (VStr crc) = b →
             if b then field r "crc32c" = VStr crc
             else field r "crc32c" ≠ VStr crc).
  { intros [] Hb; [by apply py_eq_str|].
    intros Heq. apply py_eq_str in Heq. congruence. }
  assert (Hmd : ∀ b : bool,
             py_eq (field r "md5Hash") (VStr md) = b →
             if b then field r "md5Hash" = VStr md
             else field r "md5Hash" ≠ VStr md).
  { intros [] Hb; [by apply py_eq_str|].
    intros Heq. apply py_eq_str in Heq. congruence. }
  specialize (Hcrc _ eq_refl). specialize (Hmd _ eq_refl).
  subst crc_passes md_passes.
  split; [done|]. split; [done|].
  destruct (truthy (field r "crc32c")) eqn:Tc,
           (py_eq (field r "crc32c") (VStr crc)) eqn:Ec,
           (truthy (field r "md5Hash")) eqn:Tm,
           (py_eq (field r "md5Hash") (VStr md)) eqn:Em;
    simpl;
    rewrite ?field_set_ne, ?field_set_eq, ?Tc, ?Tm by done;
    (repeat split; intros; try done).
  all: try (by destruct (truthy (field r "etag")) eqn:Te;
            rewrite ?field_set_ne, ?field_set_eq by done).
  all: try (by eauto).
  all: intuition congruence.
Qed.

(** C1.  [checksums(content, r)] computes the base64 of the CRC-32C and
    MD5 digests of [content].  A resource that carries no crc32c (the
    field is missing, [None] or empty) gets the computed one; one that
    carries a crc32c other than the computed one makes the call raise the
    crc32c [Conflict], and the resource is as it was.  The md5Hash is
    treated in the same way once the crc32c has passed, and a wrong
    md5Hash always ends in a [Conflict].  When the call returns, both
    fields hold the computed digests and an etag that was not carried is
    the computed MD5 digest.  The upload handlers call [checksums] before
    [create_file]: an upload whose metadata carries another crc32c, or
    another md5Hash beside a good crc32c, raises that [Conflict] and the
    storage is as it was; an upload raises no other [Conflict], and a
    media upload, which carries no digest, raises none; the resource of
    an upload that returns holds the computed digests. *)
Theorem checksums_reconcile (content : bytes) (r : resource) :
  let crc := _crc32c content in
  let md := _md5 content in
  let r' := (checksums content r).1 in
  let res := (checksums content r).2 in
  let crc_passes :=
    truthy (field r "crc32c") = false ∨ field r "crc32c" = VStr crc in
  let md_passes :=
    truthy (field r "md5Hash") = false ∨ field r "md5Hash" = VStr md in
  crc = b64encode (google_crc32c content)
  ∧ md = b64encode (hashlib_md5 content)
  ∧ (truthy (field r "crc32c") = false → field r' "crc32c" = VStr crc)
  ∧ (truthy (field r "crc32c") = true → field r "crc32c" ≠ VStr crc →
     res = Raise (Conflict (Crc32cMismatch (field r "crc32c") crc))
     ∧ r' = r)
  ∧ (truthy (field r "md5Hash") = false → crc_passes →
     field r' "md5Hash" = VStr md)
  ∧ (truthy (field r "md5Hash") = true → field r "md5Hash" ≠ VStr md →
     (∃ why, res = Raise (Conflict why))
     ∧ (crc_passes →
        res = Raise (Conflict (Md5Mismatch (field r "md5Hash") md))))
  ∧ (res = Ok tt ↔ crc_passes ∧ md_passes)
  ∧ (res = Ok tt →
     field r' "crc32c" = VStr crc
     ∧ field r' "md5Hash" = VStr md
     ∧ field r' "etag" =
         (if truthy (field r "etag") then field r "etag" else VStr md))
  ∧ (∀ storage time_id now base_url bucket_name object_id content_type n,
       int_of_str "1" = Some n →
       let run :=
         _multipart_upload storage time_id now base_url bucket_name
           object_id content_type (VDict r) content in
       (truthy (field r "crc32c") = true → field r "crc32c" ≠ VStr crc →
        run = (storage,
               Raise (Conflict (Crc32cMismatch (field r "crc32c") crc))))
       ∧ (crc_passes →
          truthy (field r "md5Hash") = true → field r "md5Hash" ≠ VStr md →
          run = (storage,
                 Raise (Conflict (Md5Mismatch (field r "md5Hash") md))))
       ∧ (∀ why, run.2 = Raise (Conflict why) →
                 run.1 = storage ∧ ¬ (crc_passes ∧ md_passes))
       ∧ (∀ obj, run.2 = Ok obj →
                 crc_passes ∧ md_passes
                 ∧ field obj "crc32c" = VStr crc
                 ∧ field obj "md5Hash" = VStr md
                 ∧ field obj "etag" = VStr md))
  ∧ (∀ storage time_id now base_url bucket_name object_id content_type,
       let run :=
         _media_upload storage time_id now base_url bucket_name object_id
           content_type content in
       (∀ why, run.2 ≠ Raise (Conflict why))
       ∧ (∀ obj, run.2 = Ok obj →
                 field obj "crc32c" = VStr crc
                 ∧ field obj "md5Hash" = VStr md
                 ∧ field obj "etag" = VStr md)).
Proof.
  intros crc md r' res crc_passes md_passes.
  assert (Hhandler :
    ∀ storage time_id now base_url bucket_name object_id content_type n,
      int_of_str "1" = Some n →
      let run :=
        _multipart_upload storage time_id now base_url bucket_name
          object_id content_type (VDict r) content in
      (truthy (field r "crc32c") = true → field r "crc32c" ≠ VStr crc →
       run = (storage,
              Raise (Conflict (Crc32cMismatch (field r "crc32c") crc))))
      ∧ (crc_passes →
         truthy (field r "md5Hash") = true → field r "md5Hash" ≠ VStr md →
         run = (storage,
                Raise (Conflict (Md5Mismatch (field r "md5Hash") md))))
      ∧ (∀ why, run.2 = Raise (Conflict why) →
                run.1 = storage ∧ ¬ (crc_passes ∧ md_passes))
      ∧ (∀ obj, run.2 = Ok obj →
                crc_passes ∧ md_passes
                ∧ field obj "crc32c" = VStr crc
                ∧ field obj "md5Hash" = VStr md
                ∧ field obj "etag" = VStr md)).
  { intros storage time_id now base_url bucket_name object_id content_type n
      Hint run.
    destruct (_make_object_resource_any time_id now base_url bucket_name
                object_id content_type
                (VStr (py_str (Z.of_nat (length content)))) r n Hint)
      as (obj0 & Hmake & _ & _ & _ & _ & He & _ & _ & Hcrc & Hmd & _).
    destruct (checked_rejects content obj0) as [Hrc Hrm].
    rewrite Hcrc in Hrc. rewrite Hcrc, Hmd in Hrm.
    assert (Hpass : crc_passes → md_passes →
              ∃ obj, checked content obj0 = Ok obj
                     ∧ field obj "crc32c" = VStr crc
                     ∧ field obj "md5Hash" = VStr md
                     ∧ field obj "etag" = VStr md).
    { intros Hc Hm.
      destruct (checked_accepts content obj0)
        as (obj & Hchecked & Hcrc' & Hmd' & He' & _);
        [by rewrite Hcrc | by rewrite Hmd |].
      exists obj. split; [done|]. unfold field.
      rewrite Hcrc', Hmd', He'. unfold field. by rewrite He. }
    assert (Hfail : ∀ e, checked content obj0 = Raise e →
                         ¬ (crc_passes ∧ md_passes)).
    { intros e Hraise [Hc Hm].
      destruct (Hpass Hc Hm) as (obj & Hok & _). congruence. }
    assert (Hsteps := _multipart_upload_steps storage time_id now base_url
                        bucket_name object_id content_type (VDict r) content
                        obj0 Hmake).
    fold run in Hsteps.
    split_and!.
    - intros Ht Hne. by rewrite Hsteps, Hrc.
    - intros Hc Ht Hne. by rewrite Hsteps, Hrm.
    - intros why Hwhy.
      destruct (_multipart_upload_conflict storage time_id now base_url
                  bucket_name object_id content_type (VDict r) content obj0
                  why Hmake Hwhy) as [Hchecked Hsame].
      split; [done|]. by apply (Hfail _ Hchecked).
    - intros obj. rewrite Hsteps.
      destruct (checked content obj0) as [obj1|e] eqn:Hchecked; [|done].
      cbn [snd].
      destruct (create_file storage bucket_name object_id content obj1
                  None).2 as [[]|e]; [|done].
      intros [= <-].
      assert (Hboth : crc_passes ∧ md_passes).
      { unfold checked in Hchecked.
        destruct (checksums content obj0) as [obj2 [[]|e]] eqn:Hsums;
          [|done].
        subst crc_passes md_passes. rewrite <- Hcrc, <- Hmd.
        assert (Hres : (checksums content obj0).2 = Ok tt)
          by (by rewrite Hsums).
        revert Hres. rewrite checksums_unfold. cbv zeta.
        destruct (truthy (field obj0 "crc32c")) eqn:Tc;
          [|destruct (truthy (field obj0 "md5Hash")) eqn:Tm].
        - destruct (py_eq (field obj0 "crc32c") (VStr (_crc32c content)))
            eqn:Ec; [|done].
          apply py_eq_str in Ec. simpl.
          destruct (truthy (field obj0 "md5Hash")) eqn:Tm;
            [|intros _; split; [by right | by left]].
          destruct (py_eq (field obj0 "md5Hash") (VStr (_md5 content)))
            eqn:Em; [|done].
          apply py_eq_str in Em. intros _. split; by right.
        - simpl.
          destruct (py_eq (field obj0 "md5Hash") (VStr (_md5 content)))
            eqn:Em; [|done].
          apply py_eq_str in Em. intros _. split; [by left | by right].
        - intros _. split; by left. }
      destruct Hboth as [Hc Hm]. split; [done|]. split; [done|].
      destruct (Hpass Hc Hm) as (obj3 & Hok & Hfields).
      assert (obj3 = obj1) as -> by congruence. done. }
  assert (Hmedia :
    ∀ storage time_id now base_url bucket_name object_id content_type,
      let run :=
        _media_upload storage time_id now base_url bucket_name object_id
          content_type content in
      (∀ why, run.2 ≠ Raise (Conflict why))
      ∧ (∀ obj, run.2 = Ok obj →
                field obj "crc32c" = VStr crc
                ∧ field obj "md5Hash" = VStr md
                ∧ field obj "etag" = VStr md)).
  { intros storage time_id now base_url bucket_name object_id content_type
      run. subst run. rewrite _media_upload_multipart.
    destruct (_make_object_resource_plain time_id now base_url bucket_name
                object_id content_type
                (VStr (py_str (Z.of_nat (length content)))) VNone eq_refl)
      as (obj0 & Hmake & _ & _ & _ & _ & _ & _ & Hcrc & Hmd & He & _).
    destruct (checked_accepts content obj0)
      as (obj & Hchecked & Hcrc' & Hmd' & He' & _).
    { left. unfold field. by rewrite Hcrc. }
    { left. unfold field. by rewrite Hmd. }
    rewrite (_multipart_upload_steps _ _ _ _ _ _ _ _ _ obj0 Hmake), Hchecked.
    cbn [snd]. split.
    - intros why.
      pose proof (create_file_no_conflict storage bucket_name object_id
                    content obj why) as Hno.
      destruct (create_file storage bucket_name object_id content obj
                  None).2 as [[]|e]; [done|].
      intros [= ->]. done.
    - intros obj'.
      destruct (create_file storage bucket_name object_id content obj
                  None).2 as [[]|e]; [|done].
      intros [= <-]. unfold field. rewrite Hcrc', Hmd', He'.
      unfold field. by rewrite He. }
  destruct (checksums_rules content r)
    as (H1 & H2 & H3 & H4 & H5 & H6 & H7 & H8).
  by split_and!.
Qed.

(** X13.  [_multipart_upload] checks the digests that the metadata of the
    request carries against the content before it stores anything: another
    crc32c, or another md5Hash beside a good crc32c, raises the [Conflict]
    and the storage is as it was.  When the digests pass and the bucket
    exists, the handler returns exactly when the file system takes a file
    under the name; the object and its content are then stored under the
    name, and the resource holds the computed digests, the MD5 digest as
    etag, the length of the content as size, the content type of the
    metadata when it gives one (and that of the part otherwise), and a
    metageneration that is one above the first unless the metadata is
    empty. *)
Theorem _multipart_upload_verifies_digests (storage : Storage) (time_id : Z)
    (now base_url bucket_name object_id : string) (content_type : value)
    (patch : resource) (content : bytes) (n : Z) :
  int_of_str "1" = Some n →
  let run :=
    _multipart_upload storage time_id now base_url bucket_name object_id
      content_type (VDict patch) content in
  (truthy (field patch "crc32c") = true →
   field patch "crc32c" ≠ VStr (_crc32c content) →
   run = (storage,
          Raise (Conflict (Crc32cMismatch (field patch "crc32c")
                             (_crc32c content)))))
  ∧ (truthy (field patch "crc32c") = false
     ∨ field patch "crc32c" = VStr (_crc32c content) →
     truthy (field patch "md5Hash") = true →
     field patch "md5Hash" ≠ VStr (_md5 content) →
     run = (storage,
            Raise (Conflict (Md5Mismatch (field patch "md5Hash")
                               (_md5 content)))))
  ∧ (truthy (field patch "crc32c") = false
     ∨ field patch "crc32c" = VStr (_crc32c content) →
     truthy (field patch "md5Hash") = false
     ∨ field patch "md5Hash" = VStr (_md5 content) →
     PyDict.mem bucket_name (buckets storage) = true →
     transient bucket_name = false →
     ((∃ obj, run.2 = Ok obj)
      ↔ accepts storage bucket_name object_id = true)
     ∧ ∀ obj,
         run.2 = Ok obj →
         get_file_obj run.1 bucket_name object_id = Ok obj
         ∧ get_file run.1 bucket_name object_id = Ok content
         ∧ field obj "crc32c" = VStr (_crc32c content)
         ∧ field obj "md5Hash" = VStr (_md5 content)
         ∧ field obj "etag" = VStr (_md5 content)
         ∧ field obj "name" = VStr object_id
         ∧ field obj "bucket" = VStr bucket_name
         ∧ field obj "size" = VStr (py_str (Z.of_nat (length content)))
         ∧ field obj "contentType"
           = (if is_none (field patch "contentType") then content_type
              else field patch "contentType")
         ∧ field obj "metageneration"
           = VStr (match patch with [] => "1" | _ => py_str (n + 1) end)).
Proof.
  intros Hint run.
  destruct (_make_object_resource_any time_id now base_url bucket_name
              object_id content_type
              (VStr (py_str (Z.of_nat (length content)))) patch n Hint)
    as (obj0 & Hmake & Hn & Hb & Hs & Hg & He & Hmg & Hct & Hcrc & Hmd & _).
  assert (Hsteps := _multipart_upload_steps storage time_id now base_url
                      bucket_name object_id content_type (VDict patch)
                      content obj0 Hmake).
  fold run in Hsteps.
  destruct (checked_rejects content obj0) as [Hrc Hrm].
  rewrite Hcrc in Hrc. rewrite Hcrc, Hmd in Hrm.
  split_and!.
  - intros Ht Hne. by rewrite Hsteps, Hrc.
  - intros Hc Ht Hne. by rewrite Hsteps, Hrm.
  - intros Hc Hm Hmem Htr.
    destruct (checked_accepts content obj0) as
      (obj & Hchecked & Hcrc' & Hmd' & He' & Hrest);
      [by rewrite Hcrc | by rewrite Hmd |].
    destruct (_multipart_upload_stores storage time_id now base_url
                bucket_name object_id content_type (VDict patch) content
                obj0 obj Hmake Hchecked Hmem Htr) as [Hret Hstored].
    fold run in Hret, Hstored. split.
    + rewrite <- Hret. split; [|by eauto].
      intros [obj' Hobj']. by destruct (Hstored obj' Hobj') as [<- _].
    + intros obj' Hobj'.
      destruct (Hstored obj' Hobj') as (-> & Hget_obj & Hget & _).
      unfold field in *.
      rewrite Hcrc', Hmd', He', (Hrest "name"), (Hrest "bucket"),
        (Hrest "size"), (Hrest "contentType"), (Hrest "metageneration"),
        Hn, Hb, Hs, Hmg, He by done.
      by split_and!.
Qed.

End Uploads.

(** * More properties of the storage *)

Section Persistence.

Context `{Imports}.

(** ** The snapshot *)

Lemma reopen_persisted (self : Storage) :
  persisted self → _read_config_from_file self = self.
Proof.
  unfold persisted, snapshot, _read_config_from_file.
  destruct self as [b o r m f mt]. simpl. by intros ->.
Qed.

Lemma reopen_set_fs (f : gmap string (gmap (list string) entry)
                         → gmap string (gmap (list string) entry))
    (self : Storage) :
  _read_config_from_file self = self →
  _read_config_from_file (set_fs f self) = set_fs f self.
Proof.
  unfold _read_config_from_file.
  destruct self as [b o rs m fs mt]. simpl.
  destruct mt as [cfg|]; simpl; by intros [= -> -> -> ->].
Qed.

Lemma create_file_persisted (self : Storage) (bucket_name file_name : string)
    (content : bytes) (file_obj : resource) (file_id : option string) :
  (create_file self bucket_name file_name content file_obj file_id).2 = Ok tt →
  persisted (create_file self bucket_name file_name content file_obj file_id).1.
Proof.
  destruct (create_file self bucket_name file_name content file_obj file_id)
    as [s' r] eqn:Hrun.
  cbn [fst snd]. intros ->. revert Hrun.
  unfold create_file. unfold bind at 1, gets.
  destruct (PyDict.mem bucket_name (buckets self)); [|done]. cbn [negb].
  unfold bind at 1.
  destruct (_get_or_create_dir self bucket_name file_name) as [s0 [d|e]];
    [|done].
  unfold bind at 1.
  destruct (write_file s0 bucket_name d (basename file_name) content)
    as [s1 [[]|e]]; [|done].
  unfold bind at 1, modify. unfold bind at 1.
  destruct (given file_id); [|by intros [= <-]].
  unfold bind at 1, delete_resumable_file_obj. cbn [resumable set_objects].
  destruct (PyDict.get (or_empty file_id) (resumable s1)); [|done].
  destruct (_delete_file _ RESUMABLE_DIR (safe_id (or_empty file_id)))
    as [s3 [[]|e]]; [|done].
  by intros [= <-].
Qed.

Lemma complete_multipart_upload_persisted (self : Storage)
    (now upload_id : string) :
  (complete_multipart_upload self now upload_id).2 = Ok tt →
  persisted (complete_multipart_upload self now upload_id).1.
Proof.
  rewrite complete_multipart_upload_unfold.
  destruct (PyDict.get upload_id (multipart self)) as [upload|]; [|done].
  destruct (as_str (field upload "bucket_name")) as [bucket_name|]; [|done].
  destruct (as_str (field upload "id")) as [file_name|]; [|done].
  destruct (_get_or_create_dir self bucket_name file_name)
    as [s0 [file_dir|e]]; [|done].
  cbv zeta.
  generalize (read_parts (Z.to_nat 10000) 1 (safe_id upload_id) [] s0).1.
  generalize (concat (spec_parts (Z.to_nat 10000) 1 (safe_id upload_id) s0)).
  intros content s1.
  destruct (write_file s1 bucket_name file_dir (basename file_name) content)
    as [s2 [[]|e]]; [|done].
  by destruct (checked content _).
Qed.

Lemma delete_bucket_persisted (self : Storage) (bucket_name : string) :
  (delete_bucket self bucket_name).2 = Ok tt →
  persisted (delete_bucket self bucket_name).1.
Proof.
  rewrite delete_bucket_unfold.
  destruct (PyDict.get bucket_name (buckets self)); [|done].
  destruct (PyDict.get bucket_name (objects self)) as [[|? ?]|];
    try done; by destruct (List.filter _ _).
Qed.

Lemma delete_file_persisted (self : Storage) (bucket_name file_name : string) :
  (delete_file self bucket_name file_name).2 = Ok tt →
  persisted (delete_file self bucket_name file_name).1.
Proof.
  unfold delete_file.
  destruct (get_file_obj self bucket_name file_name); [|done].
  unfold bind, modify.
  by destruct (_delete_file _ bucket_name file_name) as [s1 [[]|e]].
Qed.

(** X1.  Every method that changes the catalog and returns has written the
    snapshot: reading [.meta] back with [_read_config_from_file] gives the
    storage as the call left it.  The two methods that only store transient
    bytes leave an up-to-date snapshot up to date. *)
Theorem mutations_reach_the_snapshot (self : Storage) :
  (∀ bucket_name bucket_obj,
     let s' := (create_bucket self bucket_name bucket_obj).1 in
     _read_config_from_file s' = s')
  ∧ (∀ bucket_name file_name content file_obj file_id,
       let r := create_file self bucket_name file_name content file_obj
                  file_id in
       r.2 = Ok tt → _read_config_from_file r.1 = r.1)
  ∧ (∀ now bucket_name file_name file_obj file_id,
       let r := create_resumable_upload self now bucket_name file_name
                  file_obj in
       r.2 = Ok file_id → _read_config_from_file r.1 = r.1)
  ∧ (∀ now bucket_name file_name content_type metadata upload_id,
       let r := create_xml_multipart_upload self now bucket_name file_name
                  content_type metadata in
       r.2 = Ok upload_id → _read_config_from_file r.1 = r.1)
  ∧ (∀ now upload_id,
       let r := complete_multipart_upload self now upload_id in
       r.2 = Ok tt → _read_config_from_file r.1 = r.1)
  ∧ (∀ bucket_name,
       let r := delete_bucket self bucket_name in
       r.2 = Ok tt → _read_config_from_file r.1 = r.1)
  ∧ (∀ bucket_name file_name,
       let r := delete_file self bucket_name file_name in
       r.2 = Ok tt → _read_config_from_file r.1 = r.1)
  ∧ (∀ upload_id part_number content,
       let r := add_to_multipart_upload self upload_id part_number content in
       _read_config_from_file self = self →
       _read_config_from_file r.1 = r.1)
  ∧ (∀ file_id content total_size,
       let r := add_to_resumable_upload self file_id content total_size in
       _read_config_from_file self = self →
       _read_config_from_file r.1 = r.1).
Proof.
  split_and!.
  - intros bucket_name bucket_obj s'. subst s'.
    apply reopen_persisted. reflexivity.
  - intros ? ? ? ? ? r Hok. subst r.
    by apply reopen_persisted, create_file_persisted.
  - intros now bucket_name file_name file_obj file_id r. subst r.
    unfold create_resumable_upload, bind, gets, modify, raise, ret. simpl.
    destruct (PyDict.mem bucket_name (buckets self)); simpl; [|done].
    intros _. apply reopen_persisted. reflexivity.
  - intros now bucket_name file_name content_type metadata upload_id r.
    subst r.
    unfold create_xml_multipart_upload, bind, gets, modify, raise, ret. simpl.
    destruct (PyDict.mem bucket_name (buckets self)); simpl; [|done].
    intros _. apply reopen_persisted. reflexivity.
  - intros ? ? r Hok. subst r.
    by apply reopen_persisted, complete_multipart_upload_persisted.
  - intros ? r Hok. subst r. by apply reopen_persisted, delete_bucket_persisted.
  - intros ? ? r Hok. subst r. by apply reopen_persisted, delete_file_persisted.
  - intros upload_id part_number content r. subst r.
    rewrite add_to_multipart_upload_unfold.
    destruct (PyDict.get upload_id (multipart self)); [|done].
    apply reopen_set_fs.
  - intros file_id content total_size r. subst r.
    rewrite add_to_resumable_upload_unfold. cbv zeta. cbn [fst].
    apply reopen_set_fs.
Qed.

End Persistence.
Section Objects.

Context `{Imports}.

(** ** Deleting an object *)

Lemma get_file_obj_objects (self self' : Storage) (b k : string) :
  objects self' = objects self →
  get_file_obj self' b k = get_file_obj self b k.
Proof. unfold get_file_obj. by intros ->. Qed.

(** [_delete_file] in a bucket, when it returns: nothing is read under
    the key afterwards, and what is read under a key of another place is
    what was read before. *)
Lemma _delete_file_ok (self s' : Storage) (bucket_name file_name : string) :
  transient bucket_name = false →
  _delete_file self bucket_name file_name = (s', Ok tt) →
  same_catalog self s'
  ∧ get_file s' bucket_name file_name = Raise NotFound
  ∧ (∀ b k, b ≠ bucket_name ∨ normpath k ≠ normpath file_name →
            get_file s' b k = get_file self b k).
Proof.
  intros Ht Hrun.
  pose proof (_delete_file_catalog self bucket_name file_name) as Hcat.
  pose proof (_delete_file_other self bucket_name file_name) as Hother.
  rewrite Hrun in Hcat, Hother. cbn [fst] in Hcat, Hother.
  split; [done|].
  assert (Hfar : ∀ b k, b ≠ bucket_name → get_file s' b k = get_file self b k).
  { intros b k Hb. by apply get_file_dir, Hother. }
  revert Hrun. unfold _delete_file.
  destruct (_fs self !! bucket_name) as [t|] eqn:Et.
  2: { intros [= <-]. split; [|done]. unfold get_file. by rewrite Et. }
  rewrite Ht.
  destruct (normpath file_name) as [[|a p]|] eqn:Ep; [done| |done].
  assert (Hnear : ∀ s k,
            _fs s !! bucket_name = Some (delete (a :: p) t)
            ∨ (_fs s !! bucket_name = Some t ∧ t !! (a :: p) = None) →
            get_file s bucket_name file_name = Raise NotFound
            ∧ (normpath k ≠ Ok (a :: p) →
               get_file s bucket_name k = get_file self bucket_name k)).
  { intros s k Hs. unfold get_file. rewrite Et, !locate_bucket, Ep by done.
    destruct Hs as [-> | [-> Hnone]].
    - rewrite lookup_delete_eq. split; [done|]. intros Hk.
      destruct (normpath k) as [q|]; [|done].
      rewrite lookup_delete_ne; [done|congruence].
    - by rewrite Hnone. }
  destruct (t !! (a :: p)) as [[old|]|] eqn:Eold; [|done|].
  - intros [= <-].
    assert (Hs : _fs (set_container bucket_name (delete (a :: p) t) self)
                 !! bucket_name = Some (delete (a :: p) t))
      by (simpl; by rewrite lookup_insert_eq).
    split; [by destruct (Hnear _ file_name (or_introl Hs))|].
    intros b k Hbk.
    destruct (decide (b = bucket_name)) as [-> | Hb]; [|by apply Hfar].
    destruct Hbk as [? | Hk]; [done|].
    destruct (Hnear _ k (or_introl Hs)) as [_ Hk']. by apply Hk'.
  - intros [= <-]. split; [|done].
    by destruct (Hnear self file_name (or_intror (conj Et eq_refl))).
Qed.

(** [_delete_file] returns when there is a file under the key. *)
Lemma _delete_file_returns (self : Storage) (bucket_name file_name : string)
    (p : list string) (content : bytes) :
  transient bucket_name = false →
  normpath file_name = Ok p → p ≠ [] →
  get_file self bucket_name file_name = Ok content →
  (_delete_file self bucket_name file_name).2 = Ok tt.
Proof.
  intros Ht Hp Hne. unfold get_file, _delete_file.
  rewrite locate_bucket, Ht, Hp by done.
  destruct (_fs self !! bucket_name) as [t|]; [|done].
  destruct p as [|a p]; [done|].
  by destruct (t !! (a :: p)) as [[old|]|].
Qed.

Lemma delete_file_unfold (self : Storage) (bucket_name file_name : string)
    (file_obj : resource) :
  get_file_obj self bucket_name file_name = Ok file_obj →
  delete_file self bucket_name file_name
  = let removed :=
      set_objects (fun objs =>
                     match PyDict.get bucket_name objs with
                     | Some d =>
                         PyDict.set bucket_name (PyDict.del file_name d) objs
                     | None => objs
                     end) self in
    match _delete_file removed bucket_name file_name with
    | (s', Ok _) => (_write_config_to_file s', Ok tt)
    | (s', Raise e) => (s', Raise e)
    end.
Proof.
  intros Hobj. unfold delete_file. rewrite Hobj. unfold bind, modify.
  by destruct (_delete_file _ bucket_name file_name) as [s' [[]|e]].
Qed.

(** X2.  [delete_file] raises [NotFound] for an object that the catalog
    does not hold and changes nothing.  For an object of a bucket that
    the catalog holds, the call returns when there are bytes under the
    key; when it returns, the resource and the bytes are gone, every
    other object keeps its resource, what is read under a key that names
    another file is what was read before, the buckets are as they were
    and the snapshot is written. *)
Theorem delete_file_removes (self : Storage) (bucket_name file_name : string) :
  (get_file_obj self bucket_name file_name = Raise NotFound →
   delete_file self bucket_name file_name = (self, Raise NotFound))
  ∧ (∀ file_obj,
       get_file_obj self bucket_name file_name = Ok file_obj →
       transient bucket_name = false →
       let s' := (delete_file self bucket_name file_name).1 in
       let res := (delete_file self bucket_name file_name).2 in
       (∀ p content,
          normpath file_name = Ok p → p ≠ [] →
          get_file self bucket_name file_name = Ok content →
          res = Ok tt)
       ∧ (res = Ok tt →
          get_file_obj s' bucket_name file_name = Raise NotFound
          ∧ get_file s' bucket_name file_name = Raise NotFound
          ∧ (∀ b k, (b, k) ≠ (bucket_name, file_name) →
                    get_file_obj s' b k = get_file_obj self b k)
          ∧ (∀ b k, b ≠ bucket_name ∨ normpath k ≠ normpath file_name →
                    get_file s' b k = get_file self b k)
          ∧ buckets s' = buckets self
          ∧ persisted s')).
Proof.
  split.
  - unfold delete_file. by intros ->.
  - intros file_obj Hobj Ht s' res. subst s' res.
    rewrite (delete_file_unfold _ _ _ _ Hobj). cbv zeta.
    set (removed := set_objects _ self).
    assert (Hfs : _fs removed = _fs self) by done.
    unfold get_file_obj in Hobj.
    destruct (PyDict.get bucket_name (objects self)) as [d|] eqn:Ed; [|done].
    split.
    + intros p content Hp Hne Hget.
      rewrite <- (get_file_fs removed self) in Hget by done.
      pose proof (_delete_file_returns removed bucket_name file_name p
                    content Ht Hp Hne Hget) as Hret.
      by destruct (_delete_file removed bucket_name file_name)
        as [s1 [[]|e]].
    + destruct (_delete_file removed bucket_name file_name)
        as [s1 [[]|e]] eqn:Hdel; [|done].
      intros _. cbn [fst].
      destruct (_delete_file_ok removed s1 bucket_name file_name Ht Hdel)
        as ((Hb & Ho & _) & Hgone & Hothers).
      split_and!.
      * unfold get_file_obj. simpl. rewrite Ho. simpl.
        by rewrite Ed, get_set_eq, get_del_eq.
      * rewrite <- Hgone. by apply get_file_fs.
      * intros b k Hne. unfold get_file_obj. simpl. rewrite Ho. simpl.
        rewrite Ed.
        destruct (decide (bucket_name = b)) as [<-|Hb'].
        -- rewrite get_set_eq, Ed.
           rewrite get_del_ne; [done|congruence].
        -- by rewrite get_set_ne.
      * intros b k Hne.
        rewrite (get_file_fs _ s1) by done.
        rewrite (Hothers b k Hne). by apply get_file_fs.
      * done.
      * reflexivity.
Qed.

(** ** Creating an object for a resumable session *)

Lemma create_file_session_unfold (self : Storage)
    (bucket_name file_name : string) (content : bytes) (file_obj : resource)
    (file_id : string) :
  file_id ≠ "" →
  create_file self bucket_name file_name content file_obj (Some file_id) =
    if PyDict.mem bucket_name (buckets self) then
      match bind (fun s => _get_or_create_dir s bucket_name file_name)
              (fun file_dir s =>
                 write_file s bucket_name file_dir (basename file_name)
                   content) self with
      | (s1, Ok _) =>
          let installed :=
            set_objects (install_object bucket_name file_name file_obj) s1 in
          match PyDict.get file_id (resumable self) with
          | Some _ =>
              (_write_config_to_file
                 (drop_file (set_resumable (PyDict.del file_id) installed)
                    RESUMABLE_DIR [safe_id file_id]), Ok tt)
          | None => (installed, Raise NotFound)
          end
      | (s1, Raise e) => (s1, Raise e)
      end
    else (self, Raise NotFound).
Proof.
  intros Hid. apply String.eqb_neq in Hid.
  unfold create_file, bind, gets, modify, raise, ret. cbn beta iota.
  destruct (PyDict.mem bucket_name (buckets self)); [|done]. cbn [negb].
  pose proof (_get_or_create_dir_catalog self bucket_name file_name) as Hc0.
  destruct (_get_or_create_dir self bucket_name file_name) as [s0 [d|e]];
    [|done].
  pose proof (write_file_catalog s0 bucket_name d (basename file_name)
                content) as Hc1.
  destruct (write_file s0 bucket_name d (basename file_name) content)
    as [s1 [[]|e]]; [|done].
  cbn [fst] in Hc0, Hc1.
  assert (Hres : resumable s1 = resumable self).
  { destruct Hc0 as (_ & _ & H0 & _), Hc1 as (_ & _ & H1 & _). congruence. }
  unfold given, or_empty. cbn [negb]. rewrite Hid. cbn [negb].
  unfold delete_resumable_file_obj. cbn [resumable set_objects].
  rewrite Hres.
  destruct (PyDict.get file_id (resumable self)); [|done].
  by rewrite (delete_transient _ RESUMABLE_DIR (safe_id file_id)
                transient_resumable).
Qed.

Lemma drop_file_fs (self self' : Storage) (dir : string) (p : list string) :
  _fs self = _fs self' →
  _fs (drop_file self dir p) = _fs (drop_file self' dir p).
Proof.
  intros Heq. unfold drop_file. rewrite Heq.
  destruct (_fs self' !! dir); simpl; [by rewrite Heq | done].
Qed.

(** X3.  [create_file] for a resumable session that exists returns exactly
    when the file system takes a file under the key.  It then installs
    the object and its bytes and retires the session: its record and its
    transient buffer are gone, and the snapshot is written. *)
Theorem create_file_retires_session (self : Storage)
    (bucket_name file_name : string) (content : bytes) (file_obj : resource)
    (file_id : string) :
  PyDict.mem bucket_name (buckets self) = true →
  transient bucket_name = false →
  file_id ≠ "" →
  PyDict.mem file_id (resumable self) = true →
  let r := create_file self bucket_name file_name content file_obj
             (Some file_id) in
  (r.2 = Ok tt ↔ accepts self bucket_name file_name = true)
  ∧ (r.2 = Ok tt →
     get_file r.1 bucket_name file_name = Ok content
     ∧ get_file_obj r.1 bucket_name file_name = Ok file_obj
     ∧ get_resumable_file_obj r.1 file_id = Raise NotFound
     ∧ get_file r.1 RESUMABLE_DIR (safe_id file_id) = Raise NotFound
     ∧ persisted r.1).
Proof.
  intros Hb Ht Hid [session Hs]%mem_get r. subst r.
  rewrite create_file_session_unfold, Hb, Hs by done.
  rewrite <- (file_steps_accepts self bucket_name file_name content).
  destruct (bind _ _ self) as [s1 [[]|e]] eqn:Esteps; cbn [fst snd];
    [|by split].
  split; [done|]. intros _.
  destruct (file_steps_ok self s1 bucket_name file_name content Ht Esteps)
    as ((_ & Ho & _) & _ & p & Hp & _ & Hget & _).
  assert (Hne : RESUMABLE_DIR ≠ bucket_name).
  { intros <-. by rewrite transient_resumable in Ht. }
  destruct (same_catalog_drop
              (set_resumable (PyDict.del file_id)
                 (set_objects (install_object bucket_name file_name file_obj)
                    s1)) RESUMABLE_DIR [safe_id file_id])
    as (_ & Hobjs & Hres & _).
  split_and!.
  - rewrite <- Hget.
    rewrite (get_file_fs _ (drop_file s1 RESUMABLE_DIR [safe_id file_id]))
      by (by apply drop_file_fs).
    apply get_file_drop_ne. by left.
  - apply get_file_obj_install with (objects s1).
    by etrans; [apply Hobjs|].
  - unfold get_resumable_file_obj.
    assert (resumable
              (_write_config_to_file
                 (drop_file
                    (set_resumable (PyDict.del file_id)
                       (set_objects
                          (install_object bucket_name file_name file_obj)
                          s1)) RESUMABLE_DIR [safe_id file_id]))
            = PyDict.del file_id (resumable s1)) as ->
      by (by etrans; [apply Hres|]).
    by rewrite get_del_eq.
  - rewrite (get_file_fs _ (drop_file s1 RESUMABLE_DIR [safe_id file_id]))
      by (by apply drop_file_fs).
    apply get_file_drop_eq. by apply locate_transient, transient_resumable.
  - reflexivity.
Qed.

(** X4.  [create_file] for a session id that the catalog does not know
    raises [NotFound] only after the object has been written and
    installed, that is, when the file system takes a file under the key:
    the bytes and the resource can be read afterwards, while [.meta] and
    the sessions are as before. *)
Theorem create_file_unknown_session (self : Storage)
    (bucket_name file_name : string) (content : bytes) (file_obj : resource)
    (file_id : string) :
  PyDict.mem bucket_name (buckets self) = true →
  transient bucket_name = false →
  file_id ≠ "" →
  PyDict.mem file_id (resumable self) = false →
  let r := create_file self bucket_name file_name content file_obj
             (Some file_id) in
  (r.2 = Raise NotFound ↔ accepts self bucket_name file_name = true)
  ∧ (r.2 = Raise NotFound →
     get_file r.1 bucket_name file_name = Ok content
     ∧ get_file_obj r.1 bucket_name file_name = Ok file_obj
     ∧ meta r.1 = meta self
     ∧ resumable r.1 = resumable self).
Proof.
  intros Hb Ht Hid Hs r. subst r.
  rewrite create_file_session_unfold, Hb by done.
  unfold PyDict.mem in Hs.
  destruct (PyDict.get file_id (resumable self)); [done|].
  rewrite <- (file_steps_accepts self bucket_name file_name content).
  destruct (bind _ _ self) as [s1 [[]|e]] eqn:Esteps; cbn [fst snd].
  - split; [done|]. intros _.
    destruct (file_steps_ok self s1 bucket_name file_name content Ht Esteps)
      as ((_ & Ho & Hr & _ & Hm) & _ & p & Hp & _ & Hget & _).
    split_and!; [| |done|done].
    + rewrite <- Hget. by apply get_file_fs.
    + by apply get_file_obj_install with (objects s1).
  - apply file_steps_raises in Esteps as [_ Hin].
    assert (e ≠ NotFound).
    { intros ->. rewrite !elem_of_cons, elem_of_nil in Hin. by intuition. }
    split; [split; [congruence|done]|congruence].
Qed.

End Objects.

Section Buckets2.

Context `{Imports}.

(** ** Wiping the storage *)

Lemma get_not_key {V} (k : string) (d : dict V) :
  k ∉ PyDict.keys d → PyDict.get k d = None.
Proof.
  unfold PyDict.keys. induction d as [|[k' v] d IH]; simpl; [done|].
  intros Hnin. apply not_elem_of_cons in Hnin as [Hne Hnin].
  apply String.eqb_neq in Hne. rewrite Hne. by apply IH.
Qed.

Lemma set_fresh {V} (k : string) (v : V) (d : dict V) :
  PyDict.get k d = None → PyDict.set k v d = d ++ [(k, v)].
Proof.
  induction d as [|[k' v'] d IH]; simpl; [done|].
  destruct (String.eqb k k'); [done|]. intros Hget. by rewrite IH.
Qed.

(** Filling a dictionary again from its own items rebuilds it. *)
Lemma set_items_rebuild {V} (d : dict V) :
  ∀ acc : dict V,
    NoDup (PyDict.keys (acc ++ d)) →
    fold_left (fun a (kv : string * V) => PyDict.set kv.1 kv.2 a) d acc
    = acc ++ d.
Proof.
  unfold PyDict.keys. induction d as [|[k v] d IH]; intros acc Hnd; simpl.
  - by rewrite app_nil_r.
  - rewrite set_fresh.
    + rewrite IH; rewrite <- app_assoc; [done|]. exact Hnd.
    + apply get_not_key. unfold PyDict.keys.
      rewrite map_app in Hnd. apply NoDup_app in Hnd as (_ & Hdisj & _).
      intros Hin. apply (Hdisj k Hin). simpl. apply list_elem_of_here.
Qed.

Lemma recreate_buckets (items : list (string * resource)) :
  ∀ s : Storage,
    let s' := fold_left
                (fun (s : Storage) (item : string * resource) =>
                   (create_bucket s item.1 item.2).1) items s in
    buckets s'
    = fold_left (fun a (kv : string * resource) => PyDict.set kv.1 kv.2 a)
        items (buckets s)
    ∧ objects s' = objects s
    ∧ resumable s' = resumable s
    ∧ multipart s' = multipart s
    ∧ _fs s' = _fs s
    ∧ (items ≠ [] → persisted s').
Proof.
  induction items as [|[k v] items IH]; intros s; simpl.
  - by split_and!.
  - destruct (IH (create_bucket s k v).1) as (Hb & Ho & Hr & Hm & Hf & Hp).
    split_and!; try done.
    intros _. destruct items as [|item items]; [reflexivity|].
    by apply Hp.
Qed.

(** X5.  [wipe] empties the buckets, the objects, the resumable sessions and
    the byte store and removes [.meta], but leaves the multipart sessions in
    place.  With [keep_buckets] the buckets come back as they were, without
    their objects, and [.meta] is written again when there is a bucket. *)
Theorem wipe_resets (self : Storage) :
  (let w := wipe self false in
   buckets w = [] ∧ objects w = [] ∧ resumable w = []
   ∧ _fs w = ∅ ∧ meta w = None
   ∧ multipart w = multipart self
   ∧ ∀ b k, get_file w b k = Raise NotFound)
  ∧ (NoDup (PyDict.keys (buckets self)) →
     let w := wipe self true in
     buckets w = buckets self ∧ objects w = [] ∧ resumable w = []
     ∧ _fs w = ∅
     ∧ multipart w = multipart self
     ∧ (buckets self ≠ [] → persisted w)
     ∧ ∀ b k, get_file_obj w b k = Raise NotFound).
Proof.
  split.
  - cbv zeta. unfold wipe. cbn. split_and!; done.
  - intros Hnd w. subst w. unfold wipe.
    destruct (recreate_buckets (PyDict.items (buckets self))
                (mkStorage [] [] [] (multipart self) ∅ None))
      as (Hb & Ho & Hr & Hm & Hf & Hp).
    cbv zeta in Hb, Ho, Hr, Hm, Hf, Hp. cbn [buckets objects resumable
      multipart _fs] in Hb, Ho, Hr, Hm, Hf.
    split_and!; try done.
    + rewrite Hb. unfold PyDict.items. by rewrite set_items_rebuild.
    + intros b k. unfold get_file_obj. by rewrite Ho.
Qed.

(** ** Creating a bucket *)

(** X6.  [create_bucket] stores the resource under the name, whether the
    name is new or not: afterwards [get_bucket] returns it, the other
    buckets are as before, and the objects and bytes of a bucket that
    existed already are still there. *)
Theorem create_bucket_overwrites (self : Storage) (bucket_name : string)
    (bucket_obj : resource) :
  let r := create_bucket self bucket_name bucket_obj in
  r.2 = Ok bucket_obj
  ∧ get_bucket r.1 bucket_name = Some bucket_obj
  ∧ (∀ other, other ≠ bucket_name →
       get_bucket r.1 other = get_bucket self other)
  ∧ (∀ b k, get_file_obj r.1 b k = get_file_obj self b k)
  ∧ (∀ b k, get_file r.1 b k = get_file self b k)
  ∧ (PyDict.mem bucket_name (buckets self) = true →
     PyDict.keys (buckets r.1) = PyDict.keys (buckets self)).
Proof.
  intros r. subst r. unfold create_bucket, bind, modify, ret. cbn [fst snd].
  split_and!; try done.
  - unfold get_bucket. simpl. apply get_set_eq.
  - intros other Hne. unfold get_bucket. simpl. by apply get_set_ne.
  - simpl. generalize (buckets self). intros d.
    unfold PyDict.mem, PyDict.keys.
    induction d as [|[k v] d IH]; simpl; [done|].
    destruct (String.eqb bucket_name k) eqn:E; simpl; [done|].
    intros Hmem. f_equal. by apply IH.
Qed.

(** ** Listing what has been created *)

Lemma set_items {V} (k : string) (v : V) (d : dict V) :
  (k, v) ∈ PyDict.items (PyDict.set k v d).
Proof.
  unfold PyDict.items. induction d as [|[k' v'] d IH]; simpl.
  - apply list_elem_of_here.
  - destruct (String.eqb k k') eqn:E.
    + apply String.eqb_eq in E as <-. apply list_elem_of_here.
    + by apply list_elem_of_further.
Qed.

Lemma prefix_empty (s : string) : String.prefix "" s = true.
Proof. by destruct s. Qed.

Lemma file_steps_catalog (self : Storage) (bucket_name file_name : string)
    (content : bytes) :
  same_catalog self
    (bind (fun s => _get_or_create_dir s bucket_name file_name)
       (fun file_dir s =>
          write_file s bucket_name file_dir (basename file_name) content)
       self).1.
Proof.
  unfold bind.
  pose proof (_get_or_create_dir_catalog self bucket_name file_name) as H1.
  destruct (_get_or_create_dir self bucket_name file_name) as [s0 [d|e]];
    [|done].
  apply same_catalog_trans with s0; [done|]. apply write_file_catalog.
Qed.

(** The catalog after [create_file] has returned. *)
Lemma create_file_installs (self s' : Storage)
    (bucket_name file_name : string) (content : bytes)
    (file_obj : resource) :
  create_file self bucket_name file_name content file_obj None
  = (s', Ok tt) →
  PyDict.mem bucket_name (buckets self) = true
  ∧ buckets s' = buckets self
  ∧ objects s' = install_object bucket_name file_name file_obj (objects self)
  ∧ resumable s' = resumable self
  ∧ multipart s' = multipart self
  ∧ persisted s'.
Proof.
  rewrite create_file_unfold.
  destruct (PyDict.mem bucket_name (buckets self)); [|done].
  pose proof (file_steps_catalog self bucket_name file_name content) as Hcat.
  destruct (bind _ _ self) as [s1 [[]|e]]; [|done].
  cbn [fst] in Hcat. destruct Hcat as (Hb & Ho & Hr & Hm & _).
  intros [= <-]. split_and!; try done. simpl. by rewrite Ho.
Qed.

(** X7.  An object that [create_file] has installed is among the objects
    that [get_file_list] returns for its bucket, for every prefix of its key
    (or none), unless a prefix and a delimiter are given and the key holds
    the delimiter after the prefix. *)
Theorem create_file_is_listed (self : Storage)
    (bucket_name file_name : string) (content : bytes) (file_obj : resource)
    (prefix delimiter : option string) :
  (create_file self bucket_name file_name content file_obj None).2 = Ok tt →
  String.prefix (or_empty prefix) file_name = true →
  given prefix = false
  ∨ given delimiter = false
  ∨ contains (or_empty delimiter)
      (str_drop (String.length (or_empty prefix)) file_name) = false →
  let s' :=
    (create_file self bucket_name file_name content file_obj None).1 in
  ∃ objs prefixes,
    get_file_list s' bucket_name prefix delimiter = Ok (objs, prefixes)
    ∧ file_obj ∈ objs.
Proof.
  intros Hok Hpre Hvisible s'. subst s'.
  destruct (create_file self bucket_name file_name content file_obj None)
    as [s' r] eqn:Hrun.
  cbn [fst snd] in *. subst r.
  destruct (create_file_installs _ _ _ _ _ _ Hrun)
    as (Hb & Hbs & Hos & _).
  unfold get_file_list. rewrite Hbs, Hb.
  cbn [negb]. eexists _, _. split; [reflexivity|].
  assert (Hobjs : PyDict.get bucket_name (objects s')
          = Some (PyDict.set file_name file_obj
                    (match PyDict.get bucket_name (objects self) with
                     | Some d => d
                     | None => []
                     end))).
  { rewrite Hos. unfold install_object. apply get_set_eq. }
  rewrite Hobjs.
  pose proof (set_items file_name file_obj
                (match PyDict.get bucket_name (objects self) with
                 | Some d => d
                 | None => []
                 end)) as Hin.
  destruct (given prefix) eqn:Egp.
  - apply list_elem_of_In, in_map_iff. exists (file_name, file_obj).
    split; [done|]. apply filter_In. split; [by apply list_elem_of_In|].
    cbn [fst]. rewrite Hpre. cbn [andb].
    destruct Hvisible as [? | [-> | ->]]; [done|done|].
    by destruct (given delimiter).
  - unfold PyDict.values.
    apply list_elem_of_In, in_map_iff. exists (file_name, file_obj).
    split; [done|]. by apply list_elem_of_In.
Qed.

End Buckets2.
Section Multipart2.

Context `{Imports}.

(** ** More on multipart sessions *)

(** X8.  [add_to_multipart_upload] raises [NotFound] for a session that the
    catalog does not know and stores nothing.  For a known session the part
    is stored under its number: a second upload of the same number replaces
    the first, the parts with other numbers are as they were, and the
    catalog is not touched. *)
Theorem add_to_multipart_upload_overwrites (self : Storage)
    (upload_id : string) :
  (PyDict.mem upload_id (multipart self) = false →
   ∀ part_number content,
     add_to_multipart_upload self upload_id part_number content
     = (self, Raise NotFound))
  ∧ (PyDict.mem upload_id (multipart self) = true →
     ∀ part_number first second,
       let s1 := (add_to_multipart_upload self upload_id part_number
                    first).1 in
       let r := add_to_multipart_upload s1 upload_id part_number second in
       r.2 = Ok tt
       ∧ get_file r.1 MULTIPART_DIR
           (part_file_id (safe_id upload_id) part_number) = Ok second
       ∧ same_catalog self r.1
       ∧ ∀ other,
           0 ≤ part_number → 0 ≤ other → other ≠ part_number →
           get_file r.1 MULTIPART_DIR
             (part_file_id (safe_id upload_id) other)
           = get_file self MULTIPART_DIR
               (part_file_id (safe_id upload_id) other)).
Proof.
  split.
  - intros Hmem part_number content. rewrite add_to_multipart_upload_unfold.
    unfold PyDict.mem in Hmem.
    by destruct (PyDict.get upload_id (multipart self)).
  - intros Hmem part_number first second s1 r.
    assert (Hm1 : multipart s1 = multipart self)
      by apply add_to_multipart_upload_multipart.
    assert (Hmem1 : PyDict.mem upload_id (multipart s1) = true)
      by (by rewrite Hm1).
    split_and!.
    + subst r. rewrite add_to_multipart_upload_unfold.
      apply mem_get in Hmem1 as [u ->]. done.
    + by apply get_part_add_eq.
    + subst r s1. rewrite !add_to_multipart_upload_unfold.
      apply mem_get in Hmem as [u Hu]. rewrite Hu. cbn [fst].
      assert (multipart (put_file self MULTIPART_DIR
                           [part_file_id (safe_id upload_id) part_number]
                           first) = multipart self) as -> by done.
      rewrite Hu. cbn [fst].
      apply same_catalog_trans
        with (put_file self MULTIPART_DIR
                [part_file_id (safe_id upload_id) part_number] first);
        apply same_catalog_put.
    + intros other Hp Ho Hne. subst r.
      rewrite get_part_add_ne by done. subst s1.
      by rewrite get_part_add_ne.
Qed.

(** X9.  Completion neither assembles nor deletes what lies behind the
    first gap: every part whose number is above the last part read is in
    the transient store afterwards exactly as it was before. *)
Theorem complete_multipart_upload_leaves_trailing_parts (self : Storage)
    (now upload_id : string) (upload : resource)
    (bucket_name file_name : string) :
  PyDict.get upload_id (multipart self) = Some upload →
  field upload "bucket_name" = VStr bucket_name →
  field upload "id" = VStr file_name →
  truthy (field upload "crc32c") = false →
  truthy (field upload "md5Hash") = false →
  bucket_name ≠ MULTIPART_DIR →
  ∀ j,
    1 + Z.of_nat (length (spec_parts (Z.to_nat 10000) 1 (safe_id upload_id)
                            self)) ≤ j →
    get_file (complete_multipart_upload self now upload_id).1 MULTIPART_DIR
      (part_file_id (safe_id upload_id) j)
    = get_file self MULTIPART_DIR (part_file_id (safe_id upload_id) j).
Proof.
  intros Hu Hb Hf Hc Hm Hne j Hj.
  destruct (complete_multipart_upload_parts_after self now upload_id upload
              bucket_name file_name Hu Hb Hf Hne) as [Hkept _].
  by apply Hkept.
Qed.

(** X10.  [delete_bucket] does not look at the multipart sessions, and
    [complete_multipart_upload] does not look at the buckets: when the
    bucket of a pending multipart session has been deleted, completion
    still returns when the file system takes a file under the key, and
    installs the object and its bytes under a bucket that the catalog
    does not hold, so the object can be read while a listing of the
    bucket raises [NotFound]. *)
Theorem complete_multipart_upload_after_delete_bucket (self : Storage)
    (now upload_id : string) (upload : resource)
    (bucket_name file_name : string) :
  PyDict.get upload_id (multipart self) = Some upload →
  field upload "bucket_name" = VStr bucket_name →
  field upload "id" = VStr file_name →
  truthy (field upload "crc32c") = false →
  truthy (field upload "md5Hash") = false →
  transient bucket_name = false →
  (delete_bucket self bucket_name).2 = Ok tt →
  let s1 := (delete_bucket self bucket_name).1 in
  let r := complete_multipart_upload s1 now upload_id in
  PyDict.get upload_id (multipart s1) = Some upload
  ∧ _fs s1 !! bucket_name = None
  ∧ (r.2 = Ok tt ↔ accepts s1 bucket_name file_name = true)
  ∧ (r.2 = Ok tt →
     PyDict.mem bucket_name (buckets r.1) = false
     ∧ (∃ file_obj, get_file_obj r.1 bucket_name file_name = Ok file_obj)
     ∧ (∃ content, get_file r.1 bucket_name file_name = Ok content)
     ∧ ∀ prefix delimiter,
         get_file_list r.1 bucket_name prefix delimiter = Raise NotFound).
Proof.
  intros Hu Hb Hf Hc Hm Ht Hdel s1 r.
  assert (Hs1 : multipart s1 = multipart self
                ∧ PyDict.mem bucket_name (buckets s1) = false
                ∧ _fs s1 !! bucket_name = None).
  { subst s1. revert Hdel. rewrite delete_bucket_unfold.
    destruct (PyDict.get bucket_name (buckets self)); [|done].
    destruct (PyDict.get bucket_name (objects self)) as [[|? ?]|];
      try done; destruct (List.filter _ _); try done; intros _;
      (split; [done|]); (split; [|apply lookup_delete_eq]);
      unfold PyDict.mem; simpl; by rewrite get_del_eq. }
  destruct Hs1 as (Hmulti & Hgone & Hfs).
  assert (Hu1 : PyDict.get upload_id (multipart s1) = Some upload)
    by (by rewrite Hmulti).
  assert (Hne : bucket_name ≠ MULTIPART_DIR).
  { intros ->. by rewrite transient_multipart in Ht. }
  split; [done|]. split; [done|]. split.
  { by apply (complete_multipart_upload_returns s1 now upload_id upload). }
  subst r.
  destruct (complete_multipart_upload s1 now upload_id) as [s2 res] eqn:Hrun.
  cbn [fst snd]. intros ->.
  destruct (complete_multipart_upload_run s1 s2 now upload_id upload
              bucket_name file_name Hu1 Hb Hf Hc Hm Ht Hrun)
    as (file_obj & _ & _ & Hbuckets & _ & _ & _ & _ & Hget & Hobj & _).
  split_and!.
  - by rewrite Hbuckets.
  - by exists file_obj.
  - by eexists.
  - intros prefix delimiter. apply get_file_list_unknown.
    by rewrite Hbuckets.
Qed.

End Multipart2.
Section ResumableUploads.

Context `{Imports}.

(** ** The handler of a resumable upload *)

(** The upload in one request: no [Content-Range] header.  The digests
    are checked, the size is written into the resource of the session,
    and [create_file] is called for the session. *)
Lemma upload_partial_single (storage : Storage) (upload_id : string)
    (data : bytes) (session : resource) (b k : string) :
  upload_id ≠ "" →
  get_resumable_file_obj storage upload_id = Ok session →
  field session "bucket" = VStr b →
  field session "name" = VStr k →
  PyDict.mem b (buckets storage) = true →
  truthy (field session "crc32c") = false
  ∨ field session "crc32c" = VStr (_crc32c data) →
  truthy (field session "md5Hash") = false
  ∨ field session "md5Hash" = VStr (_md5 data) →
  ∃ obj s2,
    field obj "size" = VStr (py_str (Z.of_nat (length data)))
    ∧ field obj "crc32c" = VStr (_crc32c data)
    ∧ field obj "md5Hash" = VStr (_md5 data)
    ∧ _fs s2 = _fs storage
    ∧ upload_partial storage upload_id None data
      = match bind (fun s => _get_or_create_dir s b k)
                (fun file_dir s => write_file s b file_dir (basename k) data)
                s2 with
        | (s1, Ok _) =>
            (_write_config_to_file
               (drop_file
                  (set_resumable (PyDict.del upload_id)
                     (set_objects (install_object b k obj) s1))
                  RESUMABLE_DIR [safe_id upload_id]), Ok (Json obj))
        | (s1, Raise e) => (s1, Raise e)
        end.
Proof.
  intros Hid Hsession Hb Hk Hmem Hc Hm.
  destruct (checked_accepts data session Hc Hm)
    as (obj1 & Hchecked%checked_checksums & Hcrc & Hmd & _ & Hrest).
  set (obj := PyDict.set "size" (VStr (py_str (Z.of_nat (length data)))) obj1).
  assert (Hgb : PyDict.get "bucket" obj = Some (VStr b)).
  { subst obj. rewrite get_set_ne, Hrest by done. by apply field_get_str. }
  assert (Hgk : PyDict.get "name" obj = Some (VStr k)).
  { subst obj. rewrite get_set_ne, Hrest by done. by apply field_get_str. }
  set (s2 := set_resumable (PyDict.set upload_id obj)
               (set_resumable (PyDict.set upload_id obj1) storage)).
  exists obj, s2. split_and!.
  - subst obj. by rewrite field_set_eq.
  - subst obj. rewrite field_set_ne by done. unfold field. by rewrite Hcrc.
  - subst obj. rewrite field_set_ne by done. unfold field. by rewrite Hmd.
  - done.
  - unfold upload_partial. unfold bind at 1, reads at 1. rewrite Hsession.
    unfold bind at 1, ret at 1. rewrite Hchecked.
    unfold bind at 1, modify at 1. unfold bind at 1, lift at 1.
    unfold bind at 1, modify at 1. fold obj. fold s2.
    unfold bind at 1, lift at 1, subscript at 1. rewrite Hgb.
    unfold bind at 1, lift at 1, subscript at 1. rewrite Hgk.
    unfold bind at 1, lift at 1, as_str at 1.
    unfold bind at 1, lift at 1, as_str at 1.
    unfold bind at 1.
    rewrite create_file_session_unfold by done.
    assert (PyDict.mem b (buckets s2) = true) as -> by done.
    assert (PyDict.get upload_id (resumable s2) = Some obj) as ->.
    { subst s2. simpl. by rewrite get_set_eq. }
    destruct (bind _ _ s2) as [s1 [[]|e]] eqn:Esteps; [done|].
    apply file_steps_raises in Esteps as [_ Hin].
    rewrite !elem_of_cons, elem_of_nil in Hin.
    by destruct Hin as [-> | [-> | [-> | [-> | []]]]].
Qed.

(** The chunk that makes the buffer long enough: the handler goes on as
    for an upload in one request, with the first [total_size] bytes of the
    buffer. *)
Lemma upload_partial_last_chunk (storage : Storage) (upload_id : string)
    (m : range_match) (data : bytes) (session : resource) (total : Z) :
  get_resumable_file_obj storage upload_id = Ok session →
  int_of_str (m_total_size m) = Some total →
  let received := resumable_buffer storage upload_id ++ data in
  total ≤ Z.of_nat (length received) →
  upload_partial storage upload_id (Some m) data
  = upload_partial
      (put_file storage RESUMABLE_DIR [safe_id upload_id] received)
      upload_id None (bytes_upto total received).
Proof.
  intros Hsession Hint received Hlen.
  set (s1 := put_file storage RESUMABLE_DIR [safe_id upload_id] received).
  assert (Hsession1 : get_resumable_file_obj s1 upload_id = Ok session)
    by (by rewrite <- Hsession).
  unfold upload_partial. f_equal.
  unfold bind at 1, reads at 1. rewrite Hsession.
  unfold bind at 1. unfold bind at 1, lift at 1.
  assert (py_int (VStr (m_total_size m)) = Ok total) as ->.
  { simpl. by rewrite Hint. }
  unfold bind at 1. rewrite add_to_resumable_upload_unfold. cbv zeta.
  fold received. fold s1. cbn [fst snd].
  assert ((Z.of_nat (length received) >=? total) = true) as -> by lia.
  unfold ret at 1. symmetry.
  unfold bind at 1, reads at 1. rewrite Hsession1.
  unfold bind at 1, ret at 1. done.
Qed.

(** X14.  The request that completes a resumable upload (the only
    request, without [Content-Range], or the chunk that brings the buffer
    to the declared total) answers with the resource of the object exactly
    when the file system takes a file under the name of the session.  The
    bytes are then stored under the bucket and the name of the session,
    the resource holds their length as size and their digests, the
    session and its buffer are gone, and the snapshot is written.  With a
    [Content-Range] the object is the first [total_size] bytes of
    everything received. *)
Theorem upload_partial_completes (storage : Storage) (upload_id : string)
    (content_range : option range_match) (data final : bytes)
    (session : resource) (b k : string) :
  upload_id ≠ "" →
  get_resumable_file_obj storage upload_id = Ok session →
  field session "bucket" = VStr b →
  field session "name" = VStr k →
  PyDict.mem b (buckets storage) = true →
  transient b = false →
  (content_range = None ∧ final = data)
  ∨ (∃ m total,
       content_range = Some m
       ∧ int_of_str (m_total_size m) = Some total
       ∧ 0 ≤ total ≤ Z.of_nat (length (resumable_buffer storage upload_id
                                         ++ data))
       ∧ final = take (Z.to_nat total)
                   (resumable_buffer storage upload_id ++ data)) →
  truthy (field session "crc32c") = false
  ∨ field session "crc32c" = VStr (_crc32c final) →
  truthy (field session "md5Hash") = false
  ∨ field session "md5Hash" = VStr (_md5 final) →
  let r := upload_partial storage upload_id content_range data in
  ((∃ obj, r.2 = Ok (Json obj)) ↔ accepts storage b k = true)
  ∧ ∀ obj,
      r.2 = Ok (Json obj) →
      get_file r.1 b k = Ok final
      ∧ get_file_obj r.1 b k = Ok obj
      ∧ field obj "size" = VStr (py_str (Z.of_nat (length final)))
      ∧ field obj "crc32c" = VStr (_crc32c final)
      ∧ field obj "md5Hash" = VStr (_md5 final)
      ∧ get_resumable_file_obj r.1 upload_id = Raise NotFound
      ∧ get_file r.1 RESUMABLE_DIR (safe_id upload_id) = Raise NotFound
      ∧ persisted r.1.
Proof.
  intros Hid Hsession Hb Hk Hmem Ht Hcase Hc Hm r.
  assert (Hne : RESUMABLE_DIR ≠ b).
  { intros <-. by rewrite transient_resumable in Ht. }
  assert (Hsingle : ∃ s0,
            _fs s0 !! b = _fs storage !! b
            ∧ get_resumable_file_obj s0 upload_id = Ok session
            ∧ PyDict.mem b (buckets s0) = true
            ∧ r = upload_partial s0 upload_id None final).
  { destruct Hcase as [[-> ->] | (m & total & -> & Hint & Hlen & Hfinal)].
    - by exists storage.
    - exists (put_file storage RESUMABLE_DIR [safe_id upload_id]
                (resumable_buffer storage upload_id ++ data)).
      split; [by apply container_put_ne|]. split; [done|]. split; [done|].
      subst r.
      rewrite (upload_partial_last_chunk storage upload_id m data session
                 total) by (done || lia).
      f_equal. unfold bytes_upto.
      by assert ((0 <=? total) = true) as -> by lia. }
  destruct Hsingle as (s0 & Hfs0 & Hsession0 & Hmem0 & Hr).
  destruct (upload_partial_single s0 upload_id final session b k Hid
              Hsession0 Hb Hk Hmem0 Hc Hm)
    as (obj & s2 & Hsize & Hcrc & Hmd & Hfs2 & Hrun).
  rewrite Hrun in Hr. clear Hrun.
  assert (Hacc : accepts storage b k = accepts s2 b k).
  { apply accepts_dir. by rewrite Hfs2, Hfs0. }
  rewrite Hacc, <- (file_steps_accepts s2 b k final).
  destruct (bind _ _ s2) as [s1 [[]|e]] eqn:Esteps; rewrite Hr; cbn [fst snd].
  2: { split; [|done]. split; [by intros [? ?]|done]. }
  split; [split; [done|by eauto]|].
  intros obj' [= <-].
  destruct (file_steps_ok s2 s1 b k final Ht Esteps)
    as (_ & _ & p & Hp & _ & Hget & _).
  destruct (same_catalog_drop
              (set_resumable (PyDict.del upload_id)
                 (set_objects (install_object b k obj) s1))
              RESUMABLE_DIR [safe_id upload_id])
    as (_ & Hobjs & Hres & _).
  split_and!; try done.
  - rewrite <- Hget.
    rewrite (get_file_fs _ (drop_file s1 RESUMABLE_DIR [safe_id upload_id]))
      by (by apply drop_file_fs).
    apply get_file_drop_ne. by left.
  - apply get_file_obj_install with (objects s1).
    by etrans; [apply Hobjs|].
  - unfold get_resumable_file_obj.
    assert (resumable
              (_write_config_to_file
                 (drop_file
                    (set_resumable (PyDict.del upload_id)
                       (set_objects (install_object b k obj) s1))
                    RESUMABLE_DIR [safe_id upload_id]))
            = PyDict.del upload_id (resumable s1)) as ->
      by (by etrans; [apply Hres|]).
    by rewrite get_del_eq.
  - rewrite (get_file_fs _ (drop_file s1 RESUMABLE_DIR [safe_id upload_id]))
      by (by apply drop_file_fs).
    apply get_file_drop_eq. by apply locate_transient, transient_resumable.
Qed.

(** X15.  What [upload_partial] refuses.  For an upload id that the
    catalog does not know the answer is 404 and nothing changes.  A chunk
    that leaves the buffer shorter than the declared total is answered with
    308 and the [end] of the request; it is appended to the buffer, and the
    catalog, the session and [.meta] are as before.  When the session
    carries a crc32c other than that of the bytes, an upload in one request
    is answered with 400, and the storage, the session with it, is as it
    was. *)
Theorem upload_partial_refuses (storage : Storage) (upload_id : string)
    (data : bytes) :
  (∀ content_range,
     get_resumable_file_obj storage upload_id = Raise NotFound →
     upload_partial storage upload_id content_range data
     = (storage, Ok StatusNotFound))
  ∧ (∀ session m total,
       get_resumable_file_obj storage upload_id = Ok session →
       int_of_str (m_total_size m) = Some total →
       Z.of_nat (length (resumable_buffer storage upload_id ++ data))
       < total →
       ∃ s',
         upload_partial storage upload_id (Some m) data
         = (s', Ok (ResumeIncomplete ("bytes=0-" +:+ m_end m)))
         ∧ resumable_buffer s' upload_id
           = resumable_buffer storage upload_id ++ data
         ∧ same_catalog storage s')
  ∧ (∀ session,
       get_resumable_file_obj storage upload_id = Ok session →
       truthy (field session "crc32c") = true →
       field session "crc32c" ≠ VStr (_crc32c data) →
       upload_partial storage upload_id None data
       = (storage,
          Ok (BadRequest (Crc32cMismatch (field session "crc32c")
                            (_crc32c data))))).
Proof.
  split_and!.
  - intros content_range Hsession. unfold upload_partial.
    unfold bind at 1, reads at 1. by rewrite Hsession.
  - intros session m total Hsession Hint Hlen.
    eexists. split_and!.
    + unfold upload_partial.
      unfold bind at 1, reads at 1. rewrite Hsession.
      unfold bind at 1. unfold bind at 1, lift at 1.
      assert (py_int (VStr (m_total_size m)) = Ok total) as ->.
      { simpl. by rewrite Hint. }
      unfold bind at 1. rewrite add_to_resumable_upload_unfold. cbv zeta.
      cbn [fst snd].
      assert ((Z.of_nat (length (resumable_buffer storage upload_id
                                   ++ data)) >=? total) = false)
        as -> by lia.
      unfold ret. reflexivity.
    + unfold resumable_buffer at 1.
      rewrite get_file_put_eq; [done|].
      by apply locate_transient, transient_resumable.
    + apply same_catalog_put.
  - intros session Hsession Ht Hne. unfold upload_partial.
    unfold bind at 1, reads at 1. rewrite Hsession.
    unfold bind at 1, ret at 1.
    rewrite checksums_unfold. cbv zeta. rewrite Ht.
    destruct (py_eq (field session "crc32c") (VStr (_crc32c data))) eqn:E;
      [by apply py_eq_str in E|].
    cbn [andb negb].
    unfold bind at 1, modify at 1. unfold bind at 1, lift at 1.
    f_equal. unfold get_resumable_file_obj in Hsession.
    destruct (PyDict.get upload_id (resumable storage)) as [r|] eqn:Eg;
      [|done].
    injection Hsession as ->.
    unfold set_resumable. rewrite set_same by done. by destruct storage.
Qed.

End ResumableUploads.
Section Copies.

Context `{Imports}.

(** ** Copying an object *)

Lemma get_file_obj_install_ne (self s' : Storage) (b k b' k' : string)
    (file_obj : resource) :
  objects s' = install_object b k file_obj (objects self) →
  (b', k') ≠ (b, k) →
  get_file_obj s' b' k' = get_file_obj self b' k'.
Proof.
  intros Hobjs Hne. unfold get_file_obj. rewrite Hobjs.
  unfold install_object.
  destruct (decide (b' = b)) as [-> | Hb].
  - rewrite get_set_eq.
    assert (k ≠ k') by congruence.
    rewrite get_set_ne by done.
    by destruct (PyDict.get b (objects self)).
  - by rewrite get_set_ne.
Qed.

(** [get_file] returns bytes only for a key that names a place. *)
Lemma get_file_ok_path (self : Storage) (bucket_name file_name : string)
    (content : bytes) :
  transient bucket_name = false →
  get_file self bucket_name file_name = Ok content →
  ∃ p, normpath file_name = Ok p.
Proof.
  intros Ht. unfold get_file. rewrite locate_bucket by done.
  destruct (_fs self !! bucket_name); [|done].
  destruct (normpath file_name) as [p|]; [by eauto|done].
Qed.

(** What [copy], [rewrite] and [compose] do once the resource of the
    destination is made: [checksums], [create_file], and the two
    [except] clauses. *)
Lemma store_checked (storage : Storage) (bucket_name file_name : string)
    (content : bytes) (file_obj : resource) (answer : resource → response) :
  or_status
    ((dest_obj <- lift (checked content file_obj) ;;
      (fun s => create_file s bucket_name file_name content dest_obj None) ;;
      ret (answer dest_obj)) storage)
  = match checked content file_obj with
    | Ok dest_obj =>
        if PyDict.mem bucket_name (buckets storage) then
          match create_file storage bucket_name file_name content dest_obj
                  None with
          | (s', Ok _) => (s', Ok (answer dest_obj))
          | (s', Raise e) => (s', Raise e)
          end
        else (storage, Ok StatusNotFound)
    | Raise (Conflict why) => (storage, Ok (BadRequest why))
    | Raise e => (storage, Raise e)
    end.
Proof.
  unfold bind at 1, lift at 1.
  destruct (checked content file_obj) as [dest_obj|e] eqn:E.
  - unfold bind, ret.
    destruct (PyDict.mem bucket_name (buckets storage)) eqn:Hmem.
    + destruct (create_file storage bucket_name file_name content dest_obj
                  None) as [s' [[]|e]] eqn:Ecreate; [done|].
      revert Ecreate. rewrite create_file_unfold, Hmem.
      destruct (bind _ _ storage) as [s1 [[]|e1]] eqn:Esteps; [done|].
      intros [= <- <-].
      apply file_steps_raises in Esteps as [_ Hin].
      rewrite !elem_of_cons, elem_of_nil in Hin.
      by destruct Hin as [-> | [-> | [-> | [-> | []]]]].
    + by rewrite create_file_unfold, Hmem.
  - destruct (checked_raises content file_obj e E) as [why ->]. done.
Qed.

(** The same for a destination in a bucket that exists: the handler
    answers exactly when the file system takes a file under the name, and
    the object is stored then. *)
Lemma store_checked_ok (storage : Storage) (bucket_name file_name : string)
    (content : bytes) (file_obj dest_obj : resource)
    (answer : resource → response) :
  checked content file_obj = Ok dest_obj →
  PyDict.mem bucket_name (buckets storage) = true →
  transient bucket_name = false →
  let run :=
    or_status
      ((dest_obj <- lift (checked content file_obj) ;;
        (fun s => create_file s bucket_name file_name content dest_obj
                    None) ;;
        ret (answer dest_obj)) storage) in
  (run.2 = Ok (answer dest_obj)
   ↔ accepts storage bucket_name file_name = true)
  ∧ (∀ reply, run.2 = Ok reply →
       reply = answer dest_obj
       ∧ create_file storage bucket_name file_name content dest_obj None
         = (run.1, Ok tt)).
Proof.
  intros Hchecked Hmem Ht run. subst run.
  rewrite store_checked, Hchecked, Hmem.
  pose proof (create_file_returns storage bucket_name file_name content
                dest_obj Hmem) as Hret.
  destruct (create_file storage bucket_name file_name content dest_obj None)
    as [s' [[]|e]]; cbn [fst snd] in *.
  - split; [by rewrite <- Hret|]. by intros reply [= <-].
  - split; [|done]. rewrite <- Hret. by split.
Qed.

(** [copy] up to the resource of the destination. *)
Lemma copy_unfold (storage : Storage) (time_id : Z)
    (now base_url bucket_name object_id dest_bucket_name dest_object_id
       : string)
    (obj dest_obj : resource) (content_type size : value) (file : bytes) :
  get_file_obj storage bucket_name object_id = Ok obj →
  PyDict.get "contentType" obj = Some content_type →
  PyDict.get "size" obj = Some size →
  _make_object_resource time_id now base_url dest_bucket_name dest_object_id
    content_type size (VDict obj) = Ok dest_obj →
  get_file storage bucket_name object_id = Ok file →
  copy storage time_id now base_url bucket_name object_id dest_bucket_name
    dest_object_id
  = or_status
      ((dest_obj <- lift (checked file dest_obj) ;;
        (fun s => create_file s dest_bucket_name dest_object_id file dest_obj
                    None) ;;
        ret (Json dest_obj)) storage).
Proof.
  intros Hobj Hct Hsize Hmake Hfile. unfold copy. rewrite Hobj.
  unfold bind at 1, lift at 1, subscript at 1. rewrite Hct.
  unfold bind at 1, lift at 1, subscript at 1. rewrite Hsize.
  unfold bind at 1, lift at 1. rewrite Hmake.
  unfold bind at 1, reads at 1. by rewrite Hfile.
Qed.

(** X16.  [copy] answers 404 for a source that the catalog does not hold
    and changes nothing.  For a source with its bytes, the destination
    gets a new resource made from that of the source: when the source
    carries a crc32c other than that of its bytes the answer is 400, when
    the bucket of the destination does not exist it is 404, and nothing is
    changed in either case.  Otherwise the handler answers with the
    resource exactly when the file system takes a file under the name of
    the destination; the destination then holds the bytes of the source
    and a resource with its own name and bucket, the size and the content
    type of the source, the digests of the bytes, every other writable
    field that the source has, and a metageneration one above the first;
    the resource of a source stored under another name is as it was, and
    so are its bytes when its key names another file. *)
Theorem copy_stores_a_verified_copy (storage : Storage) (time_id : Z)
    (now base_url bucket_name object_id dest_bucket_name dest_object_id
       : string) :
  let run := copy storage time_id now base_url bucket_name object_id
               dest_bucket_name dest_object_id in
  (get_file_obj storage bucket_name object_id = Raise NotFound →
   run = (storage, Ok StatusNotFound))
  ∧ ∀ (obj : resource) (content_type size : value) (file : bytes) (n : Z),
      get_file_obj storage bucket_name object_id = Ok obj →
      PyDict.get "contentType" obj = Some content_type →
      PyDict.get "size" obj = Some size →
      get_file storage bucket_name object_id = Ok file →
      int_of_str "1" = Some n →
      (truthy (field obj "crc32c") = true →
       field obj "crc32c" ≠ VStr (_crc32c file) →
       run = (storage,
              Ok (BadRequest (Crc32cMismatch (field obj "crc32c")
                                (_crc32c file)))))
      ∧ (truthy (field obj "crc32c") = false
         ∨ field obj "crc32c" = VStr (_crc32c file) →
         truthy (field obj "md5Hash") = false
         ∨ field obj "md5Hash" = VStr (_md5 file) →
         (PyDict.mem dest_bucket_name (buckets storage) = false →
          run = (storage, Ok StatusNotFound))
         ∧ (PyDict.mem dest_bucket_name (buckets storage) = true →
            transient dest_bucket_name = false →
            ((∃ dest_obj, run.2 = Ok (Json dest_obj))
             ↔ accepts storage dest_bucket_name dest_object_id = true)
            ∧ ∀ dest_obj,
                run.2 = Ok (Json dest_obj) →
                get_file run.1 dest_bucket_name dest_object_id = Ok file
                ∧ get_file_obj run.1 dest_bucket_name dest_object_id
                  = Ok dest_obj
                ∧ field dest_obj "name" = VStr dest_object_id
                ∧ field dest_obj "bucket" = VStr dest_bucket_name
                ∧ field dest_obj "size" = size
                ∧ field dest_obj "contentType" = content_type
                ∧ field dest_obj "crc32c" = VStr (_crc32c file)
                ∧ field dest_obj "md5Hash" = VStr (_md5 file)
                ∧ field dest_obj "metageneration" = VStr (py_str (n + 1))
                ∧ (∀ key, key ∈ _WRITABLE_FIELDS →
                          key ≠ "crc32c" → key ≠ "md5Hash" →
                          field obj key ≠ VNone →
                          field dest_obj key = field obj key)
                ∧ ((bucket_name, object_id)
                   ≠ (dest_bucket_name, dest_object_id) →
                   get_file_obj run.1 bucket_name object_id = Ok obj)
                ∧ (bucket_name ≠ dest_bucket_name
                   ∨ normpath object_id ≠ normpath dest_object_id →
                   get_file run.1 bucket_name object_id = Ok file))).
Proof.
  intros run. split.
  { intros Hobj. subst run. unfold copy. by rewrite Hobj. }
  intros obj content_type size file n Hobj Hct Hsize Hfile Hint.
  assert (Hne : obj ≠ []) by (by destruct obj).
  destruct (_make_object_resource_merged time_id now base_url
              dest_bucket_name dest_object_id content_type size obj n Hne
              Hint)
    as (base & dest0 & _ & Hmake & Hset & _).
  destruct (_make_object_resource_any time_id now base_url
              dest_bucket_name dest_object_id content_type size obj n Hint)
    as (dest0' & Hmake' & Hn & Hb & Hs & Hg & He & Hmg & Hct' & Hcrc & Hmd
        & _).
  assert (dest0' = dest0) as -> by congruence. clear Hmake'.
  assert (Hrun : run = _) by
    exact (copy_unfold storage time_id now base_url bucket_name object_id
             dest_bucket_name dest_object_id obj dest0 content_type size file
             Hobj Hct Hsize Hmake Hfile).
  destruct (checked_rejects file dest0) as [Hrc _]. rewrite Hcrc in Hrc.
  split.
  { intros Ht Hbad. by rewrite Hrun, store_checked, Hrc. }
  intros Hc Hm.
  destruct (checked_accepts file dest0) as
    (dest_obj & Hchecked & Hcrc' & Hmd' & He' & Hrest);
    [by rewrite Hcrc | by rewrite Hmd |].
  split.
  { intros Hmem. by rewrite Hrun, store_checked, Hchecked, Hmem. }
  intros Hmem Ht.
  destruct (store_checked_ok storage dest_bucket_name dest_object_id file
              dest0 dest_obj Json Hchecked Hmem Ht) as [Hret Hstored].
  rewrite <- Hrun in Hret, Hstored. clear Hrun. split.
  { rewrite <- Hret. split; [|by eauto].
    intros [dest_obj' Hobj']. by destruct (Hstored _ Hobj') as [<- _]. }
  intros dest_obj' Hobj'.
  destruct (Hstored _ Hobj') as [[= ->] Hcreate].
  destruct (create_file_stores _ _ _ _ _ _ Ht Hcreate)
    as (_ & _ & Hobjs & _ & _ & _ & Hgf & Hgo & Hdirs & p & Hp & Hnames).
  split_and!; try done.
  - unfold field. by rewrite Hrest, Hn.
  - unfold field. by rewrite Hrest, Hb.
  - unfold field. by rewrite Hrest, Hs.
  - assert (field dest_obj "contentType" = field dest0 "contentType") as ->.
    { unfold field. by rewrite Hrest. }
    rewrite Hct'. unfold field. rewrite Hct. by destruct content_type.
  - unfold field. by rewrite Hcrc'.
  - unfold field. by rewrite Hmd'.
  - unfold field. rewrite Hrest, Hmg by done. by destruct obj.
  - intros key Hin Hk1 Hk2 Hval. unfold field at 1.
    rewrite Hrest; [by rewrite (Hset key Hin Hval) | done | done |].
    intros ->. revert Hin. writable.
  - intros Hdiff. rewrite <- Hobj.
    by apply get_file_obj_install_ne with dest_bucket_name dest_object_id
                                          dest_obj.
  - intros Hdiff. rewrite <- Hfile.
    destruct (decide (bucket_name = dest_bucket_name)) as [-> | Hbucket].
    + destruct Hdiff as [? | Hdiff]; [done|].
      destruct (get_file_ok_path _ _ _ _ Ht Hfile) as [p' Hp'].
      apply (Hnames object_id p' Hp'). congruence.
    + by apply get_file_dir, Hdirs.
Qed.

(** X17.  [rewrite] does what [copy] does: it fails where [copy] fails,
    with the same answer, and where [copy] answers with the resource of
    the destination it leaves the same storage and answers with that
    resource, its size as the number of bytes written and [done]. *)
Theorem rewrite_follows_copy (storage : Storage) (time_id : Z)
    (now base_url bucket_name object_id dest_bucket_name dest_object_id
       : string) :
  rewrite storage time_id now base_url bucket_name object_id dest_bucket_name
    dest_object_id
  = match copy storage time_id now base_url bucket_name object_id
            dest_bucket_name dest_object_id with
    | (s, Ok (Json dest_obj)) =>
        (s, match subscript "size" dest_obj with
            | Ok written =>
                Ok (Json [ ("resource", VDict dest_obj);
                           ("written", written); ("size", written);
                           ("done", VBool true) ])
            | Raise e => Raise e
            end)
    | r => r
    end.
Proof.
  unfold rewrite, copy.
  destruct (get_file_obj storage bucket_name object_id) as [obj|[]]; try done.
  cbv beta delta [bind lift reads ret].
  destruct (subscript "contentType" obj) as [content_type|];
    cbn beta iota; [|done].
  destruct (subscript "size" obj) as [size|]; cbn beta iota; [|done].
  destruct (_make_object_resource _ _ _ _ _ _ _ _) as [dest0|];
    cbn beta iota; [|done].
  destruct (get_file storage bucket_name object_id) as [file|];
    cbn beta iota; [|done].
  destruct (checked file dest0) as [dest_obj|[]]; cbn beta iota; try done.
  destruct (create_file storage dest_bucket_name dest_object_id file dest_obj
              None) as [s' [[]|e]]; cbn beta iota.
  - cbn beta iota delta [or_status]. unfold subscript.
    by destruct (PyDict.get "size" dest_obj).
  - by destruct e.
Qed.

End Copies.
Section Compose.

Context `{Imports}.

(** ** Composing objects *)

(** The loop of [compose] once the content type is known: the bytes of the
    sources are appended in the order of the request. *)
Lemma compose_sources_known (storage : Storage) (bucket_name : string)
    (names : list string) (parts : list bytes) (content_type : value)
    (dest_file : bytes) :
  is_none content_type = false →
  Forall2 (λ name part, get_file storage bucket_name name = Ok part)
    names parts →
  compose_sources storage bucket_name names content_type dest_file
  = Ok (content_type, dest_file ++ concat parts).
Proof.
  intros Hct Hparts. revert dest_file.
  induction Hparts as [|name part names parts Hpart _ IH]; intros dest_file.
  - simpl. by rewrite app_nil_r.
  - simpl. rewrite Hct, Hpart, IH. by rewrite <- app_assoc.
Qed.

(** The loop stops at the first source without bytes. *)
Lemma compose_sources_missing (storage : Storage) (bucket_name : string)
    (names : list string) (parts : list bytes) (missing : string)
    (rest : list string) (content_type : value) (dest_file : bytes) :
  is_none content_type = false →
  Forall2 (λ name part, get_file storage bucket_name name = Ok part)
    names parts →
  get_file storage bucket_name missing = Raise NotFound →
  compose_sources storage bucket_name (names ++ missing :: rest) content_type
    dest_file
  = Raise NotFound.
Proof.
  intros Hct Hparts Hmissing. revert dest_file.
  induction Hparts as [|name part names parts Hpart _ IH]; intros dest_file.
  - simpl. by rewrite Hct, Hmissing.
  - simpl. by rewrite Hct, Hpart, IH.
Qed.

(** X18.  [compose] stores under the destination the bytes of the source
    objects, one after the other in the order of the request; the resource
    holds their number as size, their digests, and the content type of the
    first source unless the destination gives one.  Without sources the
    object is empty and has no content type of its own.  The handler
    answers with the resource exactly when the file system takes a file
    under the name of the destination.  When a source after the first has
    no bytes the answer is 404 and nothing is changed. *)
Theorem compose_concatenates (storage : Storage) (time_id : Z)
    (now base_url bucket_name object_id : string) (patch : resource)
    (names : list string) (parts : list bytes) (content_type : value)
    (n : Z) :
  Forall2 (λ name part, get_file storage bucket_name name = Ok part)
    names parts →
  match names with
  | [] => content_type = VNone
  | first :: _ =>
      ∃ temp, get_file_obj storage bucket_name first = Ok temp
              ∧ PyDict.get "contentType" temp = Some content_type
              ∧ is_none content_type = false
  end →
  int_of_str "1" = Some n →
  (∀ missing rest,
     names ≠ [] →
     get_file storage bucket_name missing = Raise NotFound →
     compose storage time_id now base_url bucket_name object_id (VDict patch)
       (names ++ missing :: rest)
     = (storage, Ok StatusNotFound))
  ∧ (truthy (field patch "crc32c") = false
     ∨ field patch "crc32c" = VStr (_crc32c (concat parts)) →
     truthy (field patch "md5Hash") = false
     ∨ field patch "md5Hash" = VStr (_md5 (concat parts)) →
     PyDict.mem bucket_name (buckets storage) = true →
     transient bucket_name = false →
     let run := compose storage time_id now base_url bucket_name object_id
                  (VDict patch) names in
     ((∃ dest_obj, run.2 = Ok (Json dest_obj))
      ↔ accepts storage bucket_name object_id = true)
     ∧ ∀ dest_obj,
         run.2 = Ok (Json dest_obj) →
         get_file run.1 bucket_name object_id = Ok (concat parts)
         ∧ get_file_obj run.1 bucket_name object_id = Ok dest_obj
         ∧ field dest_obj "size" = VInt (Z.of_nat (length (concat parts)))
         ∧ field dest_obj "contentType"
           = (if is_none (field patch "contentType") then content_type
              else field patch "contentType")
         ∧ field dest_obj "crc32c" = VStr (_crc32c (concat parts))
         ∧ field dest_obj "md5Hash" = VStr (_md5 (concat parts))
         ∧ field dest_obj "name" = VStr object_id).
Proof.
  intros Hparts Hfirst Hint.
  assert (Hloop : compose_sources storage bucket_name names VNone []
                  = Ok (content_type, concat parts)).
  { destruct Hparts as [|name part names parts Hpart Hparts].
    - by rewrite Hfirst.
    - destruct Hfirst as (temp & Htemp & Hct & Hnone).
      simpl. unfold subscript. rewrite Htemp, Hct, Hpart.
      by apply compose_sources_known. }
  split.
  - intros missing rest Hne Hmissing. unfold compose.
    destruct Hparts as [|name part names parts Hpart Hparts]; [done|].
    destruct Hfirst as (temp & Htemp & Hct & Hnone).
    simpl. unfold subscript. rewrite Htemp, Hct, Hpart.
    by rewrite (compose_sources_missing storage bucket_name names parts).
  - intros Hc Hm Hmem Ht run.
    destruct (_make_object_resource_any time_id now base_url bucket_name
                object_id content_type
                (VInt (Z.of_nat (length (concat parts)))) patch n Hint)
      as (dest0 & Hmake & Hn & Hb & Hs & Hg & He & Hmg & Hct & Hcrc & Hmd
          & _).
    destruct (checked_accepts (concat parts) dest0) as
      (dest_obj & Hchecked & Hcrc' & Hmd' & He' & Hrest);
      [by rewrite Hcrc | by rewrite Hmd |].
    destruct (store_checked_ok storage bucket_name object_id (concat parts)
                dest0 dest_obj Json Hchecked Hmem Ht) as [Hret Hstored].
    assert (Hrun : run = or_status
              ((dest_obj <- lift (checked (concat parts) dest0) ;;
                (fun s => create_file s bucket_name object_id (concat parts)
                            dest_obj None) ;;
                ret (Json dest_obj)) storage)).
    { subst run. unfold compose. rewrite Hloop.
      unfold bind at 1, lift at 1. by rewrite Hmake. }
    rewrite <- Hrun in Hret, Hstored. clear Hrun. split.
    { rewrite <- Hret. split; [|by eauto].
      intros [dest_obj' Hobj']. by destruct (Hstored _ Hobj') as [<- _]. }
    intros dest_obj' Hobj'.
    destruct (Hstored _ Hobj') as [[= ->] Hcreate].
    destruct (create_file_stores _ _ _ _ _ _ Ht Hcreate)
      as (_ & _ & _ & _ & _ & _ & Hgf & Hgo & _).
    split_and!; try done.
    + unfold field. by rewrite Hrest, Hs.
    + rewrite <- Hct. unfold field. by rewrite Hrest.
    + unfold field. by rewrite Hcrc'.
    + unfold field. by rewrite Hmd'.
    + unfold field. by rewrite Hrest, Hn.
Qed.

End Compose.

Section Download.

Context `{Imports}.

(** ** Downloading *)

(** A slice between two indices that are not negative, the second within
    the bytes. *)
Lemma bytes_slice_nonneg (start stop : Z) (b : bytes) :
  0 ≤ start → 0 ≤ stop ≤ Z.of_nat (length b) →
  bytes_slice start stop b
  = take (Z.to_nat (stop - start)) (drop (Z.to_nat start) b).
Proof.
  intros Hstart Hstop. unfold bytes_slice, slice_index. cbv zeta.
  assert ((start <? 0) = false) as -> by lia.
  assert ((stop <? 0) = false) as -> by lia.
  rewrite (Z.min_l stop) by lia.
  destruct (decide (start ≤ Z.of_nat (length b))) as [Hin | Hout].
  - by rewrite Z.min_l by lia.
  - rewrite Z.min_r by lia.
    rewrite !drop_ge by lia. by rewrite !take_nil.
Qed.

(** X19.  [download] answers 404 when the bytes are missing, or the
    resource beside bytes that are there; a key that the file system
    refuses to look up (it leads above the bucket) is not answered: what
    [get_file] raises goes through.  Without a [Range] header the body is
    the whole content and the hash header carries the crc32c and the
    md5Hash of the resource; a header that is not of the form
    [bytes=start-end] gives the whole content without hash header.  For
    [bytes=start-end] the answer is 206 with the bytes from [start] to
    [end], or to the last one when [end] is left out or lies beyond it,
    and a [Content-Range] that names the first and the last position
    served and the length of the whole; a start beyond the content gives
    an empty body, still with 206. *)
Theorem download_serves_the_range (storage : Storage)
    (bucket_name object_id : string) :
  (get_file storage bucket_name object_id = Raise NotFound
   ∨ (∃ file, get_file storage bucket_name object_id = Ok file)
     ∧ get_file_obj storage bucket_name object_id = Raise NotFound →
   ∀ range, download storage bucket_name object_id range
            = Ok DownloadNotFound)
  ∧ (∀ e, get_file storage bucket_name object_id = Raise e →
          e ≠ NotFound →
          e = IllegalBackReference
          ∧ ∀ range, download storage bucket_name object_id range = Raise e)
  ∧ ∀ (file : bytes) (obj : resource),
      get_file storage bucket_name object_id = Ok file →
      get_file_obj storage bucket_name object_id = Ok obj →
      (∀ crc md,
         PyDict.get "crc32c" obj = Some crc →
         PyDict.get "md5Hash" obj = Some md →
         download storage bucket_name object_id None
         = Ok (Whole (Some (crc, md)) (field obj "contentType") file))
      ∧ download storage bucket_name object_id (Some None)
        = Ok (Whole None (field obj "contentType") file)
      ∧ ∀ (m_start m_end : string) (start stop : Z),
          int_of_str m_start = Some start →
          0 ≤ start →
          (m_end = "" ∧ stop = Z.of_nat (length file))
          ∨ (∃ e, m_end ≠ "" ∧ int_of_str m_end = Some e ∧ 0 ≤ e
                  ∧ stop = Z.min (Z.of_nat (length file)) (e + 1)) →
          download storage bucket_name object_id
            (Some (Some (m_start, m_end)))
          = Ok (PartialContent
                  ("bytes " +:+ py_str start +:+ "-" +:+ py_str (stop - 1)
                   +:+ "/" +:+ py_str (Z.of_nat (length file)))
                  (field obj "contentType")
                  (take (Z.to_nat (stop - start))
                     (drop (Z.to_nat start) file)))
            ∧ (Z.of_nat (length file) ≤ start →
               take (Z.to_nat (stop - start)) (drop (Z.to_nat start) file)
               = []).
Proof.
  split; [|split].
  - intros Hmiss range. unfold download.
    destruct Hmiss as [-> | [[file ->] ->]]; done.
  - intros e Hraise Hne.
    destruct (get_file_raises _ _ _ _ Hraise) as [-> | ->]; [done|].
    split; [done|]. intros range. unfold download. by rewrite Hraise.
  - intros file obj Hfile Hobj. split_and!.
    + intros crc md Hcrc Hmd. unfold download, subscript.
      by rewrite Hfile, Hobj, Hcrc, Hmd.
    + unfold download. by rewrite Hfile, Hobj.
    + intros m_start m_end start stop Hstart Hnonneg Hend. split.
      * unfold download. rewrite Hfile, Hobj.
        assert (py_int (VStr m_start) = Ok start) as ->.
        { simpl. by rewrite Hstart. }
        destruct Hend as [[-> ->] | (e & Hne & He & Hpos & ->)].
        -- cbn [String.eqb negb]. by rewrite bytes_slice_nonneg by lia.
        -- apply String.eqb_neq in Hne. rewrite Hne. cbn [negb].
           assert (py_int (VStr m_end) = Ok e) as ->.
           { simpl. by rewrite He. }
           by rewrite bytes_slice_nonneg by lia.
      * intros Hbeyond. rewrite drop_ge by lia. apply take_nil.
Qed.

End Download.
Section Patching.

Context `{Imports}.

(** ** The handler of a patch *)

(** ** The handler of a patch *)

Lemma set_objects_same (f : dict (dict resource) → dict (dict resource))
    (self : Storage) :
  f (objects self) = objects self → set_objects f self = self.
Proof. intros Hf. unfold set_objects. rewrite Hf. by destruct self. Qed.

Lemma install_object_same (self : Storage)
    (bucket_name file_name : string) (file_obj : resource) :
  get_file_obj self bucket_name file_name = Ok file_obj →
  install_object bucket_name file_name file_obj (objects self)
  = objects self.
Proof.
  unfold get_file_obj, install_object.
  destruct (PyDict.get bucket_name (objects self)) as [d|] eqn:Ed; [|done].
  destruct (PyDict.get file_name d) as [r|] eqn:Er; [|done].
  intros [= ->]. by rewrite (set_same file_name), set_same.
Qed.

(** X20.  [_patch] returns nothing for an object that the catalog does not
    hold, and changes nothing.  For an object with a metageneration and a
    patch that holds something (with no [customTime] older than the stored
    one), it returns the patched resource: the catalog holds it under the
    same name, the snapshot is written, the metageneration is one higher,
    the writable fields that the patch gives are taken, and the bytes of
    every object are as they were. *)
Theorem _patch_installs_the_patch (storage : Storage)
    (bucket_name object_id : string) :
  (∀ metadata,
     get_file_obj storage bucket_name object_id = Raise NotFound →
     _patch storage bucket_name object_id metadata = (storage, Ok None))
  ∧ ∀ (obj patch : resource) (mg : value) (n : Z),
      get_file_obj storage bucket_name object_id = Ok obj →
      patch ≠ [] →
      PyDict.get "metageneration" obj = Some mg →
      py_int mg = Ok n →
      truthy (field obj "customTime") = false
      ∨ field patch "customTime" = VNone
      ∨ py_gt (field obj "customTime") (field patch "customTime")
        = Ok false →
      ∃ s' obj',
        _patch storage bucket_name object_id (VDict patch)
        = (s', Ok (Some obj'))
        ∧ get_file_obj s' bucket_name object_id = Ok obj'
        ∧ persisted s'
        ∧ _fs s' = _fs storage
        ∧ PyDict.get "metageneration" obj' = Some (VStr (py_str (n + 1)))
        ∧ (∀ key, key ∈ _WRITABLE_FIELDS → field patch key ≠ VNone →
                  PyDict.get key obj' = Some (field patch key))
        ∧ (∀ key, key ∉ _WRITABLE_FIELDS ∨ field patch key = VNone →
                  key ≠ "metageneration" →
                  PyDict.get key obj' = PyDict.get key obj).
Proof.
  split.
  - intros metadata Hobj. unfold _patch. by rewrite Hobj.
  - intros obj patch mg n Hobj Hne Hmg Hn Hct.
    destruct (_patch_object_run obj patch mg n Hne Hmg Hn Hct)
      as (obj' & Hrun & Hset & Hkeep & Hmg').
    unfold _patch. rewrite Hobj, Hrun.
    unfold get_file_obj in Hobj.
    destruct (PyDict.get bucket_name (objects storage)) as [d|] eqn:Ed;
      [|done].
    unfold patch_object, install_object. simpl. rewrite Ed. simpl.
    rewrite !get_set_eq.
    destruct obj' as [|item obj']; [done|].
    eexists _, _. split; [reflexivity|]. split_and!; try done.
    unfold get_file_obj. simpl. by rewrite !get_set_eq.
Qed.

(** X21.  An object that [complete_multipart_upload] has made from a
    session without metageneration (those of [create_xml_multipart_upload]
    have none) cannot be patched: once completion has returned (it does
    when the file system takes a file under the key), [_patch] with a
    patch that holds something raises [KeyError] for the metageneration,
    and the storage is as completion left it. *)
Theorem _patch_after_complete_multipart_upload (self : Storage)
    (now upload_id : string) (upload : resource)
    (bucket_name file_name : string) (metadata : value) :
  PyDict.get upload_id (multipart self) = Some upload →
  field upload "bucket_name" = VStr bucket_name →
  field upload "id" = VStr file_name →
  truthy (field upload "crc32c") = false →
  truthy (field upload "md5Hash") = false →
  PyDict.get "metageneration" upload = None →
  truthy metadata = true →
  transient bucket_name = false →
  let s' := (complete_multipart_upload self now upload_id).1 in
  let res := (complete_multipart_upload self now upload_id).2 in
  (res = Ok tt ↔ accepts self bucket_name file_name = true)
  ∧ (res = Ok tt →
     _patch s' bucket_name file_name metadata
     = (s', Raise (KeyError "metageneration"))).
Proof.
  intros Hu Hb Hf Hc Hm Hmg Hmeta Ht s' res. subst s' res.
  assert (Hne : bucket_name ≠ MULTIPART_DIR).
  { intros ->. by rewrite transient_multipart in Ht. }
  split.
  { by apply (complete_multipart_upload_returns self now upload_id upload). }
  destruct (complete_multipart_upload self now upload_id) as [s' res]
    eqn:Hrun.
  cbn [fst snd]. intros ->.
  destruct (complete_multipart_upload_run self s' now upload_id upload
              bucket_name file_name Hu Hb Hf Hc Hm Ht Hrun)
    as (file_obj & Hchecked & _ & _ & _ & _ & _ & _ & _ & Hobj & _).
  cbv zeta in Hchecked.
  set (content := concat (spec_parts (Z.to_nat 10000) 1 (safe_id upload_id)
                            self)) in *.
  destruct (checked_accepts content
              (PyDict.union upload
                 [("size", VInt (Z.of_nat (length content)));
                  ("updated", VStr now)]))
    as (file_obj' & Hchecked' & _ & _ & _ & Hrest).
  { left. by rewrite field_union_2. }
  { left. by rewrite field_union_2. }
  assert (file_obj' = file_obj) as -> by congruence.
  unfold _patch. rewrite Hobj.
  unfold _patch_object. rewrite Hmeta.
  unfold bind at 1, reads, subscript.
  rewrite Hrest by done.
  unfold PyDict.union. cbn [fold_left fst snd].
  rewrite !get_set_ne, Hmg by done.
  by rewrite set_objects_same by (by apply install_object_same).
Qed.

End Patching.
(** * The theorems at concrete inputs

    The imported functions are the stand-ins. *)

#[local] Existing Instance stand_in.

Lemma checksums_reconcile_witness :
  truthy (field [("crc32c", VStr "abd")] "crc32c") = true
  ∧ field [("crc32c", VStr "abd")] "crc32c" ≠ VStr (_crc32c (B "abc"))
  ∧ (checksums (B "abc") [("crc32c", VStr "abd")]).2
    = Raise (Conflict (Crc32cMismatch (VStr "abd") "abc"))
  ∧ (checksums (B "abc") [("crc32c", VStr "abd")]).1
    = [("crc32c", VStr "abd")]
  ∧ int_of_str "1" = Some 1
  ∧ _multipart_upload one_bucket 0 "t1" "" "b" "k" (VStr "text/plain")
      (VDict [("crc32c", VStr "abd")]) (B "abc")
    = (one_bucket, Raise (Conflict (Crc32cMismatch (VStr "abd") "abc"))).
Proof.
  pose proof (checksums_reconcile (B "abc") [("crc32c", VStr "abd")]) as Hthm.
  cbv zeta in Hthm.
  destruct Hthm as (_ & _ & _ & Hconflict & _ & _ & _ & _ & Hhandler & _).
  assert (Hcarried : truthy (field [("crc32c", VStr "abd")] "crc32c") = true)
    by reflexivity.
  assert (Hdiff : field [("crc32c", VStr "abd")] "crc32c"
                  ≠ VStr (_crc32c (B "abc"))) by discriminate.
  assert (Hint : int_of_str "1" = Some 1) by reflexivity.
  destruct (Hhandler one_bucket 0 "t1" "" "b" "k" (VStr "text/plain") 1 Hint)
    as (Hrefused & _).
  split; [exact Hcarried|]. split; [exact Hdiff|].
  split; [exact (proj1 (Hconflict Hcarried Hdiff))|].
  split; [exact (proj2 (Hconflict Hcarried Hdiff))|].
  split; [exact Hint|]. exact (Hrefused Hcarried Hdiff).
Defined.

Lemma complete_multipart_upload_assembles_witness :
  PyDict.get "b:k:t0" (multipart one_session) = Some one_session_resource
  ∧ field one_session_resource "bucket_name" = VStr "b"
  ∧ field one_session_resource "id" = VStr "k"
  ∧ truthy (field one_session_resource "crc32c") = false
  ∧ truthy (field one_session_resource "md5Hash") = false
  ∧ transient "b" = false
  ∧ accepts one_session "b" "k" = true
  ∧ get_file one_session MULTIPART_DIR (part_file_id (safe_id "b:k:t0") 4)
    = Raise NotFound
  ∧ (let add := fun s n c => (add_to_multipart_upload s "b:k:t0" n c).1 in
     let s := add (add (add one_session 3 (B "ef")) 1 (B "ab")) 2 (B "cd") in
     (complete_multipart_upload s "t1" "b:k:t0").2 = Ok tt
     ∧ get_file (complete_multipart_upload s "t1" "b:k:t0").1 "b" "k"
       = Ok (B "abcdef")).
Proof.
  pose proof (complete_multipart_upload_assembles one_session "t1" "b:k:t0"
                one_session_resource "b" "k"
                eq_refl eq_refl eq_refl eq_refl eq_refl eq_refl) as Hthm.
  cbv zeta in Hthm. destruct Hthm as (_ & Haccepted).
  assert (Hacc : accepts one_session "b" "k" = true) by reflexivity.
  destruct (Haccepted Hacc) as (_ & _ & Hexample & _).
  do 6 (split; [reflexivity|]). split; [exact Hacc|].
  split; [reflexivity|].
  exact (Hexample eq_refl).
Defined.

(** C2, as stated, fails for a session whose key the file system does not
    take as the name of a file.  The session here is for the key [a/] and
    has its part 1: completion reads the part and deletes it, then raises
    [FileExpected]; no content is stored under the key, and no
    resource. *)
Lemma complete_multipart_upload_folder_key :
  PyDict.get "b:a/:t0" (multipart folder_session)
  = Some folder_session_resource
  ∧ get_file folder_session MULTIPART_DIR
      (part_file_id (safe_id "b:a/:t0") 1) = Ok (B "ab")
  ∧ accepts folder_session "b" "a/" = false
  ∧ (complete_multipart_upload folder_session "t1" "b:a/:t0").2
    = Raise FileExpected
  ∧ get_file (complete_multipart_upload folder_session "t1" "b:a/:t0").1
      "b" "a/" = Raise NotFound
  ∧ get_file_obj (complete_multipart_upload folder_session "t1" "b:a/:t0").1
      "b" "a/" = Raise NotFound
  ∧ get_file (complete_multipart_upload folder_session "t1" "b:a/:t0").1
      MULTIPART_DIR (part_file_id (safe_id "b:a/:t0") 1) = Raise NotFound.
Proof. split_and!; vm_compute; reflexivity. Qed.

Lemma complete_multipart_upload_keeps_session_witness :
  let s := (add_to_multipart_upload one_session "b:k:t0" 1 (B "ab")).1 in
  let s' := (complete_multipart_upload s "t1" "b:k:t0").1 in
  (complete_multipart_upload s "t1" "b:k:t0").2 = Ok tt
  ∧ PyDict.mem "b:k:t0" (multipart s') = true
  ∧ (add_to_multipart_upload s' "b:k:t0" 1 (B "zz")).2 = Ok tt
  ∧ (complete_multipart_upload s' "t2" "b:k:t0").2 ≠ Raise NotFound.
Proof.
  intros s s'.
  assert (Hok : (complete_multipart_upload s "t1" "b:k:t0").2 = Ok tt)
    by (vm_compute; reflexivity).
  pose proof (complete_multipart_upload_keeps_session s "t1" "b:k:t0" Hok)
    as Hthm.
  cbv zeta in Hthm. destruct Hthm as (_ & Hmem & Hadd & Hagain).
  split; [exact Hok|]. split; [exact Hmem|].
  split; [exact (Hadd 1 (B "zz")) | exact (Hagain "t2")].
Defined.

Lemma add_to_resumable_upload_accumulates_witness :
  get_file empty_storage RESUMABLE_DIR (safe_id "b:k:t0") = Raise NotFound
  ∧ length (B "abcd") = 4%nat
  ∧ length (B "efghij") = 6%nat
  ∧ (let first := add_to_resumable_upload empty_storage "b:k:t0" (B "abcd") 10 in
     let second := add_to_resumable_upload first.1 "b:k:t0" (B "efghij") 10 in
     first.2 = Ok None
     ∧ resumable_buffer first.1 "b:k:t0" = B "abcd"
     ∧ second.2 = Ok (Some (B "abcd" ++ B "efghij"))
     ∧ length (B "abcd" ++ B "efghij") = 10%nat).
Proof.
  destruct (add_to_resumable_upload_accumulates empty_storage "b:k:t0")
    as [_ Hexample].
  do 3 (split; [reflexivity|]).
  exact (Hexample (B "abcd") (B "efghij") eq_refl eq_refl eq_refl).
Defined.

Lemma add_to_resumable_upload_fresh_witness :
  get_file empty_storage RESUMABLE_DIR (safe_id "b:k:t0") = Raise NotFound
  ∧ (add_to_resumable_upload empty_storage "b:k:t0" (B "abcd") 10).2
    ≠ Raise NotFound
  ∧ get_file (add_to_resumable_upload empty_storage "b:k:t0" (B "abcd") 10).1
      RESUMABLE_DIR (safe_id "b:k:t0") = Ok (B "abcd").
Proof.
  pose proof (add_to_resumable_upload_fresh empty_storage "b:k:t0" (B "abcd")
                10 eq_refl) as Hthm.
  cbv zeta in Hthm. destruct Hthm as (_ & Hnot & Hbuffer).
  split; [reflexivity|]. split; [exact Hnot | exact Hbuffer].
Defined.

Lemma create_file_round_trip_witness :
  PyDict.mem "b" (buckets one_bucket) = true
  ∧ transient "b" = false
  ∧ has_size [("name", VStr "k"); ("size", VStr "3")] (length (B "abc"))
  ∧ accepts one_bucket "b" "k" = true
  ∧ (create_file one_bucket "b" "k" (B "abc")
       [("name", VStr "k"); ("size", VStr "3")] None).2 = Ok tt
  ∧ get_file one_object "b" "k" = Ok (B "abc")
  ∧ (∃ installed,
       get_file_obj one_object "b" "k" = Ok installed
       ∧ has_size installed (length (B "abc")))
  ∧ accepts one_bucket "b" "a/" = false
  ∧ (create_file one_bucket "b" "a/" (B "abc")
       [("name", VStr "a/"); ("size", VStr "3")] None).2
    = Raise FileExpected.
Proof.
  assert (Hsize : has_size [("name", VStr "k"); ("size", VStr "3")]
                    (length (B "abc"))) by (left; reflexivity).
  pose proof (create_file_round_trip one_bucket "b" "k" (B "abc")
                [("name", VStr "k"); ("size", VStr "3")] eq_refl eq_refl
                Hsize) as Hthm.
  cbv zeta in Hthm. destruct Hthm as (Hreturns & Hstored).
  assert (Hacc : accepts one_bucket "b" "k" = true) by reflexivity.
  destruct (Hstored (proj2 Hreturns Hacc))
    as (Hbytes & installed & Hobj & _ & Hsz).
  split; [reflexivity|]. split; [reflexivity|]. split; [exact Hsize|].
  split; [exact Hacc|]. split; [exact (proj2 Hreturns Hacc)|].
  split; [exact Hbytes|]. split.
  - exists installed. split; [exact Hobj | exact Hsz].
  - split; reflexivity.
Defined.

Lemma delete_bucket_guards_witness :
  (PyDict.mem "b" (buckets one_object) = true
   ∧ get_file_obj one_object "b" "k"
     = Ok [("name", VStr "k"); ("size", VStr "3")]
   ∧ (delete_bucket one_object "b").2 = Raise (Conflict (BucketNotEmpty "b")))
  ∧ (PyDict.mem "b" (buckets one_resumable) = true
     ∧ (delete_bucket one_resumable "b").2
       = Raise (Conflict (PendingUploads "b"))
     ∧ (delete_bucket one_resumable "b").1 = one_resumable)
  ∧ (PyDict.mem "b" (buckets one_bucket) = true
     ∧ (delete_bucket one_bucket "b").2 = Ok tt
     ∧ PyDict.mem "b" (buckets (delete_bucket one_bucket "b").1) = false).
Proof.
  split; [|split].
  - pose proof (delete_bucket_guards one_object "b") as Hthm.
    cbv zeta in Hthm. destruct Hthm as (_ & Hfull & _).
    split; [reflexivity|]. split; [reflexivity|].
    apply Hfull; [reflexivity|].
    exists "k", [("name", VStr "k"); ("size", VStr "3")]. reflexivity.
  - pose proof (delete_bucket_guards one_resumable "b") as Hthm.
    cbv zeta in Hthm. destruct Hthm as (_ & _ & _ & Hpending & _ & Hsame).
    assert (Hres : (delete_bucket one_resumable "b").2
                   = Raise (Conflict (PendingUploads "b"))).
    { apply Hpending; [reflexivity| |].
      - intros (file_name & file_obj & Hget). discriminate Hget.
      - exists "b:k:t0", [("name", VStr "k"); ("bucket", VStr "b")].
        split; [apply list_elem_of_here | reflexivity]. }
    split; [reflexivity|]. split; [exact Hres|]. exact (Hsame _ Hres).
  - pose proof (delete_bucket_guards one_bucket "b") as Hthm.
    cbv zeta in Hthm. destruct Hthm as (_ & _ & _ & _ & Hfree & _).
    assert (Hempty : ¬ ∃ file_name file_obj,
                         get_file_obj one_bucket "b" file_name = Ok file_obj).
    { intros (file_name & file_obj & Hget). discriminate Hget. }
    assert (Hfree' : ¬ ∃ file_id session,
                         (file_id, session) ∈ PyDict.items (resumable one_bucket)
                         ∧ field session "bucket" = VStr "b").
    { intros (file_id & session & Hin & _). by apply elem_of_nil in Hin. }
    destruct (Hfree eq_refl Hempty Hfree') as (Hok & _ & Hgone & _).
    split; [reflexivity|]. split; [exact Hok | exact Hgone].
Defined.

Lemma _patch_object_older_custom_time_witness :
  PyDict.get "metageneration" stored_object = Some (VStr "1")
  ∧ py_int (VStr "1") = Ok 1
  ∧ PyDict.get "customTime" stored_object = Some (VStr "2021-01-01T00:00:00Z")
  ∧ PyDict.get "customTime" older_patch = Some (VStr "2020-01-01T00:00:00Z")
  ∧ String.ltb "2020-01-01T00:00:00Z" "2021-01-01T00:00:00Z" = true
  ∧ ∃ obj',
      _patch_object stored_object (VDict older_patch) = (obj', Ok tt)
      ∧ PyDict.get "customTime" obj' = Some (VStr "2021-01-01T00:00:00Z")
      ∧ PyDict.get "storageClass" obj' = Some (VStr "COLDLINE")
      ∧ PyDict.get "contentType" obj' = Some (VStr "text/plain")
      ∧ PyDict.get "name" obj' = Some (VStr "k")
      ∧ PyDict.get "metageneration" obj' = Some (VStr "2").
Proof.
  assert (Hint : py_int (VStr "1") = Ok 1) by reflexivity.
  destruct (_patch_object_older_custom_time stored_object older_patch
              (VStr "1") 1 "2021-01-01T00:00:00Z" "2020-01-01T00:00:00Z"
              eq_refl Hint eq_refl eq_refl eq_refl)
    as (obj' & Hrun & Htime & Hset & Hnull & Hkeep & Hgen).
  do 5 (split; [reflexivity|]).
  exists obj'. split; [exact Hrun|]. split; [exact Htime|].
  split; [|split; [|split]].
  - apply Hset; [|discriminate|reflexivity|discriminate].
    unfold _WRITABLE_FIELDS. do 9 apply list_elem_of_further.
    apply list_elem_of_here.
  - rewrite Hnull; [reflexivity| |by right].
    unfold _WRITABLE_FIELDS. do 4 apply list_elem_of_further.
    apply list_elem_of_here.
  - rewrite Hkeep; [reflexivity| |discriminate].
    unfold _WRITABLE_FIELDS. rewrite !elem_of_cons, elem_of_nil.
    intuition discriminate.
  - exact Hgen.
Defined.

(** C8, as stated, fails: a writable field that is present in the patch
    with the value [null] is not overwritten.  Here the patch holds
    [contentType: null] next to an older [customTime]; the call returns and
    the stored content type is still [text/plain].  And an object without
    metageneration is not patched at all: the first statement of
    [_patch_object] raises [KeyError]. *)
Lemma _patch_object_null_field_kept :
  "contentType" ∈ _WRITABLE_FIELDS
  ∧ PyDict.get "contentType" null_patch = Some VNone
  ∧ PyDict.get "contentType" stored_object = Some (VStr "text/plain")
  ∧ _patch_object stored_object (VDict null_patch)
    = ([ ("name", VStr "k"); ("metageneration", VStr "2");
         ("contentType", VStr "text/plain");
         ("customTime", VStr "2021-01-01T00:00:00Z");
         ("storageClass", VStr "STANDARD") ], Ok tt)
  ∧ PyDict.get "contentType" (_patch_object stored_object (VDict null_patch)).1
    ≠ PyDict.get "contentType" null_patch
  ∧ _patch_object (named "k") (VDict older_patch)
    = (named "k", Raise (KeyError "metageneration")).
Proof.
  split.
  - unfold _WRITABLE_FIELDS. do 4 apply list_elem_of_further.
    apply list_elem_of_here.
  - do 3 (split; [reflexivity|]). split; [discriminate|reflexivity].
Qed.

(** ** More of the code at concrete inputs *)

(** ** More of the code at concrete inputs *)

Lemma mutations_reach_the_snapshot_witness :
  (create_file one_bucket "b" "k" (B "abc")
     [("name", VStr "k"); ("size", VStr "3")] None).2 = Ok tt
  ∧ _read_config_from_file one_object = one_object
  ∧ _read_config_from_file one_bucket = one_bucket
  ∧ _read_config_from_file
      (add_to_resumable_upload one_bucket "b:k:t0" (B "abcd") 10).1
    = (add_to_resumable_upload one_bucket "b:k:t0" (B "abcd") 10).1.
Proof.
  pose proof (mutations_reach_the_snapshot one_bucket) as Hthm.
  cbv zeta in Hthm.
  destruct Hthm as (_ & Hcreate & _ & _ & _ & _ & _ & _ & Hadd).
  split; [reflexivity|]. split; [|split; [reflexivity|]].
  - exact (Hcreate "b" "k" (B "abc") [("name", VStr "k"); ("size", VStr "3")]
             None eq_refl).
  - exact (Hadd "b:k:t0" (B "abcd") 10 eq_refl).
Defined.

Lemma delete_file_removes_witness :
  get_file_obj one_object "b" "k"
  = Ok [("name", VStr "k"); ("size", VStr "3")]
  ∧ transient "b" = false
  ∧ normpath "k" = Ok ["k"]
  ∧ get_file one_object "b" "k" = Ok (B "abc")
  ∧ (delete_file one_object "b" "k").2 = Ok tt
  ∧ get_file_obj (delete_file one_object "b" "k").1 "b" "k" = Raise NotFound
  ∧ get_file (delete_file one_object "b" "k").1 "b" "k" = Raise NotFound
  ∧ buckets (delete_file one_object "b" "k").1 = buckets one_object
  ∧ persisted (delete_file one_object "b" "k").1.
Proof.
  destruct (delete_file_removes one_object "b" "k") as [_ Hheld].
  pose proof (Hheld [("name", VStr "k"); ("size", VStr "3")] eq_refl eq_refl)
    as Hthm.
  cbv zeta in Hthm. destruct Hthm as (Hreturns & Hgone).
  assert (Hpath : ["k"] ≠ []) by discriminate.
  pose proof (Hreturns ["k"] (B "abc") eq_refl Hpath eq_refl) as Hok.
  destruct (Hgone Hok) as (Hobj & Hbytes & _ & _ & Hbuckets & Hmeta).
  do 4 (split; [reflexivity|]). by split_and!.
Defined.

Lemma create_file_retires_session_witness :
  PyDict.mem "b" (buckets one_resumable) = true
  ∧ transient "b" = false
  ∧ PyDict.mem "b:k:t0" (resumable one_resumable) = true
  ∧ accepts one_resumable "b" "k" = true
  ∧ (let r := create_file one_resumable "b" "k" (B "abc")
                [("name", VStr "k"); ("bucket", VStr "b")] (Some "b:k:t0") in
     r.2 = Ok tt
     ∧ get_file r.1 "b" "k" = Ok (B "abc")
     ∧ get_resumable_file_obj r.1 "b:k:t0" = Raise NotFound
     ∧ get_file r.1 RESUMABLE_DIR (safe_id "b:k:t0") = Raise NotFound
     ∧ persisted r.1).
Proof.
  assert (Hid : "b:k:t0" ≠ "") by discriminate.
  pose proof (create_file_retires_session one_resumable "b" "k" (B "abc")
                [("name", VStr "k"); ("bucket", VStr "b")] "b:k:t0"
                eq_refl eq_refl Hid eq_refl) as Hthm.
  cbv zeta in Hthm. destruct Hthm as (Hreturns & Hstored).
  assert (Hacc : accepts one_resumable "b" "k" = true) by reflexivity.
  destruct (Hstored (proj2 Hreturns Hacc))
    as (Hbytes & _ & Hsession & Hbuffer & Hmeta).
  do 3 (split; [reflexivity|]). split; [exact Hacc|]. cbv zeta.
  split; [exact (proj2 Hreturns Hacc)|]. by split_and!.
Defined.

Lemma create_file_unknown_session_witness :
  PyDict.mem "b" (buckets one_bucket) = true
  ∧ transient "b" = false
  ∧ PyDict.mem "nope" (resumable one_bucket) = false
  ∧ accepts one_bucket "b" "k" = true
  ∧ (let r := create_file one_bucket "b" "k" (B "abc")
                [("name", VStr "k")] (Some "nope") in
     r.2 = Raise NotFound
     ∧ get_file r.1 "b" "k" = Ok (B "abc")
     ∧ get_file_obj r.1 "b" "k" = Ok [("name", VStr "k")]
     ∧ meta r.1 = meta one_bucket).
Proof.
  assert (Hid : "nope" ≠ "") by discriminate.
  pose proof (create_file_unknown_session one_bucket "b" "k" (B "abc")
                [("name", VStr "k")] "nope" eq_refl eq_refl Hid eq_refl)
    as Hthm.
  cbv zeta in Hthm. destruct Hthm as (Hraises & Hstored).
  assert (Hacc : accepts one_bucket "b" "k" = true) by reflexivity.
  destruct (Hstored (proj2 Hraises Hacc)) as (Hbytes & Hobj & Hmeta & _).
  do 3 (split; [reflexivity|]). split; [exact Hacc|]. cbv zeta.
  split; [exact (proj2 Hraises Hacc)|]. by split_and!.
Defined.

Lemma wipe_resets_witness :
  NoDup (PyDict.keys (buckets one_object))
  ∧ buckets (wipe one_object true) = buckets one_object
  ∧ objects (wipe one_object true) = []
  ∧ (∀ b k, get_file_obj (wipe one_object true) b k = Raise NotFound)
  ∧ multipart (wipe one_session false) = multipart one_session.
Proof.
  assert (Hnd : NoDup (PyDict.keys (buckets one_object)))
    by apply (NoDup_singleton "b").
  destruct (wipe_resets one_object) as [_ Hkeep].
  pose proof (Hkeep Hnd) as Hthm. cbv zeta in Hthm.
  destruct Hthm as (Hbuckets & Hobjects & _ & _ & _ & _ & Hnone).
  destruct (wipe_resets one_session) as [Hall _]. cbv zeta in Hall.
  destruct Hall as (_ & _ & _ & _ & _ & Hmulti & _).
  by split_and!.
Defined.

Lemma create_bucket_overwrites_witness :
  PyDict.mem "b" (buckets one_object) = true
  ∧ (let r := create_bucket one_object "b" [("name", VStr "again")] in
     get_bucket r.1 "b" = Some [("name", VStr "again")]
     ∧ PyDict.keys (buckets r.1) = PyDict.keys (buckets one_object)
     ∧ get_file_obj r.1 "b" "k" = get_file_obj one_object "b" "k"
     ∧ get_file r.1 "b" "k" = get_file one_object "b" "k").
Proof.
  pose proof (create_bucket_overwrites one_object "b"
                [("name", VStr "again")]) as Hthm.
  cbv zeta in Hthm.
  destruct Hthm as (_ & Hget & _ & Hobjs & Hbytes & Hkeys).
  split; [reflexivity|]. cbv zeta. split_and!.
  - exact Hget.
  - exact (Hkeys eq_refl).
  - exact (Hobjs "b" "k").
  - exact (Hbytes "b" "k").
Defined.

Lemma create_file_is_listed_witness :
  (create_file one_bucket "b" "a/k" (B "abc") (named "a/k") None).2 = Ok tt
  ∧ String.prefix "a/" "a/k" = true
  ∧ contains "/" (str_drop (String.length "a/") "a/k") = false
  ∧ ∃ objs prefixes,
      get_file_list
        (create_file one_bucket "b" "a/k" (B "abc") (named "a/k") None).1
        "b" (Some "a/") (Some "/")
      = Ok (objs, prefixes)
      ∧ named "a/k" ∈ objs.
Proof.
  assert (Hplain : given (Some "a/") = false
                   ∨ given (Some "/") = false
                   ∨ contains (or_empty (Some "/"))
                       (str_drop (String.length (or_empty (Some "a/")))
                          "a/k") = false)
    by (right; right; reflexivity).
  assert (Hok : (create_file one_bucket "b" "a/k" (B "abc") (named "a/k")
                   None).2 = Ok tt) by reflexivity.
  pose proof (create_file_is_listed one_bucket "b" "a/k" (B "abc")
                (named "a/k") (Some "a/") (Some "/") Hok eq_refl Hplain)
    as Hthm.
  cbv zeta in Hthm.
  split; [exact Hok|]. do 2 (split; [reflexivity|]). exact Hthm.
Defined.

Lemma add_to_multipart_upload_overwrites_witness :
  PyDict.mem "b:k:t0" (multipart one_session) = true
  ∧ (let s1 := (add_to_multipart_upload one_session "b:k:t0" 1 (B "ab")).1 in
     let r := add_to_multipart_upload s1 "b:k:t0" 1 (B "cd") in
     r.2 = Ok tt
     ∧ get_file r.1 MULTIPART_DIR (part_file_id (safe_id "b:k:t0") 1)
       = Ok (B "cd")
     ∧ same_catalog one_session r.1)
  ∧ add_to_multipart_upload one_bucket "b:k:t0" 1 (B "ab")
    = (one_bucket, Raise NotFound).
Proof.
  destruct (add_to_multipart_upload_overwrites one_session "b:k:t0")
    as [_ Hknown].
  pose proof (Hknown eq_refl 1 (B "ab") (B "cd")) as Hthm.
  cbv zeta in Hthm. destruct Hthm as (Hok & Hpart & Hcat & _).
  destruct (add_to_multipart_upload_overwrites one_bucket "b:k:t0")
    as [Hunknown _].
  split; [reflexivity|]. split.
  - cbv zeta. by split_and!.
  - exact (Hunknown eq_refl 1 (B "ab")).
Defined.

Lemma complete_multipart_upload_leaves_trailing_parts_witness :
  PyDict.get "b:k:t0" (multipart parts_1_and_3) = Some one_session_resource
  ∧ get_file parts_1_and_3 MULTIPART_DIR (part_file_id (safe_id "b:k:t0") 2)
    = Raise NotFound
  ∧ get_file parts_1_and_3 MULTIPART_DIR (part_file_id (safe_id "b:k:t0") 3)
    = Ok (B "ef")
  ∧ get_file (complete_multipart_upload parts_1_and_3 "t1" "b:k:t0").1
      MULTIPART_DIR (part_file_id (safe_id "b:k:t0") 3)
    = get_file parts_1_and_3 MULTIPART_DIR
        (part_file_id (safe_id "b:k:t0") 3).
Proof.
  assert (Hne : "b" ≠ MULTIPART_DIR) by discriminate.
  assert (Hbeyond :
            1 + Z.of_nat (length (spec_parts (Z.to_nat 10000) 1
                                    (safe_id "b:k:t0") parts_1_and_3)) ≤ 3).
  { vm_compute. discriminate. }
  pose proof (complete_multipart_upload_leaves_trailing_parts parts_1_and_3
                "t1" "b:k:t0" one_session_resource "b" "k"
                eq_refl eq_refl eq_refl eq_refl eq_refl Hne 3 Hbeyond)
    as Hthm.
  do 3 (split; [reflexivity|]). exact Hthm.
Defined.

Lemma complete_multipart_upload_after_delete_bucket_witness :
  PyDict.get "b:k:t0" (multipart one_session) = Some one_session_resource
  ∧ transient "b" = false
  ∧ (delete_bucket one_session "b").2 = Ok tt
  ∧ accepts (delete_bucket one_session "b").1 "b" "k" = true
  ∧ (let s1 := (delete_bucket one_session "b").1 in
     let r := complete_multipart_upload s1 "t1" "b:k:t0" in
     r.2 = Ok tt
     ∧ PyDict.mem "b" (buckets r.1) = false
     ∧ (∃ file_obj, get_file_obj r.1 "b" "k" = Ok file_obj)
     ∧ get_file_list r.1 "b" None None = Raise NotFound).
Proof.
  assert (Hdeleted : (delete_bucket one_session "b").2 = Ok tt)
    by reflexivity.
  pose proof (complete_multipart_upload_after_delete_bucket one_session "t1"
                "b:k:t0" one_session_resource "b" "k"
                eq_refl eq_refl eq_refl eq_refl eq_refl eq_refl Hdeleted)
    as Hthm.
  cbv zeta in Hthm.
  destruct Hthm as (_ & _ & Hreturns & Hstored).
  assert (Hacc : accepts (delete_bucket one_session "b").1 "b" "k" = true)
    by reflexivity.
  destruct (Hstored (proj2 Hreturns Hacc)) as (Hgone & Hobj & _ & Hlist).
  split; [reflexivity|]. split; [reflexivity|]. split; [exact Hdeleted|].
  split; [exact Hacc|]. cbv zeta. split_and!.
  - exact (proj2 Hreturns Hacc).
  - exact Hgone.
  - exact Hobj.
  - exact (Hlist None None).
Defined.

Lemma checksums_binds_the_content_witness :
  let accepted :=
    [ ("crc32c", VStr (_crc32c (B "abc"))); ("md5Hash", VStr (_md5 (B "abc")));
      ("etag", VStr (_md5 (B "abc"))) ] in
  checksums (B "abc") [] = (accepted, Ok tt)
  ∧ checksums (B "abc") accepted = (accepted, Ok tt)
  ∧ _crc32c (B "abd") ≠ _crc32c (B "abc")
  ∧ checksums (B "abd") accepted
    = (accepted,
       Raise (Conflict (Crc32cMismatch (VStr (_crc32c (B "abc")))
                          (_crc32c (B "abd"))))).
Proof.
  intros accepted.
  assert (Hrun : checksums (B "abc") [] = (accepted, Ok tt)) by reflexivity.
  destruct (checksums_binds_the_content (B "abc") [] accepted Hrun)
    as [Hagain Hother].
  assert (Hfull : _crc32c (B "abc") ≠ "") by discriminate.
  assert (Hdiff : _crc32c (B "abd") ≠ _crc32c (B "abc")) by discriminate.
  split; [exact Hrun|]. split; [exact Hagain|]. split; [exact Hdiff|].
  exact (Hother (B "abd") Hfull Hdiff).
Defined.

Lemma _patch_object_replaces_witness :
  let patch := [ ("customTime", VStr "2022-01-01T00:00:00Z");
                 ("storageClass", VStr "COLDLINE") ] in
  PyDict.get "metageneration" stored_object = Some (VStr "1")
  ∧ py_int (VStr "1") = Ok 1
  ∧ py_gt (field stored_object "customTime") (field patch "customTime")
    = Ok false
  ∧ (∃ obj',
       _patch_object stored_object (VDict patch) = (obj', Ok tt)
       ∧ PyDict.get "customTime" obj' = Some (VStr "2022-01-01T00:00:00Z")
       ∧ PyDict.get "name" obj' = PyDict.get "name" stored_object
       ∧ PyDict.get "metageneration" obj' = Some (VStr (py_str (1 + 1))))
  ∧ _patch_object (named "k") (VDict patch)
    = (named "k", Raise (KeyError "metageneration")).
Proof.
  intros patch.
  assert (Hint : py_int (VStr "1") = Ok 1) by reflexivity.
  assert (Hne : patch ≠ []) by discriminate.
  assert (Hnewer : truthy (field stored_object "customTime") = false
                   ∨ field patch "customTime" = VNone
                   ∨ py_gt (field stored_object "customTime")
                       (field patch "customTime") = Ok false)
    by (right; right; reflexivity).
  destruct (_patch_object_replaces stored_object) as (_ & _ & Hreplace).
  destruct (Hreplace patch (VStr "1") 1 Hne eq_refl Hint Hnewer)
    as (obj' & Hrun & Hset & Hkeep & Hgen).
  destruct (_patch_object_replaces (named "k")) as (_ & Hmissing & _).
  do 3 (split; [reflexivity|]). split.
  - exists obj'. split; [exact Hrun|]. split_and!.
    + apply Hset; [|discriminate].
      unfold _WRITABLE_FIELDS. do 6 apply list_elem_of_further.
      apply list_elem_of_here.
    + apply Hkeep; [|discriminate].
      left. unfold _WRITABLE_FIELDS. rewrite !elem_of_cons, elem_of_nil.
      intuition discriminate.
    + exact Hgen.
  - exact (Hmissing (VDict patch) eq_refl eq_refl).
Defined.

Lemma _multipart_upload_verifies_digests_witness :
  let patch := [("contentType", VStr "image/png")] in
  let run := _multipart_upload one_bucket 0 "t1" "" "b" "k"
               (VStr "text/plain") (VDict patch) (B "abc") in
  int_of_str "1" = Some 1
  ∧ PyDict.mem "b" (buckets one_bucket) = true
  ∧ transient "b" = false
  ∧ accepts one_bucket "b" "k" = true
  ∧ (∃ obj,
       run.2 = Ok obj
       ∧ get_file_obj run.1 "b" "k" = Ok obj
       ∧ get_file run.1 "b" "k" = Ok (B "abc")
       ∧ field obj "crc32c" = VStr (_crc32c (B "abc"))
       ∧ field obj "contentType" = VStr "image/png"
       ∧ field obj "metageneration" = VStr (py_str (1 + 1)))
  ∧ _multipart_upload one_bucket 0 "t1" "" "b" "k" (VStr "text/plain")
      (VDict [("crc32c", VStr "abd")]) (B "abc")
    = (one_bucket,
       Raise (Conflict (Crc32cMismatch (VStr "abd") (_crc32c (B "abc"))))).
Proof.
  intros patch run.
  assert (Hint : int_of_str "1" = Some 1) by reflexivity.
  pose proof (_multipart_upload_verifies_digests one_bucket 0 "t1" "" "b" "k"
                (VStr "text/plain") patch (B "abc") 1 Hint) as Hthm.
  cbv zeta in Hthm. destruct Hthm as (_ & _ & Hstore).
  destruct (Hstore (or_introl eq_refl) (or_introl eq_refl) eq_refl eq_refl)
    as [Hreturns Hstored].
  assert (Hacc : accepts one_bucket "b" "k" = true) by reflexivity.
  destruct (proj2 Hreturns Hacc) as [obj Hok].
  destruct (Hstored obj Hok)
    as (Hobj & Hbytes & Hcrc & _ & _ & _ & _ & _ & Htype & Hgen).
  pose proof (_multipart_upload_verifies_digests one_bucket 0 "t1" "" "b" "k"
                (VStr "text/plain") [("crc32c", VStr "abd")] (B "abc") 1
                Hint) as Hbad.
  cbv zeta in Hbad. destruct Hbad as (Hrefused & _).
  assert (Hdiff : field [("crc32c", VStr "abd")] "crc32c"
                  ≠ VStr (_crc32c (B "abc"))) by discriminate.
  split; [exact Hint|]. do 2 (split; [reflexivity|]). split; [exact Hacc|].
  split.
  - exists obj. by split_and!.
  - exact (Hrefused eq_refl Hdiff).
Defined.

Lemma upload_partial_completes_witness :
  let session := [("name", VStr "k"); ("bucket", VStr "b")] in
  let range := mkRange "0" "2" "3" in
  let r := upload_partial one_resumable "b:k:t0" (Some range) (B "abc") in
  get_resumable_file_obj one_resumable "b:k:t0" = Ok session
  ∧ int_of_str (m_total_size range) = Some 3
  ∧ resumable_buffer one_resumable "b:k:t0" = []
  ∧ transient "b" = false
  ∧ accepts one_resumable "b" "k" = true
  ∧ ∃ obj,
      r.2 = Ok (Json obj)
      ∧ get_file r.1 "b" "k" = Ok (B "abc")
      ∧ get_file_obj r.1 "b" "k" = Ok obj
      ∧ field obj "size" = VStr (py_str (Z.of_nat (length (B "abc"))))
      ∧ get_resumable_file_obj r.1 "b:k:t0" = Raise NotFound
      ∧ get_file r.1 RESUMABLE_DIR (safe_id "b:k:t0") = Raise NotFound
      ∧ persisted r.1.
Proof.
  intros session range r.
  assert (Hid : "b:k:t0" ≠ "") by discriminate.
  assert (Hint : int_of_str (m_total_size range) = Some 3) by reflexivity.
  assert (Hlen : 0 ≤ 3 ≤ Z.of_nat (length (resumable_buffer one_resumable
                                             "b:k:t0" ++ B "abc")))
    by (split; vm_compute; discriminate).
  assert (Hlast :
            (Some range = None ∧ B "abc" = B "abc")
            ∨ (∃ m total,
                 Some range = Some m
                 ∧ int_of_str (m_total_size m) = Some total
                 ∧ 0 ≤ total
                   ≤ Z.of_nat (length (resumable_buffer one_resumable
                                         "b:k:t0" ++ B "abc"))
                 ∧ B "abc"
                   = take (Z.to_nat total)
                       (resumable_buffer one_resumable "b:k:t0"
                        ++ B "abc"))).
  { right. exists range, 3. split; [reflexivity|]. split; [exact Hint|].
    split; [exact Hlen | reflexivity]. }
  pose proof (upload_partial_completes one_resumable "b:k:t0" (Some range)
                (B "abc") (B "abc") session "b" "k" Hid eq_refl eq_refl
                eq_refl eq_refl eq_refl Hlast (or_introl eq_refl)
                (or_introl eq_refl)) as Hthm.
  cbv zeta in Hthm. destruct Hthm as [Hreturns Hstored].
  assert (Hacc : accepts one_resumable "b" "k" = true) by reflexivity.
  destruct (proj2 Hreturns Hacc) as [obj Hok].
  destruct (Hstored obj Hok)
    as (Hbytes & Hobj & Hsize & _ & _ & Hsession & Hbuffer & Hmeta).
  split; [reflexivity|]. split; [exact Hint|]. do 2 (split; [reflexivity|]).
  split; [exact Hacc|].
  exists obj. by split_and!.
Defined.

Lemma upload_partial_refuses_witness :
  let session := [("name", VStr "k"); ("bucket", VStr "b")] in
  let range := mkRange "0" "1" "3" in
  get_resumable_file_obj one_resumable "b:k:t0" = Ok session
  ∧ int_of_str (m_total_size range) = Some 3
  ∧ (∃ s',
       upload_partial one_resumable "b:k:t0" (Some range) (B "ab")
       = (s', Ok (ResumeIncomplete ("bytes=0-" +:+ m_end range)))
       ∧ resumable_buffer s' "b:k:t0"
         = resumable_buffer one_resumable "b:k:t0" ++ B "ab"
       ∧ same_catalog one_resumable s')
  ∧ get_resumable_file_obj one_resumable "nope" = Raise NotFound
  ∧ upload_partial one_resumable "nope" None (B "ab")
    = (one_resumable, Ok StatusNotFound).
Proof.
  intros session range.
  assert (Hint : int_of_str (m_total_size range) = Some 3) by reflexivity.
  assert (Hshort : Z.of_nat (length (resumable_buffer one_resumable "b:k:t0"
                                       ++ B "ab")) < 3) by reflexivity.
  destruct (upload_partial_refuses one_resumable "b:k:t0" (B "ab"))
    as (_ & Hincomplete & _).
  destruct (upload_partial_refuses one_resumable "nope" (B "ab"))
    as (Hunknown & _).
  split; [reflexivity|]. split; [exact Hint|]. split.
  - exact (Hincomplete session range 3 eq_refl Hint Hshort).
  - split; [reflexivity|]. exact (Hunknown None eq_refl).
Defined.

Lemma copy_stores_a_verified_copy_witness :
  let run := copy uploaded_object 1 "t2" "" "b" "k" "b" "k2" in
  get_file_obj uploaded_object "b" "k" = Ok uploaded_resource
  ∧ get_file uploaded_object "b" "k" = Ok (B "abc")
  ∧ field uploaded_resource "crc32c" = VStr (_crc32c (B "abc"))
  ∧ field uploaded_resource "md5Hash" = VStr (_md5 (B "abc"))
  ∧ PyDict.mem "b" (buckets uploaded_object) = true
  ∧ transient "b" = false
  ∧ accepts uploaded_object "b" "k2" = true
  ∧ (∃ dest_obj,
       run.2 = Ok (Json dest_obj)
       ∧ get_file run.1 "b" "k2" = Ok (B "abc")
       ∧ get_file_obj run.1 "b" "k2" = Ok dest_obj
       ∧ field dest_obj "name" = VStr "k2"
       ∧ field dest_obj "contentType" = VStr "text/plain"
       ∧ field dest_obj "metageneration" = VStr (py_str (1 + 1))
       ∧ get_file run.1 "b" "k" = Ok (B "abc")
       ∧ get_file_obj run.1 "b" "k" = Ok uploaded_resource)
  ∧ copy uploaded_object 1 "t2" "" "b" "nope" "b" "k2"
    = (uploaded_object, Ok StatusNotFound).
Proof.
  intros run.
  assert (Hint : int_of_str "1" = Some 1) by reflexivity.
  assert (Hother : ("b", "k") ≠ ("b", "k2")) by discriminate.
  assert (Hplace : "b" ≠ "b" ∨ normpath "k" ≠ normpath "k2")
    by (right; discriminate).
  pose proof (copy_stores_a_verified_copy uploaded_object 1 "t2" "" "b" "k"
                "b" "k2") as Hthm.
  cbv zeta in Hthm. destruct Hthm as [_ Hheld].
  destruct (Hheld uploaded_resource (VStr "text/plain") (VStr "3") (B "abc")
              1 eq_refl eq_refl eq_refl eq_refl Hint) as [_ Hgood].
  destruct (Hgood (or_intror eq_refl) (or_intror eq_refl)) as [_ Hstore].
  destruct (Hstore eq_refl eq_refl) as [Hreturns Hstored].
  assert (Hacc : accepts uploaded_object "b" "k2" = true) by reflexivity.
  destruct (proj2 Hreturns Hacc) as [dest_obj Hok].
  destruct (Hstored dest_obj Hok)
    as (Hbytes & Hobj & Hname & _ & _ & Htype & _ & _ & Hgen & _ & Hso
        & Hsb).
  pose proof (copy_stores_a_verified_copy uploaded_object 1 "t2" "" "b"
                "nope" "b" "k2") as Hmissing.
  cbv zeta in Hmissing. destruct Hmissing as [Hmissing _].
  do 6 (split; [reflexivity|]). split; [exact Hacc|]. split.
  - exists dest_obj.
    split_and!;
      [ exact Hok | exact Hbytes | exact Hobj | exact Hname | exact Htype
      | exact Hgen | exact (Hsb Hplace) | exact (Hso Hother) ].
  - exact (Hmissing eq_refl).
Defined.

Lemma compose_concatenates_witness :
  let run := compose two_objects 1 "t2" "" "b" "all" (VDict []) ["k"; "k2"] in
  get_file two_objects "b" "k" = Ok (B "abc")
  ∧ get_file two_objects "b" "k2" = Ok (B "def")
  ∧ get_file two_objects "b" "nope" = Raise NotFound
  ∧ PyDict.mem "b" (buckets two_objects) = true
  ∧ transient "b" = false
  ∧ accepts two_objects "b" "all" = true
  ∧ (∃ dest_obj,
       run.2 = Ok (Json dest_obj)
       ∧ get_file run.1 "b" "all" = Ok (concat [B "abc"; B "def"])
       ∧ get_file_obj run.1 "b" "all" = Ok dest_obj
       ∧ field dest_obj "size"
         = VInt (Z.of_nat (length (concat [B "abc"; B "def"])))
       ∧ field dest_obj "contentType" = VStr "text/plain")
  ∧ compose two_objects 1 "t2" "" "b" "all" (VDict [])
      (["k"; "k2"] ++ "nope" :: [])
    = (two_objects, Ok StatusNotFound).
Proof.
  intros run.
  assert (Hint : int_of_str "1" = Some 1) by reflexivity.
  assert (Hparts : Forall2
                     (λ name part, get_file two_objects "b" name = Ok part)
                     ["k"; "k2"] [B "abc"; B "def"]).
  { constructor; [reflexivity|]. constructor; [reflexivity|]. constructor. }
  assert (Hfirst : ∃ temp, get_file_obj two_objects "b" "k" = Ok temp
                           ∧ PyDict.get "contentType" temp
                             = Some (VStr "text/plain")
                           ∧ is_none (VStr "text/plain") = false).
  { exists uploaded_resource. split; [reflexivity|].
    split; reflexivity. }
  assert (Hnames : ["k"; "k2"] ≠ []) by discriminate.
  destruct (compose_concatenates two_objects 1 "t2" "" "b" "all" []
              ["k"; "k2"] [B "abc"; B "def"] (VStr "text/plain") 1
              Hparts Hfirst Hint) as [Hmissing Hstore].
  pose proof (Hstore (or_introl eq_refl) (or_introl eq_refl) eq_refl eq_refl)
    as Hthm.
  cbv zeta in Hthm. destruct Hthm as [Hreturns Hstored].
  assert (Hacc : accepts two_objects "b" "all" = true) by reflexivity.
  destruct (proj2 Hreturns Hacc) as [dest_obj Hok].
  destruct (Hstored dest_obj Hok) as (Hbytes & Hobj & Hsize & Htype & _).
  do 5 (split; [reflexivity|]). split; [exact Hacc|]. split.
  - exists dest_obj. by split_and!.
  - exact (Hmissing "nope" [] Hnames eq_refl).
Defined.

Lemma download_serves_the_range_witness :
  get_file uploaded_object "b" "k" = Ok (B "abc")
  ∧ get_file_obj uploaded_object "b" "k" = Ok uploaded_resource
  ∧ int_of_str "1" = Some 1
  ∧ download uploaded_object "b" "k" (Some (Some ("1", "1")))
    = Ok (PartialContent
            ("bytes " +:+ py_str 1 +:+ "-" +:+ py_str (2 - 1) +:+ "/"
             +:+ py_str (Z.of_nat (length (B "abc"))))
            (field uploaded_resource "contentType")
            (take (Z.to_nat (2 - 1)) (drop (Z.to_nat 1) (B "abc"))))
  ∧ download uploaded_object "b" "nope" None = Ok DownloadNotFound
  ∧ get_file uploaded_object "b" "../k" = Raise IllegalBackReference
  ∧ get_file_obj uploaded_object "b" "../k" = Raise NotFound
  ∧ download uploaded_object "b" "../k" None = Raise IllegalBackReference.
Proof.
  assert (Hint : int_of_str "1" = Some 1) by reflexivity.
  assert (Hstart : 0 ≤ 1) by discriminate.
  assert (Hend : ("1" = "" ∧ 2 = Z.of_nat (length (B "abc")))
                 ∨ (∃ e, "1" ≠ "" ∧ int_of_str "1" = Some e ∧ 0 ≤ e
                         ∧ 2 = Z.min (Z.of_nat (length (B "abc"))) (e + 1))).
  { right. exists 1. split; [discriminate|]. split; [exact Hint|].
    split; [exact Hstart | reflexivity]. }
  destruct (download_serves_the_range uploaded_object "b" "k")
    as (_ & _ & Hheld).
  destruct (Hheld (B "abc") uploaded_resource eq_refl eq_refl)
    as (_ & _ & Hrange).
  destruct (Hrange "1" "1" 1 2 Hint Hstart Hend) as [Hpartial _].
  destruct (download_serves_the_range uploaded_object "b" "nope")
    as [Hmissing _].
  destruct (download_serves_the_range uploaded_object "b" "../k")
    as (_ & Hrefused & _).
  assert (Hother : IllegalBackReference ≠ NotFound) by discriminate.
  destruct (Hrefused IllegalBackReference eq_refl Hother) as [_ Hraise].
  do 3 (split; [reflexivity|]). split; [exact Hpartial|].
  split; [exact (Hmissing (or_introl eq_refl) None)|].
  do 2 (split; [reflexivity|]). exact (Hraise None).
Defined.

Lemma _patch_installs_the_patch_witness :
  let patch := [("storageClass", VStr "COLDLINE")] in
  get_file_obj uploaded_object "b" "k" = Ok uploaded_resource
  ∧ PyDict.get "metageneration" uploaded_resource = Some (VStr "1")
  ∧ py_int (VStr "1") = Ok 1
  ∧ truthy (field uploaded_resource "customTime") = false
  ∧ (∃ s' obj',
       _patch uploaded_object "b" "k" (VDict patch) = (s', Ok (Some obj'))
       ∧ get_file_obj s' "b" "k" = Ok obj'
       ∧ persisted s'
       ∧ _fs s' = _fs uploaded_object
       ∧ PyDict.get "metageneration" obj' = Some (VStr (py_str (1 + 1)))
       ∧ PyDict.get "storageClass" obj' = Some (VStr "COLDLINE"))
  ∧ _patch uploaded_object "b" "nope" (VDict patch)
    = (uploaded_object, Ok None).
Proof.
  intros patch.
  assert (Hint : py_int (VStr "1") = Ok 1) by reflexivity.
  assert (Hne : patch ≠ []) by discriminate.
  destruct (_patch_installs_the_patch uploaded_object "b" "k")
    as [_ Hheld].
  destruct (Hheld uploaded_resource patch (VStr "1") 1 eq_refl Hne eq_refl
              Hint (or_introl eq_refl))
    as (s' & obj' & Hrun & Hobj & Hmeta & Hfs & Hgen & Hset & _).
  destruct (_patch_installs_the_patch uploaded_object "b" "nope")
    as [Hmissing _].
  do 4 (split; [reflexivity|]). split.
  - exists s', obj'. split_and!; try done.
    apply Hset; [|discriminate].
    unfold _WRITABLE_FIELDS. do 9 apply list_elem_of_further.
    apply list_elem_of_here.
  - exact (Hmissing (VDict patch) eq_refl).
Defined.

Lemma _patch_after_complete_multipart_upload_witness :
  let s' := (complete_multipart_upload parts_1_and_3 "t1" "b:k:t0").1 in
  PyDict.get "b:k:t0" (multipart parts_1_and_3) = Some one_session_resource
  ∧ PyDict.get "metageneration" one_session_resource = None
  ∧ transient "b" = false
  ∧ accepts parts_1_and_3 "b" "k" = true
  ∧ (complete_multipart_upload parts_1_and_3 "t1" "b:k:t0").2 = Ok tt
  ∧ _patch s' "b" "k" (VDict [("storageClass", VStr "COLDLINE")])
    = (s', Raise (KeyError "metageneration")).
Proof.
  intros s'.
  pose proof (_patch_after_complete_multipart_upload parts_1_and_3 "t1"
                "b:k:t0" one_session_resource "b" "k"
                (VDict [("storageClass", VStr "COLDLINE")])
                eq_refl eq_refl eq_refl eq_refl eq_refl eq_refl eq_refl
                eq_refl)
    as Hthm.
  cbv zeta in Hthm. destruct Hthm as [Hreturns Hpatch].
  assert (Hacc : accepts parts_1_and_3 "b" "k" = true) by reflexivity.
  do 3 (split; [reflexivity|]). split; [exact Hacc|].
  split; [exact (proj2 Hreturns Hacc) | exact (Hpatch (proj2 Hreturns Hacc))].
Defined.
